(** * Hypeon Analytics: attribution, MMM runner and reconciliation report

    A shallow embedding of

    - [packages/attribution/src/click_id_attribution.py]
    - [packages/attribution/src/runner.py]
    - [packages/metrics/src/attribution_mmm_report.py]
    - [packages/mmm/src/runner.py]

    Python floats are read as exact rationals ([Qc], canonical fractions with
    Leibniz equality), so rounding error is not part of the model; the adstock
    filter, whose decay [0.5 ** (1 / half_life)] is irrational, is also read
    over the reals.  A SQL table is the list of its rows, a date is its
    ordinal day number, a [str] is the string of its UTF-8 bytes, a [dict]
    with string keys is a [gmap string _] and a [set] of strings a
    [gset string]. *)

From Stdlib Require Import QArith Qcanon Qcabs Qround Reals Lra Lia ZArith.
From stdpp Require Import base option list gmap sets strings sorting fin_maps.

Open Scope Qc_scope.

(** ** Python primitives *)

Module Py.

(** Exceptions the embedded code can raise. *)
Inductive exn : Type :=
| ZeroDivisionError
| ValueError
| KeyError (key : string)
| AttributeError.

Inductive result (A : Type) : Type :=
| Ok (a : A)
| Raise (e : exn).
Arguments Ok {A} a.
Arguments Raise {A} e.

Definition bind {A B} (r : result A) (k : A → result B) : result B :=
  match r with
  | Ok a => k a
  | Raise e => Raise e
  end.

Definition returns {A} (r : result A) : Prop := ∃ a, r = Ok a.

(** [x or d] on floats: [d] when [x] is falsy, that is zero. *)
Definition or_default (x d : Qc) : Qc := if decide (x = 0) then d else x.

(** [x / y] on floats. *)
Definition div (x y : Qc) : result Qc :=
  if decide (y = 0) then Raise ZeroDivisionError else Ok (x / y).

(** [sum(xs)] *)
Definition sum (xs : list Qc) : Qc := foldr Qcplus 0 xs.

(** [sum(d.values())] *)
Definition sum_values (d : gmap string Qc) : Qc := sum ((map_to_list d).*2).

(** [d.get(k, 0.0)] *)
Definition get0 (d : gmap string Qc) (k : string) : Qc := default 0 (d !! k).

(** [{k: v / total for k, v in d.items()}]: one division per item, so it
    raises exactly when [d] has an item and [total] is zero. *)
Definition div_values (d : gmap string Qc) (total : Qc) : result (gmap string Qc) :=
  if decide (d = ∅) then Ok ∅
  else if decide (total = 0) then Raise ZeroDivisionError
  else Ok ((λ v, v / total) <$> d).

(** A string is held as its UTF-8 bytes, so that a character of a Python
    [str] is one to four bytes here.  White space as [str.strip] and
    [str.isspace] see it is U+0009 to U+000D, U+001C to U+0020, U+0085,
    U+00A0, U+1680, U+2000 to U+200A, U+2028, U+2029, U+202F, U+205F and
    U+3000.  [is_space] is the one-byte part. *)
Definition is_space (c : Ascii.ascii) : bool :=
  let n := Ascii.nat_of_ascii c in
  ((9 <=? n)%nat && (n <=? 13)%nat) || ((28 <=? n)%nat && (n <=? 32)%nat).

(** U+0085 is [C2 85] and U+00A0 is [C2 A0]. *)
Definition is_space2 (b1 b2 : nat) : bool :=
  (b1 =? 194)%nat && ((b2 =? 133)%nat || (b2 =? 160)%nat).

(** U+1680 is [E1 9A 80]; U+2000 to U+200A are [E2 80 80] to [E2 80 8A];
    U+2028, U+2029 and U+202F are [E2 80 A8], [E2 80 A9] and [E2 80 AF];
    U+205F is [E2 81 9F]; U+3000 is [E3 80 80]. *)
Definition is_space3 (b1 b2 b3 : nat) : bool :=
  ((b1 =? 225)%nat && (b2 =? 154)%nat && (b3 =? 128)%nat)
  || ((b1 =? 226)%nat && (b2 =? 128)%nat
      && (((128 <=? b3)%nat && (b3 <=? 138)%nat)
          || (b3 =? 168)%nat || (b3 =? 169)%nat || (b3 =? 175)%nat))
  || ((b1 =? 226)%nat && (b2 =? 129)%nat && (b3 =? 159)%nat)
  || ((b1 =? 227)%nat && (b2 =? 128)%nat && (b3 =? 128)%nat).

(** Drops the white space characters at the front of [s]; with [reversed]
    the bytes of [s], and so those of each character, come last byte first. *)
Fixpoint strip_front (reversed : bool) (s : string) : string :=
  match s with
  | EmptyString => EmptyString
  | String c1 s1 =>
    let n1 := Ascii.nat_of_ascii c1 in
    if is_space c1 then strip_front reversed s1
    else
      match s1 with
      | EmptyString => s
      | String c2 s2 =>
        let n2 := Ascii.nat_of_ascii c2 in
        if (if reversed then is_space2 n2 n1 else is_space2 n1 n2)
        then strip_front reversed s2
        else
          match s2 with
          | EmptyString => s
          | String c3 s3 =>
            let n3 := Ascii.nat_of_ascii c3 in
            if (if reversed then is_space3 n3 n2 n1 else is_space3 n1 n2 n3)
            then strip_front reversed s3
            else s
          end
      end
  end.

(** [s.lstrip()] *)
Definition lstrip (s : string) : string := strip_front false s.

(** [s.strip()] *)
Definition strip (s : string) : string :=
  String.rev (strip_front true (String.rev (lstrip s))).

(** [round(x, ndigits)]: to the nearest multiple of [10 ** -ndigits], a tie
    to the even one. *)
Definition round_half_even (x : Q) : Z :=
  let f := Qfloor x in
  let r := (x - inject_Z f)%Q in
  match (r ?= 1 # 2)%Q with
  | Lt => f
  | Gt => (f + 1)%Z
  | Eq => if Z.even f then f else (f + 1)%Z
  end.

Definition round (x : Qc) (ndigits : nat) : Qc :=
  let scale := (10 ^ Z.of_nat ndigits)%Z in
  Q2Qc (inject_Z (round_half_even (x * inject_Z scale)%Q) / inject_Z scale)%Q.

End Py.

#[global] Instance result_ret : MRet Py.result := λ A a, Py.Ok a.
#[global] Instance result_bind : MBind Py.result := λ A B k r, Py.bind r k.

(** ** Tables ([packages/shared/src/models.py]) *)

Module RawAds.
(** A row of [raw_meta_ads], [raw_google_ads], [raw_bing_ads] or
    [raw_pinterest_ads]. *)
Record t : Type := mk { date : Z; campaign_id : string; spend : Qc }.
End RawAds.

Module RawOrder.
(** A row of [raw_shopify_orders] or [raw_woocommerce_orders]. *)
Record t : Type := mk {
  order_id : string;
  order_date : Z;
  revenue : Qc;
  net_revenue : option Qc;
  click_id : option string
}.
End RawOrder.

Module RawAdClicks.
Record t : Type := mk {
  click_id : string;
  date : Z;
  campaign_id : string;
  campaign_name : option string;
  channel : string
}.
End RawAdClicks.

Module AttributionEvent.
Record t : Type := mk {
  order_id : string;
  channel : string;
  campaign_id : option string;
  cost_center : option string;
  weight : Qc;
  allocated_revenue : Qc;
  event_date : Z;
  run_id : string
}.
End AttributionEvent.

Module MMMResults.
Record t : Type := mk {
  run_id : string;
  created_at : Z;
  channel : string;
  coefficient : Qc;
  goodness_of_fit_r2 : option Qc;
  model_version : option string
}.
End MMMResults.

(** The database behind a [Session]. *)
Record Session : Type := mkSession {
  raw_meta_ads : list RawAds.t;
  raw_google_ads : list RawAds.t;
  raw_bing_ads : list RawAds.t;
  raw_pinterest_ads : list RawAds.t;
  raw_shopify_orders : list RawOrder.t;
  raw_woocommerce_orders : list RawOrder.t;
  raw_ad_clicks : list RawAdClicks.t;
  attribution_events : list AttributionEvent.t;
  mmm_results : list MMMResults.t
}.

(** [session.add(ev)] for each [ev], then [session.commit()]. *)
Definition add_attribution_events (session : Session) (evs : list AttributionEvent.t) : Session :=
  mkSession (raw_meta_ads session) (raw_google_ads session) (raw_bing_ads session)
    (raw_pinterest_ads session) (raw_shopify_orders session)
    (raw_woocommerce_orders session) (raw_ad_clicks session)
    (attribution_events session ++ evs) (mmm_results session).

Definition add_mmm_results (session : Session) (rows : list MMMResults.t) : Session :=
  mkSession (raw_meta_ads session) (raw_google_ads session) (raw_bing_ads session)
    (raw_pinterest_ads session) (raw_shopify_orders session)
    (raw_woocommerce_orders session) (raw_ad_clicks session)
    (attribution_events session) (mmm_results session ++ rows).

(** [where(T.date >= start, T.date <= end)] *)
Definition in_window (start_date end_date d : Z) : Prop := (start_date ≤ d ∧ d ≤ end_date)%Z.

#[global] Instance in_window_dec s e d : Decision (in_window s e d).
Proof. unfold in_window. apply _. Defined.

Definition orders_in_window (start_date end_date : Z) (tbl : list RawOrder.t) : list RawOrder.t :=
  filter (λ o, in_window start_date end_date (RawOrder.order_date o)) tbl.

Definition ads_in_window (start_date end_date : Z) (tbl : list RawAds.t) : list RawAds.t :=
  filter (λ r, in_window start_date end_date (RawAds.date r)) tbl.

Definition clicks_in_window (start_date end_date : Z) (tbl : list RawAdClicks.t) : list RawAdClicks.t :=
  filter (λ r, in_window start_date end_date (RawAdClicks.date r)) tbl.

(** [o.net_revenue if o.net_revenue is not None else o.revenue] *)
Definition order_revenue (o : RawOrder.t) : Qc :=
  match RawOrder.net_revenue o with
  | Some net => net
  | None => RawOrder.revenue o
  end.

(** ** [click_id_attribution.py] *)

Module click_id_attribution.

Definition click_info : Type := string * string * option string.

(** The [clicks] dict comprehension: a later row of the same [click_id]
    overwrites an earlier one. *)
Definition clicks_by_id (session : Session) (start_date end_date : Z) : gmap string click_info :=
  foldl (λ m r, <[RawAdClicks.click_id r :=
                    (RawAdClicks.channel r, RawAdClicks.campaign_id r, RawAdClicks.campaign_name r)]> m)
        ∅ (clicks_in_window start_date end_date (raw_ad_clicks session)).

(** One pass of either loop body: the event added for [order], or [None]
    where the body hits a [continue]. *)
Definition order_event (run_id : string) (clicks : gmap string click_info)
    (order : RawOrder.t) : option AttributionEvent.t :=
  match RawOrder.click_id order with
  | None => None
  | Some cid =>
    if decide (cid = EmptyString ∨ Py.strip cid = EmptyString) then None
    else
      match clicks !! Py.strip cid with
      | None => None
      | Some (channel, campaign_id, campaign_name) =>
        let revenue := order_revenue order in
        if decide (revenue ≤ 0) then None
        else Some (AttributionEvent.mk (RawOrder.order_id order) channel
                     (Some campaign_id) campaign_name 1 revenue
                     (RawOrder.order_date order) run_id)
      end
  end.

(** Loop state: the events added to the session, [attributed_order_ids]
    and [count]. *)
Definition loop_state : Type := list AttributionEvent.t * gset string * nat.

Definition loop_body (run_id : string) (clicks : gmap string click_info)
    (st : loop_state) (order : RawOrder.t) : loop_state :=
  let '(added, attributed_order_ids, count) := st in
  match order_event run_id clicks order with
  | None => st
  | Some ev => (added ++ [ev], attributed_order_ids ∪ {[RawOrder.order_id order]}, S count)
  end.

(** The state after the Shopify loop and then the WooCommerce loop. *)
Definition loops (session : Session) (run_id : string) (start_date end_date : Z) : loop_state :=
  let clicks := clicks_by_id session start_date end_date in
  let st := foldl (loop_body run_id clicks) ([], ∅, O)
              (orders_in_window start_date end_date (raw_shopify_orders session)) in
  foldl (loop_body run_id clicks) st
    (orders_in_window start_date end_date (raw_woocommerce_orders session)).

(** Returns [(count, attributed_order_ids)] and the session after the call. *)
Definition run_click_id_attribution (session : Session) (run_id : string)
    (start_date end_date : Z) : (nat * gset string) * Session :=
  let clicks := clicks_by_id session start_date end_date in
  if decide (clicks = ∅) then ((O, ∅), session)
  else
    let '(added, attributed_order_ids, count) := loops session run_id start_date end_date in
    ((count, attributed_order_ids), add_attribution_events session added).

End click_id_attribution.

(** ** Data frames handed from the runner to the allocator *)

Module OrderRow.
(** A row of the frame built by [_orders_df]. *)
Record t : Type := mk { order_id : string; order_date : Z; revenue : Qc }.
End OrderRow.

Module SpendRow.
(** A row of the frame built by [_daily_spend_by_channel]. *)
Record t : Type := mk { date : Z; channel : string; spend : Qc }.
End SpendRow.

(** [(order_id, event_date, channel, weight, allocated_revenue)] *)
Definition Allocated : Type := string * Z * string * Qc * Qc.

Definition Qc_of_nat (n : nat) : Qc := Q2Qc (inject_Z (Z.of_nat n)).

(** ** [allocator.py] *)

Module allocator.

Definition DEFAULT_CHANNELS : list string := ["meta"; "google"; "bing"; "pinterest"].

(** Total spend per channel over the window. *)
Definition spend_totals (daily_spend : list SpendRow.t) : gmap string Qc :=
  foldl (λ m r, <[SpendRow.channel r := Py.get0 m (SpendRow.channel r) + SpendRow.spend r]> m)
        ∅ daily_spend.

(** The items of [d] whose value is not zero. *)
Definition nonzero (d : gmap string Qc) : gmap string Qc := filter (λ kv, kv.2 ≠ 0) d.

Definition equal_split (channels : list string) : gmap string Qc :=
  list_to_map ((λ ch, (ch, 1 / Qc_of_nat (length channels))) <$> channels).

(** Weights scaled to sum to one; the spec does not say what happens when
    they sum to zero, and the model leaves that case undefined. *)
Definition normalize (w : gmap string Qc) : option (gmap string Qc) :=
  let total := Py.sum_values w in
  if decide (total = 0) then None else Some ((λ v, v / total) <$> w).

(** Modelled from the spec: the weight policy of [fractional_allocate]
    ([packages/attribution/src/allocator.py] is not among the sources).  The
    spec: if explicit weights are supplied, use them directly, normalized to
    sum 1 across channels with nonzero spend; otherwise each channel's weight
    is its share of total spend in the window; if no channel has any spend,
    fall back to an equal split across the default channel set. *)
Definition allocation_weights (daily_spend : list SpendRow.t)
    (channel_weights : option (gmap string Qc)) : option (gmap string Qc) :=
  let with_spend := nonzero (spend_totals daily_spend) in
  if decide (with_spend = ∅) then Some (equal_split DEFAULT_CHANNELS)
  else
    match channel_weights with
    | Some w => normalize (filter (λ kv, kv.1 ∈ dom with_spend) w)
    | None => normalize with_spend
    end.

(** The tuples emitted for one order: one per channel with nonzero weight,
    allocating [revenue * weight]. *)
Definition allocate_order (w : gmap string Qc) (o : OrderRow.t) : list Allocated :=
  (λ kv, (OrderRow.order_id o, OrderRow.order_date o, kv.1, kv.2, OrderRow.revenue o * kv.2))
    <$> map_to_list (nonzero w).

(** Modelled from the spec: [fractional_allocate(orders, daily_spend,
    channel_weights)] of the missing [allocator.py], following section 4.2 of
    the spec: for each order, one tuple per channel with nonzero weight. *)
Definition fractional_allocate (orders : list OrderRow.t) (daily_spend : list SpendRow.t)
    (channel_weights : option (gmap string Qc)) : option (list Allocated) :=
  w ← allocation_weights daily_spend channel_weights;
  Some (orders ≫= allocate_order w).

End allocator.

(** ** [markov.py] *)

Module markov.
Section markov.

(** The removal-effect credit of each channel, computed by the missing
    [markov.py] once Markov attribution is active. *)
Variable removal_effect_credits : list (list string) → list string → gmap string Qc.

(** Modelled from the spec: [markov_credits(sequences, channels,
    min_sequences)] of the missing [markov.py].  The spec: requires at least
    [min_sequences] sequences to activate; below threshold, returns no
    override. *)
Definition markov_credits (sequences : list (list string)) (channels : list string)
    (min_sequences : Z) : option (gmap string Qc) :=
  if decide (Z.of_nat (length sequences) < min_sequences)%Z then None
  else Some (removal_effect_credits sequences channels).

End markov.
End markov.

(** ** [attribution/src/runner.py] *)

Module attribution_runner.


Definition order_row (o : RawOrder.t) : OrderRow.t :=
  OrderRow.mk (RawOrder.order_id o) (RawOrder.order_date o) (order_revenue o).

Definition _orders_df (session : Session) (start_date end_date : Z)
    (order_ids_to_exclude : option (gset string)) : list OrderRow.t :=
  let exclude := default ∅ order_ids_to_exclude in
  let rows tbl :=
    order_row <$> filter (λ o, RawOrder.order_id o ∉ exclude)
                    (orders_in_window start_date end_date tbl) in
  rows (raw_shopify_orders session) ++ rows (raw_woocommerce_orders session).

Definition _daily_spend_by_channel (session : Session) (start_date end_date : Z) : list SpendRow.t :=
  let rows ch tbl :=
    (λ rec, SpendRow.mk (RawAds.date rec) ch (RawAds.spend rec))
      <$> ads_in_window start_date end_date tbl in
  rows "meta" (raw_meta_ads session) ++ rows "google" (raw_google_ads session)
    ++ rows "bing" (raw_bing_ads session) ++ rows "pinterest" (raw_pinterest_ads session).

(** [Series.unique()]: the distinct values in order of first appearance. *)
Fixpoint unique (l : list string) : list string :=
  match l with
  | [] => []
  | x :: l' => x :: filter (λ y, y ≠ x) (unique l')
  end.

Definition event_of_allocated (run_id : string) (a : Allocated) : AttributionEvent.t :=
  let '(order_id, event_date, channel, weight, allocated_revenue) := a in
  AttributionEvent.mk order_id channel None None weight allocated_revenue event_date run_id.

Section runner.

Variable removal_effect_credits : list (list string) → list string → gmap string Qc.

(** The weights handed to the allocator (the [weights] variable of
    [_core_attribution_logic]). *)
Definition allocator_weights (channel_weights : option (gmap string Qc))
    (session_sequences : option (list (list string))) (channels : list string)
    (min_sequences_for_markov : Z) : option (gmap string Qc) :=
  match session_sequences with
  | Some sequences =>
    match markov.markov_credits removal_effect_credits sequences channels
            min_sequences_for_markov with
    | Some markov_w => Some markov_w
    | None => channel_weights
    end
  | None => channel_weights
  end.

Definition channels_of (daily_spend : list SpendRow.t) : list string :=
  match daily_spend with
  | [] => ["meta"; "google"; "bing"; "pinterest"]
  | _ => unique (SpendRow.channel <$> daily_spend)
  end.

(** Returns [(n_written, allocations_dict, allocated)] and the session after
    the call; [None] only where the modelled allocator is undefined. *)
Definition _core_attribution_logic (session : Session) (run_id : string)
    (start_date end_date : Z) (channel_weights : option (gmap string Qc))
    (session_sequences : option (list (list string))) (min_sequences_for_markov : Z)
    (order_ids_to_exclude : option (gset string))
  : option ((nat * gmap string Qc * list Allocated) * Session) :=
  let orders := _orders_df session start_date end_date order_ids_to_exclude in
  match orders with
  | [] => Some ((O, ∅, []), session)
  | _ =>
    let daily_spend := _daily_spend_by_channel session start_date end_date in
    let channels := channels_of daily_spend in
    let weights :=
      allocator_weights channel_weights session_sequences channels min_sequences_for_markov in
    allocated ← allocator.fractional_allocate orders daily_spend weights;
    let session' := add_attribution_events session (event_of_allocated run_id <$> allocated) in
    let n_written := length allocated in
    let total_by_ch :=
      foldl (λ (m : gmap string Qc) (a : Allocated), <[a.1.1.2 := Py.get0 m a.1.1.2 + a.2]> m)
            ∅ allocated in
    let total_rev := Py.or_default (Py.sum_values total_by_ch) 1 in
    let allocations_dict :=
      foldl (λ (m : gmap string Qc) ch, <[ch := Py.get0 total_by_ch ch / total_rev]> m)
            ∅ channels in
    Some ((n_written, allocations_dict, allocated), session')
  end.

(** Returns the number of rows written and the session after the call. *)
Definition run_attribution (session : Session) (run_id : string) (start_date end_date : Z)
    (channel_weights : option (gmap string Qc))
    (session_sequences : option (list (list string))) (min_sequences_for_markov : Z)
  : option (nat * Session) :=
  let '((click_n, attributed), session1) :=
    click_id_attribution.run_click_id_attribution session run_id start_date end_date in
  '((n_written, _, _), session2) ←
    _core_attribution_logic session1 run_id start_date end_date channel_weights
      session_sequences min_sequences_for_markov (Some attributed);
  Some ((click_n + n_written)%nat, session2).

End runner.
End attribution_runner.

(** ** [attribution_mmm_report.py] *)

(** [if run_id:] holds for a string that is neither [None] nor empty. *)
Definition truthy (s : option string) : option string :=
  match s with
  | Some id => if decide (id = EmptyString) then None else Some id
  | None => None
  end.

(** [stmt.where(T.run_id == run_id)], applied under [if run_id:]. *)
Definition run_matches (run_id : option string) (id : string) : Prop :=
  match truthy run_id with
  | Some wanted => id = wanted
  | None => True
  end.

#[global] Instance run_matches_dec run_id id : Decision (run_matches run_id id).
Proof. unfold run_matches. destruct (truthy run_id); apply _. Defined.

Module attribution_mmm_report.

Definition DEFAULT_ADSTOCK_HALF_LIFE : Qc := Q2Qc 7.
Definition INSTABILITY_THRESHOLD : Qc := Q2Qc (25 # 100).

Definition _attribution_revenue_by_channel (session : Session) (start_date end_date : Z)
    (run_id : option string) : gmap string Qc :=
  let rows :=
    filter (λ r, in_window start_date end_date (AttributionEvent.event_date r)
                 ∧ run_matches run_id (AttributionEvent.run_id r))
           (attribution_events session) in
  foldl (λ by_ch r, <[AttributionEvent.channel r :=
                        Py.get0 by_ch (AttributionEvent.channel r)
                        + AttributionEvent.allocated_revenue r]> by_ch)
        ∅ rows.

(** One of the four loops of [_spend_by_channel]. *)
Definition add_spend (ch : string) (by_ch : gmap string Qc) (rows : list RawAds.t) : gmap string Qc :=
  foldl (λ m r, <[ch := Py.get0 m ch + RawAds.spend r]> m) by_ch rows.

Definition _spend_by_channel (session : Session) (start_date end_date : Z) : gmap string Qc :=
  let by_ch := add_spend "meta" ∅ (ads_in_window start_date end_date (raw_meta_ads session)) in
  let by_ch := add_spend "google" by_ch (ads_in_window start_date end_date (raw_google_ads session)) in
  let by_ch := add_spend "bing" by_ch (ads_in_window start_date end_date (raw_bing_ads session)) in
  add_spend "pinterest" by_ch (ads_in_window start_date end_date (raw_pinterest_ads session)).

(** [ORDER BY created_at DESC] *)
Definition newer_first (r1 r2 : MMMResults.t) : Prop :=
  (MMMResults.created_at r2 ≤ MMMResults.created_at r1)%Z.

#[global] Instance newer_first_dec r1 r2 : Decision (newer_first r1 r2).
Proof. unfold newer_first. apply _. Defined.

(** [select(MMMResults).order_by(MMMResults.created_at.desc())], narrowed to
    [mmm_run_id] when that is given. *)
Definition select_mmm_results (session : Session) (mmm_run_id : option string) : list MMMResults.t :=
  filter (λ r, run_matches mmm_run_id (MMMResults.run_id r))
         (merge_sort newer_first (mmm_results session)).

(** The [by_channel] loop: the first row of each channel is kept. *)
Definition first_coefficient_by_channel (rows : list MMMResults.t) : gmap string Qc :=
  foldl (λ by_channel r,
           match by_channel !! MMMResults.channel r with
           | None => <[MMMResults.channel r := MMMResults.coefficient r]> by_channel
           | Some _ => by_channel
           end)
        ∅ rows.

(** The report record returned by [build_attribution_mmm_report]. *)
Record Report : Type := mkReport {
  channels : list string;
  attribution_share : gmap string Qc;
  mmm_share : gmap string Qc;
  disagreement_score : Qc;
  instability_flagged : bool
}.

(** [sorted(set(list(a.keys()) + list(m.keys())))] *)
Definition channel_union (a m : gmap string Qc) : list string :=
  merge_sort String.le (elements (dom a ∪ dom m)).

(** The loop over [channels]: the value of the local [disagreement_score]. *)
Definition disagreement (attribution_share mmm_share : gmap string Qc) : Qc :=
  foldl (λ acc ch, acc + Qcabs (Py.get0 attribution_share ch - Py.get0 mmm_share ch))
        0 (channel_union attribution_share mmm_share).

(** Lines 117 to 131 of [build_attribution_mmm_report]. *)
Definition report_of_shares (attribution_share mmm_share : gmap string Qc)
    (instability_threshold : Qc) : Report :=
  let disagreement_score := disagreement attribution_share mmm_share in
  let instability_flagged := bool_decide (instability_threshold < disagreement_score) in
  mkReport (channel_union attribution_share mmm_share) attribution_share mmm_share
    (Py.round disagreement_score 4) instability_flagged.

(** [total = sum(d.values()) or 1.0; {ch: v / total for ch, v in d.items()}] *)
Definition shares (d : gmap string Qc) : Py.result (gmap string Qc) :=
  let total := Py.or_default (Py.sum_values d) 1 in
  Py.div_values d total.

Section report.

(** [_response_single_channel(spend, half_life)] of the missing
    [packages/mmm/src/optimizer.py]. *)
Variable _response_single_channel : Qc → Qc → Qc.

(** Returns [(contribution, share)]. *)
Definition _mmm_contribution_share (session : Session) (spend_by_channel : gmap string Qc)
    (mmm_run_id : option string) (half_life : Qc)
  : Py.result (gmap string Qc * gmap string Qc) :=
  let rows := select_mmm_results session mmm_run_id in
  match rows with
  | [] => mret (∅, ∅)
  | _ =>
    let by_channel := first_coefficient_by_channel rows in
    let contribution :=
      map_imap (λ ch coef,
                  let spend := Py.get0 spend_by_channel ch in
                  let resp := _response_single_channel spend half_life in
                  Some (coef * resp))
               by_channel in
    share ← shares contribution;
    mret (contribution, share)
  end.

Definition build_attribution_mmm_report (session : Session) (start_date end_date : Z)
    (attribution_run_id mmm_run_id : option string) (instability_threshold : Qc)
  : Py.result Report :=
  let attr_rev := _attribution_revenue_by_channel session start_date end_date attribution_run_id in
  attribution_share ← shares attr_rev;
  let spend_by_ch := _spend_by_channel session start_date end_date in
  ms ← _mmm_contribution_share session spend_by_ch mmm_run_id DEFAULT_ADSTOCK_HALF_LIFE;
  mret (report_of_shares attribution_share ms.2 instability_threshold).

End report.
End attribution_mmm_report.

(** ** [transforms.py] *)

Module transforms.

Section adstock.

Context {T : Type} (add mul : T → T → T) (zero : T).

(** Modelled from the spec: the carryover filter of [adstock_transform]
    ([packages/mmm/src/transforms.py] is not among the sources).  The spec:
    [adstocked[t] = spend[t] + decay × adstocked[t-1]]; [prev] is the
    adstocked value of the day before, zero before the first day. *)
Fixpoint adstock_from (decay prev : T) (spend : list T) : list T :=
  match spend with
  | [] => []
  | x :: rest =>
    let adstocked := add x (mul decay prev) in
    adstocked :: adstock_from decay adstocked rest
  end.

Definition adstock_filter (decay : T) (spend : list T) : list T :=
  adstock_from decay zero spend.

End adstock.

(** Modelled from the spec: [decay = 0.5^(1/half_life)], over the reals. *)
Definition decay (half_life : R) : R := Rpower (1 / 2) (1 / half_life).

(** Modelled from the spec: [adstock_transform(spend, half_life)] over the
    reals. *)
Definition adstock_transform (spend : list R) (half_life : R) : list R :=
  adstock_filter Rplus Rmult 0%R (decay half_life) spend.

(** The adstocked value on day [n] (counting from 1) of a constant daily
    spend [s]. *)
Definition constant_spend_adstock (s half_life : R) (n : nat) : R :=
  List.last (adstock_transform (replicate n s) half_life) 0%R.

End transforms.

(** ** [mmm/src/runner.py] *)

Module mmm_runner.

(** Values held by the dictionaries [run_mmm] handles. *)
#[local] Unset Elimination Schemes.
Inductive value : Type :=
| VNone
| VFloat (x : Qc)
| VStr (s : string)
| VDict (d : gmap string value)
| VList (l : list value).
#[local] Set Elimination Schemes.

Definition _DEFAULT_CHANNELS : list string := ["meta"; "google"; "bing"; "pinterest"].

(** [pd.date_range(start=start, end=end, freq="D")]: empty when [end < start]. *)
Definition date_range (start_date end_date : Z) : list Z :=
  seqZ start_date (end_date - start_date + 1).

(** One of the two order loops filling [rev_by_date]. *)
Definition add_revenue (rev_by_date : gmap Z Qc) (orders : list RawOrder.t) : gmap Z Qc :=
  foldl (λ m o, <[RawOrder.order_date o :=
                    default 0 (m !! RawOrder.order_date o) + order_revenue o]> m)
        rev_by_date orders.

Definition ch_to_model (session : Session) (ch : string) : option (list RawAds.t) :=
  if decide (ch = "meta") then Some (raw_meta_ads session)
  else if decide (ch = "google") then Some (raw_google_ads session)
  else if decide (ch = "bing") then Some (raw_bing_ads session)
  else if decide (ch = "pinterest") then Some (raw_pinterest_ads session)
  else None.

(** Column [j] of [spend_matrix] after the loop over [recs]. *)
Definition spend_column (session : Session) (start_date end_date : Z) (n_dates : nat)
    (date_to_idx : gmap Z nat) (ch : string) : list Qc :=
  let zeros := replicate n_dates (0 : Qc) in
  match ch_to_model session ch with
  | None => zeros
  | Some tbl =>
    foldl (λ col r,
             match date_to_idx !! RawAds.date r with
             | Some i => alter (λ x, x + RawAds.spend r) i col
             | None => col
             end)
          zeros (ads_in_window start_date end_date tbl)
  end.

(** Returns [(dates, spend_matrix, rev)]; the matrix is the list of its
    columns, one per channel. *)
Definition _daily_spend_matrix (session : Session) (start_date end_date : Z)
    (channels : list string) : list Z * list (list Qc) * list Qc :=
  let dates := date_range start_date end_date in
  let date_to_idx : gmap Z nat := list_to_map (zip dates (seq 0 (length dates))) in
  let rev_by_date :=
    add_revenue
      (add_revenue ∅ (orders_in_window start_date end_date (raw_shopify_orders session)))
      (orders_in_window start_date end_date (raw_woocommerce_orders session)) in
  let rev := (λ d, default 0 (rev_by_date !! d)) <$> dates in
  let spend_matrix :=
    spend_column session start_date end_date (length dates) date_to_idx <$> channels in
  (dates, spend_matrix, rev).

(** [np.hstack(X_list)] of column vectors: [ValueError] ("need at least one
    array to concatenate") on the empty list. *)
Definition hstack (X_list : list (list Qc)) : Py.result (list (list Qc)) :=
  match X_list with
  | [] => Py.Raise Py.ValueError
  | _ => Py.Ok X_list
  end.

(** [X.size]: the number of entries. *)
Definition size (X : list (list Qc)) : nat := sum_list (length <$> X).

(** [d[key]] *)
Definition getitem (d : gmap string value) (key : string) : Py.result value :=
  match d !! key with
  | Some v => Py.Ok v
  | None => Py.Raise (Py.KeyError key)
  end.

(** [coefs.get(ch, 0.0)] *)
Definition get_coef (coefs : value) (ch : string) : Py.result value :=
  match coefs with
  | VDict d => Py.Ok (default (VFloat 0) (d !! ch))
  | _ => Py.Raise Py.AttributeError
  end.

(** Values stored in the typed columns of [mmm_results]. *)
Definition as_float (v : value) : Py.result Qc :=
  match v with
  | VFloat x => Py.Ok x
  | _ => Py.Raise Py.ValueError
  end.

Definition as_optional_float (v : value) : Py.result (option Qc) :=
  match v with
  | VNone => Py.Ok None
  | VFloat x => Py.Ok (Some x)
  | _ => Py.Raise Py.ValueError
  end.

Definition as_optional_str (v : value) : Py.result (option string) :=
  match v with
  | VNone => Py.Ok None
  | VStr s => Py.Ok (Some s)
  | _ => Py.Raise Py.ValueError
  end.

Section run_mmm.

(** [MMM_VERSION] of the missing [packages/governance/src/versions.py]. *)
Variable MMM_VERSION : string.
(** [0.5 ** x], the power behind the adstock decay. *)
Variable half_pow : Qc → Qc.
(** The elementwise saturation curve of the missing [transforms.py]. *)
Variable log1p : Qc → Qc.
(** [fit_pipeline(X, y, channel_names, n_boot, estimator, model_version)] of
    the missing [packages/mmm/src/model.py]. *)
Variable fit_pipeline :
  list (list Qc) → list Qc → list string → Z → string → string → Py.result (gmap string value).

(** Modelled from the spec: [adstock_transform] on floats, the recurrence with
    [decay = 0.5^(1/half_life)]. *)
Definition adstock_transform (spend : list Qc) (half_life : Qc) : list Qc :=
  transforms.adstock_filter Qcplus Qcmult 0 (half_pow (1 / half_life)) spend.

(** Modelled from the spec: [saturation_log], applied elementwise. *)
Definition saturation_log (x : list Qc) : list Qc := log1p <$> x.

(** [mmm_version or MMM_VERSION] *)
Definition version_or_default (mmm_version : option string) : string :=
  default MMM_VERSION (truthy mmm_version).

(** The dictionary returned on the degenerate branch. *)
Definition degenerate_result (run_id : string) (channels : list string) : gmap string value :=
  list_to_map [
    ("run_id", VStr run_id);
    ("r2", VNone);
    ("coefficients", VDict (list_to_map ((λ ch, (ch, VFloat 0)) <$> channels)));
    ("vif", VDict ∅);
    ("elasticities", VDict ∅);
    ("bootstrap_ci", VDict ∅);
    ("stability_index", VFloat 0);
    ("confidence_score", VFloat 0)
  ].

(** The rows added on the degenerate branch, one per channel. *)
Definition degenerate_rows (run_id : string) (now : Z) (channels : list string)
    (mmm_version : option string) : list MMMResults.t :=
  (λ ch, MMMResults.mk run_id now ch 0 None (Some (version_or_default mmm_version)))
    <$> channels.

(** The rows added after a fit: the [for ch in channels] loop. *)
Fixpoint fitted_rows (run_id : string) (now : Z) (pipeline_out : gmap string value)
    (coefs r2 : value) (channels : list string) : Py.result (list MMMResults.t) :=
  match channels with
  | [] => mret []
  | ch :: rest =>
    c ← get_coef coefs ch;
    version ← getitem pipeline_out "model_version";
    coefficient ← as_float c;
    goodness_of_fit_r2 ← as_optional_float r2;
    model_version ← as_optional_str version;
    rows ← fitted_rows run_id now pipeline_out coefs r2 rest;
    mret (MMMResults.mk run_id now ch coefficient goodness_of_fit_r2 model_version :: rows)
  end.

(** [now] is the clock read by the [created_at] default of the new rows; the
    parameter [ridge_alpha], which the body never reads, is left out.
    Returns the result dictionary and the session after the call. *)
Definition run_mmm (session : Session) (run_id : string) (start_date end_date : Z)
    (channels : option (list string)) (adstock_half_life : Qc) (n_boot : Z)
    (mmm_version : option string) (now : Z)
  : Py.result (gmap string value * Session) :=
  let channels := default _DEFAULT_CHANNELS channels in
  let '(dates, spend_matrix, rev) := _daily_spend_matrix session start_date end_date channels in
  let X_list := (λ col, saturation_log (adstock_transform col adstock_half_life)) <$> spend_matrix in
  X ← hstack X_list;
  if decide (size X = O ∨ length rev = O) then
    mret (degenerate_result run_id channels,
          add_mmm_results session (degenerate_rows run_id now channels mmm_version))
  else
    pipeline_out ← fit_pipeline X rev channels n_boot "ridge" (version_or_default mmm_version);
    coefs ← getitem pipeline_out "coefficients";
    r2 ← getitem pipeline_out "r2";
    rows ← fitted_rows run_id now pipeline_out coefs r2 channels;
    model_version ← getitem pipeline_out "model_version";
    adj_r2 ← getitem pipeline_out "adj_r2";
    mape ← getitem pipeline_out "mape";
    vif ← getitem pipeline_out "vif";
    elasticities ← getitem pipeline_out "elasticities";
    bootstrap_ci ← getitem pipeline_out "bootstrap_ci";
    stability_index ← getitem pipeline_out "stability_index";
    confidence_score ← getitem pipeline_out "confidence_score";
    mret (list_to_map [
            ("run_id", VStr run_id);
            ("r2", r2);
            ("coefficients", coefs);
            ("model_version", model_version);
            ("adj_r2", adj_r2);
            ("mape", mape);
            ("vif", vif);
            ("elasticities", elasticities);
            ("bootstrap_ci", bootstrap_ci);
            ("stability_index", stability_index);
            ("confidence_score", confidence_score)
          ],
          add_mmm_results session rows).

End run_mmm.
End mmm_runner.

(** * Vocabulary of the claims *)

(** ** Sessions and the rows a call writes *)

(** The orders of both shops inside the window, in the order the loops visit them. *)
Definition window_orders (session : Session) (start_date end_date : Z) : list RawOrder.t :=
  orders_in_window start_date end_date (raw_shopify_orders session)
  ++ orders_in_window start_date end_date (raw_woocommerce_orders session).

(** The orders of the window that carry the identifier [id]. *)
Definition orders_with_id (session : Session) (start_date end_date : Z) (id : string)
  : list RawOrder.t :=
  filter (λ o, RawOrder.order_id o = id) (window_orders session start_date end_date).

(** The click records of the window that carry the click identifier [key],
    in the order the dict comprehension visits them. *)
Definition clicks_with_id (session : Session) (start_date end_date : Z) (key : string)
  : list RawAdClicks.t :=
  filter (λ r, RawAdClicks.click_id r = key)
         (clicks_in_window start_date end_date (raw_ad_clicks session)).

(** The [attribution_events] rows added between two states of the session. *)
Definition written (before after : Session) : list AttributionEvent.t :=
  drop (length (attribution_events before)) (attribution_events after).

(** The rows of [evs] that belong to order [id]. *)
Definition events_of_order (id : string) (evs : list AttributionEvent.t) : list AttributionEvent.t :=
  filter (λ ev, AttributionEvent.order_id ev = id) evs.

(** The events the two loops add: one per order the body does not skip. *)
Definition click_events (session : Session) (run_id : string) (start_date end_date : Z)
  : list AttributionEvent.t :=
  omap (click_id_attribution.order_event run_id (click_id_attribution.clicks_by_id session start_date end_date))
       (window_orders session start_date end_date).

(** The supplied weights can be normalized over the channels with spend. *)
Definition weights_usable (daily_spend : list SpendRow.t)
    (weights : option (gmap string Qc)) : Prop :=
  ∀ w, weights = Some w →
    allocator.nonzero (allocator.spend_totals daily_spend) ≠ ∅ →
    Py.sum_values
      (filter (λ kv, kv.1 ∈ dom (allocator.nonzero (allocator.spend_totals daily_spend))) w) ≠ 0.

(** Every spend row of the window is nonnegative. *)
Definition spend_nonnegative (session : Session) (start_date end_date : Z) : Prop :=
  ∀ r, r ∈ attribution_runner._daily_spend_by_channel session start_date end_date →
       0 ≤ SpendRow.spend r.

(** The order has a click identifier and no click of the window carries it. *)
Definition no_matching_click (session : Session) (start_date end_date : Z)
    (o : RawOrder.t) : Prop :=
  ∃ cid, RawOrder.click_id o = Some cid
    ∧ ∀ r, r ∈ clicks_in_window start_date end_date (raw_ad_clicks session) →
           RawAdClicks.click_id r ≠ Py.strip cid.

(** The L1 distance between two share maps over the union of their
    channels, a channel missing from a map counting as share 0. *)
Definition l1_distance (a m : gmap string Qc) : Qc :=
  Py.sum ((λ ch, Qcabs (Py.get0 a ch - Py.get0 m ch)) <$> elements (dom a ∪ dom m)).

(** ** Concrete inputs *)

Definition empty_session : Session := mkSession [] [] [] [] [] [] [] [] [].

(** NO-BREAK SPACE (U+00A0), IDEOGRAPHIC SPACE (U+3000) and the letter a
    with grave accent (U+00E0), as their UTF-8 bytes. *)
Definition no_break_space : string :=
  String (Ascii.ascii_of_nat 194) (String (Ascii.ascii_of_nat 160) EmptyString).
Definition ideographic_space : string :=
  String (Ascii.ascii_of_nat 227)
    (String (Ascii.ascii_of_nat 128) (String (Ascii.ascii_of_nat 128) EmptyString)).
Definition a_grave : string :=
  String (Ascii.ascii_of_nat 195) (String (Ascii.ascii_of_nat 160) EmptyString).

(** The share maps of the spec's scenario. *)
Definition scenario_attribution_share : gmap string Qc :=
  {[ "meta" := Q2Qc (6 # 10); "google" := Q2Qc (4 # 10) ]}.
Definition scenario_mmm_share : gmap string Qc :=
  {[ "meta" := Q2Qc (3 # 10); "google" := Q2Qc (7 # 10) ]}.

(** Two attribution rows whose allocated revenues cancel. *)
Definition cancelling_session : Session :=
  mkSession [] [] [] [] [] [] []
    [ AttributionEvent.mk "o1" "meta" None None 1 (Q2Qc 5) 0 "run";
      AttributionEvent.mk "o2" "google" None None 1 (Q2Qc (-5)) 0 "run" ]
    [].

(** Two MMM runs: the older one wrote both channels, the newer one only
    [meta]. *)
Definition two_runs_session : Session :=
  mkSession [] [] [] [] [] [] [] []
    [ MMMResults.mk "run-a" 1 "meta" (Q2Qc 2) None None;
      MMMResults.mk "run-a" 1 "google" (Q2Qc 3) None None;
      MMMResults.mk "run-b" 2 "meta" (Q2Qc 5) None None ].

(** [key in d] for each of [keys]. *)
Definition has_keys (keys : list string) (d : gmap string mmm_runner.value) : Prop :=
  Forall (λ key, is_Some (d !! key)) keys.

(** The keys the spec lists for the result of [run_mmm]. *)
Definition spec_result_keys : list string :=
  ["coefficients"; "r2"; "adj_r2"; "mape"; "vif"; "elasticities"; "bootstrap_ci";
   "stability_index"; "confidence_score"].

(** The keys of the docstring of [run_mmm]. *)
Definition docstring_result_keys : list string :=
  ["run_id"; "r2"; "coefficients"; "vif"; "elasticities"; "bootstrap_ci";
   "stability_index"; "confidence_score"].

(** A small shop: spend on meta and google, one order that carries the
    identifier of a known click (padded with blanks), one order without a
    click identifier and one whose identifier matches no click. *)
Definition sample_click : RawAdClicks.t :=
  RawAdClicks.mk "gclid_1" 1 "g1" (Some "Brand") "google".
Definition sample_clicked_order : RawOrder.t :=
  RawOrder.mk "ord_1" 1 (Q2Qc 100) None (Some " gclid_1 ").
Definition sample_plain_order : RawOrder.t :=
  RawOrder.mk "ord_2" 1 (Q2Qc 100) None None.
Definition sample_unmatched_order : RawOrder.t :=
  RawOrder.mk "wc_1" 2 (Q2Qc 50) (Some (Q2Qc 40)) (Some "unknown").
Definition sample_session : Session :=
  mkSession [RawAds.mk 1 "m1" (Q2Qc 600)] [RawAds.mk 1 "g1" (Q2Qc 400)] [] []
    [sample_clicked_order; sample_plain_order] [sample_unmatched_order]
    [sample_click] [] [].

(** Two shops that both number their orders from 1001: the Shopify order
    carries the identifier of the sample click, the WooCommerce order an
    identifier that matches no click. *)
Definition colliding_clicked_order : RawOrder.t :=
  RawOrder.mk "1001" 1 (Q2Qc 10) None (Some "gclid_1").
Definition colliding_unmatched_order : RawOrder.t :=
  RawOrder.mk "1001" 1 (Q2Qc 20) None (Some "unknown").
Definition colliding_session : Session :=
  mkSession [RawAds.mk 1 "m1" (Q2Qc 600)] [RawAds.mk 1 "g1" (Q2Qc 400)] [] []
    [colliding_clicked_order] [colliding_unmatched_order] [sample_click] [] [].

(** The event the click-ID pass writes at [colliding_session] for run
    [run]. *)
Definition colliding_click_event : AttributionEvent.t :=
  AttributionEvent.mk "1001" "google" (Some "g1") (Some "Brand") 1 (Q2Qc 10) 1 "run".

(** A fitted pipeline output carrying every key [run_mmm] reads. *)
Definition sample_pipeline_out : gmap string mmm_runner.value :=
  list_to_map [
    ("coefficients", mmm_runner.VDict {[ "meta" := mmm_runner.VFloat (Q2Qc 2) ]});
    ("r2", mmm_runner.VFloat (Q2Qc (9 # 10)));
    ("model_version", mmm_runner.VStr "v1");
    ("adj_r2", mmm_runner.VFloat (Q2Qc (8 # 10)));
    ("mape", mmm_runner.VFloat (Q2Qc (1 # 10)));
    ("vif", mmm_runner.VDict ∅);
    ("elasticities", mmm_runner.VDict ∅);
    ("bootstrap_ci", mmm_runner.VDict ∅);
    ("stability_index", mmm_runner.VFloat 1);
    ("confidence_score", mmm_runner.VFloat 1)
  ].

(** * Vocabulary of the further properties *)

(** The rows [_attribution_revenue_by_channel] selects. *)
Definition selected_events (session : Session) (start_date end_date : Z)
    (run_id : option string) : list AttributionEvent.t :=
  filter (λ r, in_window start_date end_date (AttributionEvent.event_date r)
               ∧ run_matches run_id (AttributionEvent.run_id r))
         (attribution_events session).

(** The rows of [mmm_results] a call with [mmm_run_id] looks at for [ch]. *)
Definition candidate_row (session : Session) (mmm_run_id : option string) (ch : string)
    (r : MMMResults.t) : Prop :=
  r ∈ mmm_results session
  ∧ run_matches mmm_run_id (MMMResults.run_id r)
  ∧ MMMResults.channel r = ch.

(** Attribution rows for two channels, and one MMM run. *)
Definition report_session : Session :=
  mkSession [] [] [] [] [] [] []
    [ AttributionEvent.mk "o1" "meta" None None 1 (Q2Qc 60) 1 "run";
      AttributionEvent.mk "o2" "google" None None 1 (Q2Qc 40) 2 "run" ]
    [ MMMResults.mk "run-a" 1 "meta" (Q2Qc 2) None None ].

(** ** [attribution/src/runner.py]: synthetic sequences *)

Module runner_sequences.

(** [by_order[order_id].append(pair)] on the [defaultdict(list)]; the
    dictionary keeps its keys in the order of their first insertion. *)
Fixpoint append_pair (by_order : list (string * list (string * Qc)))
    (order_id : string) (pair : string * Qc) : list (string * list (string * Qc)) :=
  match by_order with
  | [] => [(order_id, [pair]%list)]%list
  | (id, pairs) :: rest =>
    if decide (id = order_id) then (id, pairs ++ [pair]%list) :: rest
    else (id, pairs) :: append_pair rest order_id pair
  end.

(** [pairs.sort(key=lambda x: -x[1])]: Python's sort is stable, so a pair
    goes before the first pair whose weight is not above its own. *)
Fixpoint insert_by_weight (p : string * Qc) (sorted : list (string * Qc))
  : list (string * Qc) :=
  match sorted with
  | [] => [p]%list
  | q :: rest =>
    if decide (q.2 ≤ p.2) then p :: q :: rest else q :: insert_by_weight p rest
  end.

Definition sort_by_weight_desc (pairs : list (string * Qc)) : list (string * Qc) :=
  foldr insert_by_weight [] pairs.

(** The parameter [channels] is never read. *)
Definition _synthetic_sequences_from_allocated (allocated : list Allocated)
    (channels : list string) : list (list string) :=
  let by_order :=
    foldl (λ by_order a, append_pair by_order a.1.1.1.1 (a.1.1.2, a.1.2)) [] allocated in
  (λ kv, (sort_by_weight_desc kv.2).*1) <$> by_order.

End runner_sequences.

(** The pairs [(channel, weight)] of the tuples of one order, in the order of
    the tuples. *)
Definition pairs_of_order (order_id : string) (allocated : list Allocated)
  : list (string * Qc) :=
  (λ a : Allocated, (a.1.1.2, a.1.2)) <$> filter (λ a : Allocated, a.1.1.1.1 = order_id) allocated.

(** ** [metrics/src/aggregator.py] *)

Module UnifiedDailyMetrics.
(** A row of [unified_daily_metrics], without [id] and [created_at]. *)
Record t : Type := mk {
  date : Z;
  channel : string;
  spend : Qc;
  attributed_revenue : Qc;
  roas : option Qc;
  mer : option Qc;
  cac : option Qc;
  revenue_new : option Qc;
  revenue_returning : option Qc
}.
End UnifiedDailyMetrics.

Module aggregator.

(** [df.groupby(["date", "channel"], as_index=False).agg({column: "sum"})]:
    the sum of [column] for each pair [(date, channel)] that has a row. *)
Definition group_sum {A} (key : A → Z * string) (column : A → Qc) (rows : list A)
  : gmap (Z * string) Qc :=
  foldl (λ m r, <[key r := default 0 (m !! key r) + column r]> m) ∅ rows.

(** The four loops are those of [_daily_spend_by_channel] of the attribution
    runner; an empty frame has no group. *)
Definition _spend_by_date_channel (session : Session) (start_date end_date : Z)
  : gmap (Z * string) Qc :=
  group_sum (λ r, (SpendRow.date r, SpendRow.channel r)) SpendRow.spend
    (attribution_runner._daily_spend_by_channel session start_date end_date).

Definition _attributed_revenue_by_date_channel (session : Session) (start_date end_date : Z)
    (run_id : option string) : gmap (Z * string) Qc :=
  let rows :=
    filter (λ r, in_window start_date end_date (AttributionEvent.event_date r)
                 ∧ run_matches run_id (AttributionEvent.run_id r))
           (attribution_events session) in
  group_sum (λ r, (AttributionEvent.event_date r, AttributionEvent.channel r))
    AttributionEvent.allocated_revenue rows.

(** The order of the rows of an outer merge: by date, then by channel. *)
Definition key_le (k1 k2 : Z * string) : Prop :=
  (k1.1 < k2.1)%Z ∨ (k1.1 = k2.1 ∧ String.le k1.2 k2.2).

#[global] Instance key_le_dec k1 k2 : Decision (key_le k1 k2).
Proof. unfold key_le. apply _. Defined.

(** The body of the loop over [merged.iterrows()]; [fillna(0)] gives a
    missing spend or revenue the value 0. *)
Definition metrics_row (spend_df rev_df : gmap (Z * string) Qc) (k : Z * string)
  : UnifiedDailyMetrics.t :=
  let spend := default 0 (spend_df !! k) in
  let attr_rev := default 0 (rev_df !! k) in
  let roas := if decide (0 < spend) then Some (attr_rev / spend) else None in
  let total_rev := attr_rev in
  let mer := if decide (0 < spend) then Some (total_rev / spend) else None in
  let cac := if decide (0 < total_rev) then Some (spend / 1) else None in
  UnifiedDailyMetrics.mk k.1 k.2 spend attr_rev roas mer cac None None.

Definition compute_unified_metrics (session : Session) (start_date end_date : Z)
    (attribution_run_id : option string) : list UnifiedDailyMetrics.t :=
  let spend_df := _spend_by_date_channel session start_date end_date in
  let rev_df :=
    _attributed_revenue_by_date_channel session start_date end_date attribution_run_id in
  if decide (spend_df = ∅ ∧ rev_df = ∅) then []
  else
    let merged := merge_sort key_le (elements (dom spend_df ∪ dom rev_df)) in
    metrics_row spend_df rev_df <$> merged.

(** [table] is [unified_daily_metrics] before the call; returns the row
    count and the table after the call. *)
Definition run_metrics (session : Session) (table : list UnifiedDailyMetrics.t)
    (start_date end_date : Z) (attribution_run_id : option string)
  : nat * list UnifiedDailyMetrics.t :=
  let kept :=
    filter (λ r, ¬ in_window start_date end_date (UnifiedDailyMetrics.date r)) table in
  let records := compute_unified_metrics session start_date end_date attribution_run_id in
  (length records, kept ++ records).

End aggregator.

(** ** [apps/api/src/app.py] *)

Module app.

(** [today] is [date.today()]; [table] is [unified_daily_metrics]. *)
Definition _current_spend_by_channel (table : list UnifiedDailyMetrics.t)
    (today lookback_days : Z) : gmap string Qc :=
  let start := (today - lookback_days)%Z in
  let rows := filter (λ r, in_window start today (UnifiedDailyMetrics.date r)) table in
  let by_ch :=
    foldl (λ by_ch r, <[UnifiedDailyMetrics.channel r :=
                          Py.get0 by_ch (UnifiedDailyMetrics.channel r)
                          + UnifiedDailyMetrics.spend r]> by_ch)
          ∅ rows in
  if decide (by_ch = ∅) then {[ "meta" := 0; "google" := 0 ]} else by_ch.

(** The comprehension [{r.channel: r.coefficient for r in rows if r.run_id ==
    rid}]: a later row of a channel overwrites an earlier one. *)
Definition _latest_mmm_coefficients (session : Session) : gmap string Qc :=
  let rows := merge_sort attribution_mmm_report.newer_first (mmm_results session) in
  match rows with
  | [] => ∅
  | r0 :: _ =>
    let rid := MMMResults.run_id r0 in
    foldl (λ m r, <[MMMResults.channel r := MMMResults.coefficient r]> m) ∅
          (filter (λ r, MMMResults.run_id r = rid) rows)
  end.

End app.

(** The result and the rows of a fit of [sample_pipeline_out] for the
    channels [meta] and [google], as run ["run-c"] at time 5. *)
Definition sample_fit_result : gmap string mmm_runner.value :=
  list_to_map [
    ("run_id", mmm_runner.VStr "run-c"); ("r2", mmm_runner.VFloat (Q2Qc (9 # 10)));
    ("coefficients", mmm_runner.VDict {[ "meta" := mmm_runner.VFloat (Q2Qc 2) ]});
    ("model_version", mmm_runner.VStr "v1");
    ("adj_r2", mmm_runner.VFloat (Q2Qc (8 # 10)));
    ("mape", mmm_runner.VFloat (Q2Qc (1 # 10)));
    ("vif", mmm_runner.VDict ∅); ("elasticities", mmm_runner.VDict ∅);
    ("bootstrap_ci", mmm_runner.VDict ∅);
    ("stability_index", mmm_runner.VFloat 1);
    ("confidence_score", mmm_runner.VFloat 1) ].

Definition sample_fit_rows : list MMMResults.t :=
  [ MMMResults.mk "run-c" 5 "meta" (Q2Qc 2) (Some (Q2Qc (9 # 10))) (Some "v1");
    MMMResults.mk "run-c" 5 "google" 0 (Some (Q2Qc (9 # 10))) (Some "v1") ].

(** ** [shared/src/ingest.py]: order reconciliation *)

Module ShopifyOrder.
(** A row of [raw_shopify_orders] with the columns [reconcile_orders] reads
    or writes; [id] is the primary key. *)
Record t : Type := mk {
  id : option Z;
  order_id : string;
  revenue : Qc;
  total_price : option Qc;
  net_revenue : option Qc;
  financial_status : option string;
  cancelled_at : option Z
}.
End ShopifyOrder.

Module RawShopifyTransactions.
Record t : Type := mk {
  order_id : Z;
  kind : string;
  status : option string;
  amount : option Qc
}.
End RawShopifyTransactions.

Module IngestAudit.
Record t : Type := mk {
  order_id : string;
  computed_net_revenue : option Qc;
  diff : option Qc;
  note : option string
}.
End IngestAudit.

Module ingest.

(** [str.lower()] on ASCII letters. *)
Definition lower_ascii (c : Ascii.ascii) : Ascii.ascii :=
  let n := Ascii.nat_of_ascii c in
  if ((65 <=? n)%nat && (n <=? 90)%nat)%bool then Ascii.ascii_of_nat (n + 32) else c.

Fixpoint lower (s : string) : string :=
  match s with
  | EmptyString => EmptyString
  | String c s' => String (lower_ascii c) (lower s')
  end.

(** [(t.status or empty).lower() == "success"], [empty] the empty string. *)
Definition successful (t : RawShopifyTransactions.t) : Prop :=
  lower (default EmptyString (RawShopifyTransactions.status t)) = "success".

#[global] Instance successful_dec t : Decision (successful t).
Proof. unfold successful. apply _. Defined.

(** [a or b] where [a] is an optional float: [a] unless it is [None] or zero. *)
Definition or_optional (a b : option Qc) : option Qc :=
  match a with
  | Some x => if decide (x = 0) then b else a
  | None => b
  end.

(** [a or b] where [b] is a float. *)
Definition or_float (a : option Qc) (b : Qc) : Qc :=
  match a with
  | Some x => if decide (x = 0) then b else x
  | None => b
  end.

Definition sales (tx_list : list RawShopifyTransactions.t) : Qc :=
  Py.sum ((λ t, or_float (RawShopifyTransactions.amount t) 0)
            <$> filter (λ t, (RawShopifyTransactions.kind t = "sale"
                              ∨ RawShopifyTransactions.kind t = "capture")
                             ∧ successful t) tx_list).

Definition refunds (tx_list : list RawShopifyTransactions.t) : Qc :=
  Py.sum ((λ t, Qcabs (or_float (RawShopifyTransactions.amount t) 0))
            <$> filter (λ t, RawShopifyTransactions.kind t = "refund" ∧ successful t)
                  tx_list).

(** The body of the loop for an order whose [id] is [id]: the order after
    the assignment to [net_revenue], and the audit row. *)
Definition reconcile_order (transactions : list RawShopifyTransactions.t) (id : Z)
    (order : ShopifyOrder.t) : ShopifyOrder.t * IngestAudit.t :=
  let tx_list := filter (λ t, RawShopifyTransactions.order_id t = id) transactions in
  let computed_net := sales tx_list - refunds tx_list in
  let status := lower (default EmptyString (ShopifyOrder.financial_status order)) in
  let computed_net :=
    if decide (tx_list = [] ∧ (status = "refunded" ∨ status = "voided")) then 0
    else computed_net in
  let computed_net :=
    if decide (ShopifyOrder.cancelled_at order ≠ None) then 0 else computed_net in
  let prev_net := ShopifyOrder.net_revenue order in
  let net_revenue :=
    if decide (tx_list ≠ []) then computed_net
    else or_float (or_optional (ShopifyOrder.net_revenue order)
                               (ShopifyOrder.total_price order))
                  (ShopifyOrder.revenue order) in
  let diff := or_float (Some net_revenue) 0 - or_float prev_net 0 in
  let note :=
    if decide (refunds tx_list ≠ 0) then "refunds"
    else if decide (ShopifyOrder.cancelled_at order ≠ None) then "cancelled"
    else "tx_reconcile" in
  let note := if decide (tx_list = []) then "no_transactions" else note in
  (ShopifyOrder.mk (ShopifyOrder.id order) (ShopifyOrder.order_id order)
     (ShopifyOrder.revenue order) (ShopifyOrder.total_price order) (Some net_revenue)
     (ShopifyOrder.financial_status order) (ShopifyOrder.cancelled_at order),
   IngestAudit.mk (ShopifyOrder.order_id order) (Some net_revenue)
     (match prev_net with Some _ => Some diff | None => None end) (Some note)).

(** One step of [for order in orders]. *)
Definition reconcile_step (transactions : list RawShopifyTransactions.t)
    (state : nat * list ShopifyOrder.t * list IngestAudit.t) (order : ShopifyOrder.t)
  : nat * list ShopifyOrder.t * list IngestAudit.t :=
  let '(reconciled, orders, audit) := state in
  match ShopifyOrder.id order with
  | None => (reconciled, orders ++ [order]%list, audit)
  | Some id =>
    let '(order', row) := reconcile_order transactions id order in
    (S reconciled, orders ++ [order']%list, audit ++ [row]%list)
  end.

(** [orders], [transactions] and [audit] are the tables
    [raw_shopify_orders], [raw_shopify_transactions] and [ingest_audit];
    returns the count and the two tables the call writes. *)
Definition reconcile_orders (orders : list ShopifyOrder.t)
    (transactions : list RawShopifyTransactions.t) (audit : list IngestAudit.t)
  : nat * list ShopifyOrder.t * list IngestAudit.t :=
  foldl (reconcile_step transactions) (O, [], audit) orders.

End ingest.

(** ** [governance/src/metadata.py] *)

Module EngineRunMetadata.
(** A row of [engine_run_metadata] and the dataclass of the same fields. *)
Record t : Type := mk {
  run_id : string;
  timestamp : Z;
  mta_version : string;
  mmm_version : string;
  data_snapshot_id : string
}.
End EngineRunMetadata.

Module metadata.

Definition _MAX_RECENT_RUNS : nat := 100.

(** [s or d] on strings. *)
Definition or_str (s : string) (d : string) : string :=
  if decide (s = EmptyString) then d else s.

Definition _record_to_meta (r : EngineRunMetadata.t) : EngineRunMetadata.t :=
  EngineRunMetadata.mk (EngineRunMetadata.run_id r) (EngineRunMetadata.timestamp r)
    (or_str (EngineRunMetadata.mta_version r) EmptyString)
    (or_str (EngineRunMetadata.mmm_version r) EmptyString)
    (or_str (EngineRunMetadata.data_snapshot_id r) EmptyString).

(** [ORDER BY timestamp DESC] *)
Definition latest_first (r1 r2 : EngineRunMetadata.t) : Prop :=
  (EngineRunMetadata.timestamp r2 ≤ EngineRunMetadata.timestamp r1)%Z.

#[global] Instance latest_first_dec r1 r2 : Decision (latest_first r1 r2).
Proof. unfold latest_first. apply _. Defined.

Section metadata.

(** The constants of the missing [packages/governance/src/versions.py]. *)
Variables MTA_VERSION MMM_VERSION DATA_SNAPSHOT_ID : string.

(** [table] is [engine_run_metadata]; [now] is [datetime.utcnow()]. *)
Definition record_run (table : list EngineRunMetadata.t) (run_id : string)
    (mta_version mmm_version data_snapshot_id : option string) (timestamp : option Z)
    (now : Z) : list EngineRunMetadata.t :=
  table ++ [EngineRunMetadata.mk run_id (default now timestamp)
              (default MTA_VERSION (truthy mta_version))
              (default MMM_VERSION (truthy mmm_version))
              (default DATA_SNAPSHOT_ID (truthy data_snapshot_id))]%list.

End metadata.

Definition get_recent_runs (table : list EngineRunMetadata.t) : list EngineRunMetadata.t :=
  _record_to_meta <$> take _MAX_RECENT_RUNS (merge_sort latest_first table).

Definition get_latest_run (table : list EngineRunMetadata.t) : option EngineRunMetadata.t :=
  _record_to_meta <$> head (take 1 (merge_sort latest_first table)).

End metadata.

(** The order [reconcile_orders] leaves in place of [order]. *)
Definition reconciled_order (transactions : list RawShopifyTransactions.t)
    (order : ShopifyOrder.t) : ShopifyOrder.t :=
  match ShopifyOrder.id order with
  | Some id => (ingest.reconcile_order transactions id order).1
  | None => order
  end.

(** The audit row [reconcile_orders] writes for [order], if any. *)
Definition audit_row (transactions : list RawShopifyTransactions.t)
    (order : ShopifyOrder.t) : option IngestAudit.t :=
  match ShopifyOrder.id order with
  | Some id => Some (ingest.reconcile_order transactions id order).2
  | None => None
  end.

(** Two orders, one with a sale and a refund, one without transactions. *)
Definition sample_orders : list ShopifyOrder.t :=
  [ ShopifyOrder.mk (Some 1%Z) "ord_1" (Q2Qc 100) (Some (Q2Qc 100)) None (Some "paid") None;
    ShopifyOrder.mk (Some 2%Z) "ord_2" (Q2Qc 50) None None (Some "REFUNDED") (Some 3%Z) ].
Definition sample_transactions : list RawShopifyTransactions.t :=
  [ RawShopifyTransactions.mk 1 "sale" (Some "SUCCESS") (Some (Q2Qc 100));
    RawShopifyTransactions.mk 1 "refund" (Some "success") (Some (Q2Qc (-30)));
    RawShopifyTransactions.mk 1 "sale" (Some "failure") (Some (Q2Qc 999)) ].

(** Two recorded runs. *)
Definition sample_runs : list EngineRunMetadata.t :=
  [ EngineRunMetadata.mk "run-a" 1 "mta-1" "mmm-1" "snap-1";
    EngineRunMetadata.mk "run-b" 2 "mta-1" "mmm-1" "snap-1" ].

(** A shop whose only order carries the identifier of a known click, and
    the session after a run over it. *)
Definition clicked_session : Session :=
  mkSession [RawAds.mk 1 "m1" (Q2Qc 600)] [] [] [] [sample_clicked_order] []
    [sample_click] [] [].
Definition clicked_run_session : Session :=
  add_attribution_events clicked_session
    [AttributionEvent.mk "ord_1" "google" (Some "g1") (Some "Brand") 1 (Q2Qc 100) 1 "run"].


(** A run identifier used twice: the older pass wrote 2 for [meta], the
    newer one 5. *)
Definition reused_run_session : Session :=
  mkSession [] [] [] [] [] [] [] []
    [ MMMResults.mk "run-a" 1 "meta" (Q2Qc 2) None None;
      MMMResults.mk "run-a" 3 "meta" (Q2Qc 5) None None ].

(** * Properties *)

(** ** White space *)

(** [strip] removes ASCII and Unicode white space at both ends, keeps it
    inside the string, and leaves alone a character whose last byte is that
    of a space. *)
Lemma strip_unicode_white_space :
  Py.strip (no_break_space +:+ " gclid_1" +:+ ideographic_space +:+ no_break_space)
  = "gclid_1"
  ∧ Py.strip ("gclid" +:+ no_break_space +:+ "1 ") = "gclid" +:+ no_break_space +:+ "1"
  ∧ Py.strip (a_grave +:+ "gclid_1" +:+ a_grave) = a_grave +:+ "gclid_1" +:+ a_grave
  ∧ Py.strip (" " +:+ no_break_space +:+ ideographic_space) = EmptyString.
Proof. repeat split; by vm_compute. Qed.

(** ** Rows written by a call *)

Lemma events_of_order_app id evs1 evs2 :
  events_of_order id (evs1 ++ evs2) = events_of_order id evs1 ++ events_of_order id evs2.
Proof. apply filter_app. Qed.

Lemma written_add session evs : written session (add_attribution_events session evs) = evs.
Proof. unfold written. simpl. apply drop_app_length. Qed.

Lemma add_attribution_events_nil session : add_attribution_events session [] = session.
Proof. destruct session. unfold add_attribution_events. simpl. by rewrite app_nil_r. Qed.

Lemma add_attribution_events_app session evs1 evs2 :
  add_attribution_events (add_attribution_events session evs1) evs2
  = add_attribution_events session (evs1 ++ evs2).
Proof. unfold add_attribution_events. simpl. by rewrite app_assoc. Qed.

(** ** The click-ID pass *)

Section click_id.
Import click_id_attribution.

Lemma order_event_order_id run_id clicks o ev :
  order_event run_id clicks o = Some ev → AttributionEvent.order_id ev = RawOrder.order_id o.
Proof.
  unfold order_event. intros H.
  destruct (RawOrder.click_id o) as [cid|]; [|done].
  case_decide; [done|].
  destruct (clicks !! Py.strip cid) as [[[ch camp] name]|]; [|done].
  case_decide; [done|]. by simplify_eq.
Qed.

Lemma order_event_empty run_id o : order_event run_id ∅ o = None.
Proof.
  unfold order_event. destruct (RawOrder.click_id o) as [cid|]; [|done].
  case_decide; [done|]. by rewrite lookup_empty.
Qed.

Lemma foldl_loop_body run_id clicks orders added attributed count :
  foldl (loop_body run_id clicks) (added, attributed, count) orders
  = (added ++ omap (order_event run_id clicks) orders,
     attributed ∪ list_to_set (AttributionEvent.order_id <$> omap (order_event run_id clicks) orders),
     (count + length (omap (order_event run_id clicks) orders))%nat).
Proof.
  revert added attributed count.
  induction orders as [|o orders IH]; intros added attributed count; cbn.
  - rewrite app_nil_r, Nat.add_0_r. f_equal. f_equal. by rewrite (right_id_L ∅ (∪)).
  - destruct (order_event run_id clicks o) as [ev|] eqn:Hev; cbn.
    + rewrite IH. rewrite <- app_assoc. simpl.
      rewrite (order_event_order_id _ _ _ _ Hev).
      f_equal; [f_equal|]; [by rewrite (assoc_L (∪))|cbn; lia].
    + apply IH.
Qed.

Lemma loops_eq session run_id start_date end_date :
  loops session run_id start_date end_date
  = (click_events session run_id start_date end_date,
     list_to_set (AttributionEvent.order_id <$> click_events session run_id start_date end_date),
     length (click_events session run_id start_date end_date)).
Proof.
  unfold loops, click_events, window_orders.
  rewrite <- foldl_app, foldl_loop_body. simpl. f_equal. f_equal.
  by rewrite (left_id_L ∅ (∪)).
Qed.

Lemma run_click_id_attribution_eq session run_id start_date end_date :
  run_click_id_attribution session run_id start_date end_date
  = ((length (click_events session run_id start_date end_date),
      list_to_set (AttributionEvent.order_id <$> click_events session run_id start_date end_date)),
     add_attribution_events session (click_events session run_id start_date end_date)).
Proof.
  unfold run_click_id_attribution. case_decide as Hc.
  - assert (click_events session run_id start_date end_date = []) as ->.
    { unfold click_events. rewrite Hc. induction (window_orders _ _ _) as [|o l IH]; [done|].
      simpl. by rewrite order_event_empty. }
    simpl. by rewrite add_attribution_events_nil.
  - by rewrite loops_eq.
Qed.

End click_id.

(** ** Lookups in the click dictionary *)

Section click_lookup.
Import click_id_attribution.

Lemma foldl_insert_not_elem_of {A V} (k : A → string) (v : A → V) (l : list A)
    (m : gmap string V) (key : string) :
  key ∉ k <$> l →
  foldl (λ m r, <[k r := v r]> m) m l !! key = m !! key.
Proof.
  revert m. induction l as [|r l IH]; intros m Hnot; [done|].
  rewrite fmap_cons in Hnot. apply not_elem_of_cons in Hnot as [Hne Hnot].
  cbn. rewrite IH by done. by apply lookup_insert_ne.
Qed.

(** A later row of the same key overwrites an earlier one. *)
Lemma foldl_insert_last {A V} (k : A → string) (v : A → V) (l : list A)
    (m : gmap string V) (key : string) :
  foldl (λ m r, <[k r := v r]> m) m l !! key
  = match last (filter (λ r, k r = key) l) with
    | Some r => Some (v r)
    | None => m !! key
    end.
Proof.
  induction l as [|x l IH] using rev_ind; [done|].
  rewrite foldl_app, filter_app. cbn [foldl].
  destruct (decide (k x = key)) as [Heq|Hne].
  - rewrite (filter_cons_True _ x) by done. cbn [filter list_filter].
    rewrite last_snoc, <- Heq. apply lookup_insert_eq.
  - rewrite (filter_cons_False _ x) by done. cbn [filter list_filter].
    rewrite (right_id_L [] (++)), lookup_insert_ne by done. apply IH.
Qed.

Lemma clicks_by_id_last session start_date end_date key :
  clicks_by_id session start_date end_date !! key
  = (λ r, (RawAdClicks.channel r, RawAdClicks.campaign_id r, RawAdClicks.campaign_name r))
      <$> last (clicks_with_id session start_date end_date key).
Proof.
  unfold clicks_by_id, clicks_with_id. rewrite foldl_insert_last, lookup_empty.
  by destruct (last _).
Qed.

Lemma clicks_by_id_none session start_date end_date key :
  (∀ r, r ∈ clicks_in_window start_date end_date (raw_ad_clicks session) →
        RawAdClicks.click_id r ≠ key) →
  clicks_by_id session start_date end_date !! key = None.
Proof.
  intros Hno. unfold clicks_by_id.
  rewrite (foldl_insert_not_elem_of RawAdClicks.click_id
             (λ r, (RawAdClicks.channel r, RawAdClicks.campaign_id r, RawAdClicks.campaign_name r))).
  - apply lookup_empty.
  - intros (r & Heq & Hin)%list_elem_of_fmap. by eapply Hno.
Qed.

Lemma filter_none {A} (P : A → Prop) `{∀ x, Decision (P x)} (l : list A) :
  (∀ x, x ∈ l → ¬ P x) → filter P l = [].
Proof.
  induction l as [|x l IH]; intros Hno; [done|].
  rewrite filter_cons_False by (apply Hno; left).
  apply IH. intros y Hy. apply Hno. by right.
Qed.

Lemma omap_cons_eq {A B} (f : A → option B) (x : A) (l : list A) :
  omap f (x :: l) = match f x with Some y => y :: omap f l | None => omap f l end.
Proof. done. Qed.

Lemma filter_all {A} (P : A → Prop) `{∀ x, Decision (P x)} (l : list A) :
  (∀ x, x ∈ l → P x) → filter P l = l.
Proof.
  induction l as [|x l IH]; intros Hall; [done|].
  rewrite filter_cons_True by (apply Hall; left).
  rewrite IH; [done|]. intros y Hy. apply Hall. by right.
Qed.

(** The events of one identifier among those a list of orders produces are
    the events of the orders that carry it. *)
Lemma events_of_order_omap_filter (f : RawOrder.t → option AttributionEvent.t)
    (l : list RawOrder.t) id :
  (∀ o' ev, f o' = Some ev → AttributionEvent.order_id ev = RawOrder.order_id o') →
  events_of_order id (omap f l) = omap f (filter (λ o, RawOrder.order_id o = id) l).
Proof.
  intros Hid. unfold events_of_order.
  induction l as [|o l IH]; [done|].
  rewrite omap_cons_eq.
  destruct (decide (RawOrder.order_id o = id)) as [Heq|Hne].
  - rewrite (filter_cons_True (λ o, RawOrder.order_id o = id)) by done.
    rewrite omap_cons_eq. destruct (f o) as [ev|] eqn:Hf; [|done].
    rewrite filter_cons_True by (by rewrite (Hid _ _ Hf)). by rewrite IH.
  - rewrite (filter_cons_False (λ o, RawOrder.order_id o = id)) by done.
    destruct (f o) as [ev|] eqn:Hf; [|done].
    rewrite filter_cons_False by (by rewrite (Hid _ _ Hf)). done.
Qed.

Lemma click_events_with_id session run_id start_date end_date id :
  events_of_order id (click_events session run_id start_date end_date)
  = omap (order_event run_id (clicks_by_id session start_date end_date))
         (orders_with_id session start_date end_date id).
Proof. apply events_of_order_omap_filter. intros o' ev. apply order_event_order_id. Qed.

(** The identifiers the click pass returns are those of the orders it wrote
    an event for. *)
Lemma attributed_iff_credited session run_id start_date end_date id :
  id ∈ (list_to_set (AttributionEvent.order_id
                       <$> click_events session run_id start_date end_date) : gset string)
  ↔ ∃ o, o ∈ window_orders session start_date end_date
         ∧ RawOrder.order_id o = id
         ∧ is_Some (order_event run_id (clicks_by_id session start_date end_date) o).
Proof.
  rewrite elem_of_list_to_set, list_elem_of_fmap. unfold click_events. split.
  - intros (ev & -> & (o & Ho & Hev)%list_elem_of_omap).
    exists o. split; [done|]. split; [|by eexists].
    symmetry. by eapply order_event_order_id.
  - intros (o & Ho & <- & ev & Hev). exists ev. split.
    + symmetry. by eapply order_event_order_id.
    + apply list_elem_of_omap. eauto.
Qed.

End click_lookup.

(** ** Sums *)

Lemma sum_nil : Py.sum [] = 0.
Proof. done. Qed.

Lemma sum_cons (x : Qc) (l : list Qc) : Py.sum (x :: l) = x + Py.sum l.
Proof. done. Qed.

Lemma sum_app (l1 l2 : list Qc) : Py.sum (l1 ++ l2) = Py.sum l1 + Py.sum l2.
Proof.
  induction l1 as [|x l1 IH]; [rewrite app_nil_l, sum_nil; ring|].
  rewrite <- app_comm_cons, !sum_cons, IH. ring.
Qed.

Lemma sum_Permutation (l1 l2 : list Qc) : l1 ≡ₚ l2 → Py.sum l1 = Py.sum l2.
Proof.
  induction 1 as [|x l1 l2 _ IH|x y l|l1 l2 l3 _ IH1 _ IH2];
    rewrite ?sum_cons; [done|by rewrite IH|ring|congruence].
Qed.

Lemma sum_fmap_mul {A} (f : A → Qc) (c : Qc) (l : list A) :
  Py.sum ((λ x, c * f x) <$> l) = c * Py.sum (f <$> l).
Proof.
  induction l as [|x l IH]; [rewrite !fmap_nil, sum_nil; ring|].
  rewrite !fmap_cons, !sum_cons, IH. ring.
Qed.

Lemma sum_fmap_div (t : Qc) (l : list Qc) :
  Py.sum ((λ v, v / t) <$> l) = Py.sum l / t.
Proof.
  induction l as [|x l IH]; [rewrite fmap_nil, sum_nil; unfold Qcdiv; ring|].
  rewrite fmap_cons, !sum_cons, IH. unfold Qcdiv. ring.
Qed.

Lemma sum_values_empty : Py.sum_values ∅ = 0.
Proof. unfold Py.sum_values. by rewrite map_to_list_empty. Qed.

Lemma sum_values_insert (m : gmap string Qc) (k : string) (x : Qc) :
  m !! k = None → Py.sum_values (<[k := x]> m) = x + Py.sum_values m.
Proof.
  intros Hk. unfold Py.sum_values.
  rewrite (sum_Permutation _ (x :: (map_to_list m).*2)); [done|].
  by rewrite map_to_list_insert.
Qed.

Lemma sum_values_fmap_div (m : gmap string Qc) (t : Qc) :
  Py.sum_values ((λ v, v / t) <$> m) = Py.sum_values m / t.
Proof.
  unfold Py.sum_values. rewrite map_to_list_fmap, <- list_fmap_compose.
  rewrite <- sum_fmap_div, <- list_fmap_compose. done.
Qed.

Lemma sum_values_nonzero (m : gmap string Qc) :
  Py.sum_values (allocator.nonzero m) = Py.sum_values m.
Proof.
  unfold allocator.nonzero.
  induction m as [|k x m Hk IH] using map_ind.
  - by rewrite map_filter_empty.
  - rewrite sum_values_insert by done.
    destruct (decide (x = 0)) as [->|Hx].
    + rewrite map_filter_insert_not'; [|by intros []|by rewrite Hk].
      rewrite IH. ring.
    + rewrite map_filter_insert_True by done.
      rewrite sum_values_insert by (apply map_lookup_filter_None; by left).
      by rewrite IH.
Qed.

Lemma normalize_sum (w w' : gmap string Qc) :
  allocator.normalize w = Some w' → Py.sum_values w' = 1.
Proof.
  unfold allocator.normalize. case_decide as Ht; [done|]. intros [= <-].
  rewrite sum_values_fmap_div. by field.
Qed.

Lemma equal_split_default_sum :
  Py.sum_values (allocator.equal_split allocator.DEFAULT_CHANNELS) = 1.
Proof. apply Qc_is_canon. by vm_compute. Qed.

(** Nonnegative values that are not all zero have a positive sum. *)
Lemma sum_values_pos (m : gmap string Qc) :
  map_Forall (λ _ v, 0 < v) m → m ≠ ∅ → 0 < Py.sum_values m.
Proof.
  induction m as [|k x m Hk IH] using map_ind; [done|].
  intros Hall _. rewrite sum_values_insert by done.
  apply map_Forall_insert in Hall as [Hx Hall]; [|done].
  destruct (decide (m = ∅)) as [->|Hne].
  - rewrite sum_values_empty. by rewrite Qcplus_0_r.
  - apply Qcplus_pos_pos; [done|]. by apply IH.
Qed.

(** ** The allocator *)

Section allocator_facts.
Import allocator.

Lemma spend_totals_nonneg (daily_spend : list SpendRow.t) :
  (∀ r, r ∈ daily_spend → 0 ≤ SpendRow.spend r) →
  map_Forall (λ _ v, 0 ≤ v) (spend_totals daily_spend).
Proof.
  unfold spend_totals. generalize (∅ : gmap string Qc) (map_Forall_empty (M:=gmap string)
    (λ (_ : string) (v : Qc), 0 ≤ v)).
  induction daily_spend as [|r l IH]; intros m Hm Hall; [done|].
  cbn [foldl]. apply IH; [|intros r' Hr'; apply Hall; by right].
  apply map_Forall_insert_2; [|done].
  assert (0 ≤ SpendRow.spend r) as Hr by (apply Hall; left).
  assert (0 ≤ Py.get0 m (SpendRow.channel r)) as Hg.
  { unfold Py.get0. destruct (m !! SpendRow.channel r) as [v|] eqn:Hv; cbn; [by eapply Hm|].
    apply Qcle_refl. }
  replace (0 : Qc) with (0 + 0) by ring. by apply Qcplus_le_compat.
Qed.

Lemma nonzero_pos (m : gmap string Qc) :
  map_Forall (λ _ v, 0 ≤ v) m → map_Forall (λ _ v, 0 < v) (nonzero m).
Proof.
  intros Hm k v [Hv Hne]%map_lookup_filter_Some. cbn in Hne.
  destruct (Qcle_lt_or_eq _ _ (Hm k v Hv)); [done|congruence].
Qed.

(** Whenever the modelled weight policy is defined its weights sum to one. *)
Lemma allocation_weights_sum daily_spend channel_weights w :
  allocation_weights daily_spend channel_weights = Some w → Py.sum_values w = 1.
Proof.
  unfold allocation_weights. case_decide.
  - intros [= <-]. apply equal_split_default_sum.
  - destruct channel_weights; apply normalize_sum.
Qed.

Lemma allocation_weights_defined daily_spend channel_weights :
  (∀ r, r ∈ daily_spend → 0 ≤ SpendRow.spend r) →
  weights_usable daily_spend channel_weights →
  is_Some (allocation_weights daily_spend channel_weights).
Proof.
  intros Hnonneg Husable. unfold allocation_weights. case_decide as Hempty; [done|].
  destruct channel_weights as [ws|].
  - unfold normalize. rewrite decide_False; [done|]. by apply Husable.
  - unfold normalize. rewrite decide_False; [done|].
    intros Hzero.
    assert (0 < Py.sum_values (nonzero (spend_totals daily_spend))) as Hpos.
    { apply sum_values_pos; [|done]. by apply nonzero_pos, spend_totals_nonneg. }
    rewrite Hzero in Hpos. by apply Qclt_not_eq in Hpos.
Qed.

Lemma allocate_order_weights w o run_id :
  Py.sum (AttributionEvent.weight <$> (attribution_runner.event_of_allocated run_id
                                         <$> allocate_order w o))
  = Py.sum_values w.
Proof.
  unfold allocate_order. rewrite <- !list_fmap_compose.
  rewrite <- sum_values_nonzero. done.
Qed.

Lemma allocate_order_revenue w o run_id :
  Py.sum (AttributionEvent.allocated_revenue <$> (attribution_runner.event_of_allocated run_id
                                                    <$> allocate_order w o))
  = OrderRow.revenue o * Py.sum_values w.
Proof.
  unfold allocate_order. rewrite <- !list_fmap_compose.
  rewrite <- sum_values_nonzero. unfold Py.sum_values.
  rewrite <- (sum_fmap_mul snd). done.
Qed.

Lemma allocate_order_id w o run_id ev :
  ev ∈ attribution_runner.event_of_allocated run_id <$> allocate_order w o →
  AttributionEvent.order_id ev = OrderRow.order_id o
  ∧ AttributionEvent.run_id ev = run_id.
Proof.
  unfold allocate_order. rewrite <- list_fmap_compose.
  intros (kv & -> & _)%list_elem_of_fmap. done.
Qed.

(** The events of one identifier among those allocated are the events
    allocated for the rows of the frame that carry it. *)
Lemma events_of_order_allocated_filter run_id w (frame : list OrderRow.t) id :
  events_of_order id
    (attribution_runner.event_of_allocated run_id <$> (frame ≫= allocate_order w))
  = attribution_runner.event_of_allocated run_id
      <$> (filter (λ r, OrderRow.order_id r = id) frame ≫= allocate_order w).
Proof.
  unfold events_of_order.
  induction frame as [|o frame IH]; [done|].
  rewrite bind_cons, fmap_app, filter_app, IH.
  destruct (decide (OrderRow.order_id o = id)) as [Heq|Hne].
  - rewrite (filter_cons_True (λ r, OrderRow.order_id r = id)) by done.
    rewrite bind_cons, fmap_app. f_equal.
    apply filter_all. intros ev Hev. apply allocate_order_id in Hev as [Hev _]. congruence.
  - rewrite (filter_cons_False (λ r, OrderRow.order_id r = id)) by done.
    rewrite filter_none; [done|]. intros ev Hev Hid.
    apply allocate_order_id in Hev as [Hev _]. congruence.
Qed.

Lemma events_of_order_not_allocated run_id w (frame : list OrderRow.t) id :
  id ∉ OrderRow.order_id <$> frame →
  events_of_order id
    (attribution_runner.event_of_allocated run_id <$> (frame ≫= allocate_order w)) = [].
Proof.
  intros Hnot. apply filter_none.
  intros ev (a & -> & (o2 & Ha & Ho2)%list_elem_of_bind)%list_elem_of_fmap Hid.
  apply Hnot.
  assert (attribution_runner.event_of_allocated run_id a
          ∈ attribution_runner.event_of_allocated run_id <$> allocate_order w o2) as Hev
    by by apply list_elem_of_fmap_2.
  apply allocate_order_id in Hev as [Hev _]. rewrite <- Hid, Hev.
  by apply list_elem_of_fmap_2.
Qed.

End allocator_facts.

(** ** The attribution runner *)

Section runner_facts.
Import click_id_attribution attribution_runner.

Context (removal_effect_credits : list (list string) → list string → gmap string Qc).

Lemma orders_df_eq session start_date end_date exclude :
  _orders_df session start_date end_date (Some exclude)
  = order_row <$> filter (λ o, RawOrder.order_id o ∉ exclude)
                    (window_orders session start_date end_date).
Proof. unfold _orders_df, window_orders. by rewrite filter_app, fmap_app. Qed.

Lemma orders_df_with_id session start_date end_date exclude id :
  filter (λ r, OrderRow.order_id r = id) (_orders_df session start_date end_date (Some exclude))
  = order_row <$> filter (λ o, RawOrder.order_id o ∉ exclude)
                    (orders_with_id session start_date end_date id).
Proof.
  rewrite orders_df_eq. unfold orders_with_id.
  induction (window_orders session start_date end_date) as [|o l IH]; [done|].
  destruct (decide (RawOrder.order_id o = id)) as [Heq|Hne];
    destruct (decide (RawOrder.order_id o ∉ exclude)) as [Hex|Hex].
  - rewrite (filter_cons_True (λ o, RawOrder.order_id o ∉ exclude) o l) by done.
    rewrite (filter_cons_True (λ o, RawOrder.order_id o = id) o l) by done.
    rewrite fmap_cons.
    rewrite (filter_cons_True (λ r, OrderRow.order_id r = id)) by done.
    rewrite (filter_cons_True (λ o, RawOrder.order_id o ∉ exclude)) by done.
    by rewrite fmap_cons, IH.
  - rewrite (filter_cons_False (λ o, RawOrder.order_id o ∉ exclude) o l) by done.
    rewrite (filter_cons_True (λ o, RawOrder.order_id o = id) o l) by done.
    rewrite (filter_cons_False (λ o, RawOrder.order_id o ∉ exclude)) by done.
    done.
  - rewrite (filter_cons_True (λ o, RawOrder.order_id o ∉ exclude) o l) by done.
    rewrite (filter_cons_False (λ o, RawOrder.order_id o = id) o l) by done.
    rewrite fmap_cons.
    rewrite (filter_cons_False (λ r, OrderRow.order_id r = id)) by done.
    done.
  - rewrite (filter_cons_False (λ o, RawOrder.order_id o ∉ exclude) o l) by done.
    rewrite (filter_cons_False (λ o, RawOrder.order_id o = id) o l) by done.
    done.
Qed.

Lemma orders_df_elem_of session start_date end_date exclude o :
  o ∈ window_orders session start_date end_date →
  RawOrder.order_id o ∉ exclude →
  order_row o ∈ _orders_df session start_date end_date (Some exclude).
Proof.
  intros Hin Hex. rewrite orders_df_eq. apply list_elem_of_fmap_2.
  by apply list_elem_of_filter.
Qed.

Lemma orders_df_excluded session start_date end_date exclude id :
  id ∈ exclude →
  id ∉ OrderRow.order_id <$> _orders_df session start_date end_date (Some exclude).
Proof.
  intros Hex. rewrite orders_df_eq, <- list_fmap_compose.
  intros (o & -> & [Hnot _]%list_elem_of_filter)%list_elem_of_fmap. by apply Hnot.
Qed.

(** What a successful fractional pass wrote. *)
Lemma core_attribution_logic_inv session run_id start_date end_date channel_weights
    session_sequences min_sequences exclude n allocations allocated session' :
  _core_attribution_logic removal_effect_credits session run_id start_date end_date
    channel_weights session_sequences min_sequences exclude
  = Some ((n, allocations, allocated), session') →
  session' = add_attribution_events session (event_of_allocated run_id <$> allocated)
  ∧ n = length allocated
  ∧ ∃ w, allocated = _orders_df session start_date end_date exclude ≫= allocator.allocate_order w
       ∧ (_orders_df session start_date end_date exclude ≠ [] →
          Py.sum_values w = 1).
Proof.
  unfold _core_attribution_logic.
  destruct (_orders_df session start_date end_date exclude) as [|row frame] eqn:Hframe.
  - intros [= <- <- <- <-]. rewrite add_attribution_events_nil.
    split; [done|]. split; [done|]. by exists ∅.
  - unfold allocator.fractional_allocate.
    destruct (allocator.allocation_weights _ _) as [w|] eqn:Hw; [|done].
    cbn. intros [= <- <- <- <-].
    split; [done|]. split; [done|]. exists w. split; [done|].
    intros _. by eapply allocation_weights_sum.
Qed.

Lemma core_attribution_logic_defined session run_id start_date end_date channel_weights
    session_sequences min_sequences exclude :
  is_Some (allocator.allocation_weights
             (_daily_spend_by_channel session start_date end_date)
             (allocator_weights removal_effect_credits channel_weights session_sequences
                (channels_of (_daily_spend_by_channel session start_date end_date))
                min_sequences)) →
  is_Some (_core_attribution_logic removal_effect_credits session run_id start_date end_date
             channel_weights session_sequences min_sequences exclude).
Proof.
  intros [w Hw]. unfold _core_attribution_logic.
  destruct (_orders_df session start_date end_date exclude); [done|].
  unfold allocator.fractional_allocate. rewrite Hw. done.
Qed.

(** What a successful run wrote: the click events, then the events of the
    fractional pass over the orders the click pass left. *)
Lemma run_attribution_inv session run_id start_date end_date channel_weights
    session_sequences min_sequences n session' :
  run_attribution removal_effect_credits session run_id start_date end_date
    channel_weights session_sequences min_sequences = Some (n, session') →
  let clicked := click_events session run_id start_date end_date in
  let attributed : gset string := list_to_set (AttributionEvent.order_id <$> clicked) in
  let frame := _orders_df session start_date end_date (Some attributed) in
  ∃ w, written session session'
       = clicked ++ (event_of_allocated run_id <$> (frame ≫= allocator.allocate_order w))
     ∧ (frame ≠ [] → Py.sum_values w = 1).
Proof.
  unfold run_attribution. rewrite run_click_id_attribution_eq.
  destruct (_core_attribution_logic _ _ _ _ _ _ _ _ _) as [[[[n' d] allocated] s2]|] eqn:Hcore;
    [|done].
  cbn. intros [= <- <-].
  apply core_attribution_logic_inv in Hcore as (-> & _ & w & -> & Hsum).
  exists w. split; [|done].
  rewrite add_attribution_events_app. apply written_add.
Qed.

Lemma run_attribution_defined session run_id start_date end_date channel_weights
    session_sequences min_sequences :
  spend_nonnegative session start_date end_date →
  weights_usable (_daily_spend_by_channel session start_date end_date)
    (allocator_weights removal_effect_credits channel_weights session_sequences
       (channels_of (_daily_spend_by_channel session start_date end_date)) min_sequences) →
  is_Some (run_attribution removal_effect_credits session run_id start_date end_date
             channel_weights session_sequences min_sequences).
Proof.
  intros Hspend Husable. unfold run_attribution. rewrite run_click_id_attribution_eq.
  destruct (core_attribution_logic_defined
              (add_attribution_events session (click_events session run_id start_date end_date))
              run_id start_date end_date channel_weights session_sequences min_sequences
              (Some (list_to_set (AttributionEvent.order_id
                                    <$> click_events session run_id start_date end_date))))
    as [[[[n d] allocated] s2] Hcore].
  { by apply allocation_weights_defined. }
  rewrite Hcore. done.
Qed.

End runner_facts.

(** ** Claims on the attribution pass *)

Section attribution_claims.
Import click_id_attribution attribution_runner.

Context (removal_effect_credits : list (list string) → list string → gmap string Qc).

Lemma orders_with_id_elem_of session start_date end_date o o' :
  orders_with_id session start_date end_date (RawOrder.order_id o) = [o]%list →
  o' ∈ window_orders session start_date end_date →
  RawOrder.order_id o' = RawOrder.order_id o → o' = o.
Proof.
  intros Hone Hin Hid.
  assert (o' ∈ orders_with_id session start_date end_date (RawOrder.order_id o)) as Hin'
    by by apply list_elem_of_filter.
  rewrite Hone in Hin'. by apply list_elem_of_singleton in Hin'.
Qed.

(** C2. Take any order of the window whose click identifier, stripped as the
    lookup strips it and not blank, is that of a click record of the window,
    and whose revenue (net when present, else gross) is positive.  The click
    dictionary holds for that identifier the last click record that carries
    it, which is the matching record itself when it is the only one.  The
    loop body of [run_click_id_attribution] adds exactly one event for the
    order: weight 1, that click's channel and campaign, the full revenue.
    So the rows the pass writes are the events of the orders before it, this
    one event, and the events of the orders after it; and where no other
    order of the window carries the order's identifier, this is the only row
    written for that identifier.  The identifier is in the returned set, no
    row of the frame handed to the fractional pass carries it, and a whole
    run of [run_attribution] writes no further event for it.  Nothing is
    assumed on how often an order or click identifier occurs. *)
Theorem click_id_order_attributed_once session run_id start_date end_date channel_weights
    session_sequences min_sequences o cid r :
  o ∈ window_orders session start_date end_date →
  RawOrder.click_id o = Some cid →
  Py.strip cid ≠ EmptyString →
  r ∈ clicks_in_window start_date end_date (raw_ad_clicks session) →
  RawAdClicks.click_id r = Py.strip cid →
  0 < order_revenue o →
  let body := order_event run_id (clicks_by_id session start_date end_date) in
  let res := run_click_id_attribution session run_id start_date end_date in
  ∃ click,
    last (clicks_with_id session start_date end_date (Py.strip cid)) = Some click
    ∧ (clicks_with_id session start_date end_date (Py.strip cid) = [r]%list → click = r)
    ∧ let ev := AttributionEvent.mk (RawOrder.order_id o) (RawAdClicks.channel click)
                  (Some (RawAdClicks.campaign_id click)) (RawAdClicks.campaign_name click)
                  1 (order_revenue o) (RawOrder.order_date o) run_id in
      body o = Some ev
      ∧ (∀ before after,
           window_orders session start_date end_date = before ++ o :: after →
           written session res.2 = omap body before ++ [ev]%list ++ omap body after)
      ∧ (orders_with_id session start_date end_date (RawOrder.order_id o) = [o]%list →
         events_of_order (RawOrder.order_id o) (written session res.2) = [ev]%list)
      ∧ RawOrder.order_id o ∈ res.1.2
      ∧ (RawOrder.order_id o
           ∉ OrderRow.order_id <$> _orders_df res.2 start_date end_date (Some res.1.2))
      ∧ ∀ n session',
          run_attribution removal_effect_credits session run_id start_date end_date
            channel_weights session_sequences min_sequences = Some (n, session') →
          events_of_order (RawOrder.order_id o) (written session session')
          = events_of_order (RawOrder.order_id o) (written session res.2).
Proof.
  intros Hin Hcid Hblank Hr Hmatch Hrev body res.
  assert (r ∈ clicks_with_id session start_date end_date (Py.strip cid)) as Hwith
    by by apply list_elem_of_filter.
  destruct (last (clicks_with_id session start_date end_date (Py.strip cid)))
    as [click|] eqn:Hlast.
  2:{ apply last_None in Hlast. rewrite Hlast in Hwith. by apply elem_of_nil in Hwith. }
  exists click. split; [done|]. split.
  { intros Hone. rewrite Hone in Hlast. by injection Hlast. }
  cbn zeta.
  set (ev := AttributionEvent.mk _ _ _ _ _ _ _ _).
  assert (body o = Some ev) as Hev.
  { subst body. unfold order_event. rewrite Hcid.
    rewrite decide_False by (intros [->|?]; done).
    rewrite clicks_by_id_last, Hlast. cbn.
    rewrite decide_False; [done|]. by apply Qclt_not_le. }
  assert (RawOrder.order_id o ∈
            (list_to_set (AttributionEvent.order_id
                            <$> click_events session run_id start_date end_date) : gset string))
    as Hatt.
  { apply attributed_iff_credited. exists o. split; [done|]. split; [done|]. by eexists. }
  subst res. rewrite run_click_id_attribution_eq. cbn [fst snd]. rewrite written_add.
  split; [done|]. split.
  { intros before after Hsplit. unfold click_events. rewrite Hsplit, omap_app, omap_cons_eq.
    fold body. by rewrite Hev. }
  split.
  { intros Hone. rewrite click_events_with_id, Hone. cbn. fold body. by rewrite Hev. }
  split; [done|].
  split; [by apply orders_df_excluded|].
  intros n session' (w & -> & _)%run_attribution_inv.
  rewrite events_of_order_app.
  rewrite (events_of_order_not_allocated run_id w); [by rewrite app_nil_r|].
  by apply orders_df_excluded.
Qed.

(** C7. An order of the window whose click identifier has no click record in
    the window, or whose revenue (net when present, else gross) is at most
    zero, gets no event from the loop body.  Provided the click-ID pass
    credits no other order of the window that carries the same identifier,
    no row is written for that identifier, the identifier is not in the
    returned set, and the order's row is in the frame handed to the
    fractional pass.  The pass is a total function: it raises nothing. *)
Theorem unresolved_order_falls_through session run_id start_date end_date o :
  o ∈ window_orders session start_date end_date →
  no_matching_click session start_date end_date o ∨ order_revenue o ≤ 0 →
  (∀ o', o' ∈ window_orders session start_date end_date →
         RawOrder.order_id o' = RawOrder.order_id o → o' ≠ o →
         order_event run_id (clicks_by_id session start_date end_date) o' = None) →
  let res := run_click_id_attribution session run_id start_date end_date in
  order_event run_id (clicks_by_id session start_date end_date) o = None
  ∧ events_of_order (RawOrder.order_id o) (written session res.2) = []%list
  ∧ (RawOrder.order_id o ∉ res.1.2)
  ∧ order_row o ∈ _orders_df res.2 start_date end_date (Some res.1.2).
Proof.
  intros Hin Hcase Hothers res.
  assert (order_event run_id (clicks_by_id session start_date end_date) o = None) as Hev.
  { unfold order_event. destruct (RawOrder.click_id o) as [cid|] eqn:Hcid; [|done].
    case_decide; [done|].
    destruct Hcase as [(cid' & Hcid' & Hno)|Hrev].
    - assert (cid' = cid) as -> by congruence. by rewrite clicks_by_id_none.
    - destruct (_ !! _) as [[[ch camp] name]|]; [|done]. by rewrite decide_True. }
  assert (∀ o', o' ∈ window_orders session start_date end_date →
                RawOrder.order_id o' = RawOrder.order_id o →
                order_event run_id (clicks_by_id session start_date end_date) o' = None)
    as Hall.
  { intros o' Ho' Hid.
    destruct (order_event run_id (clicks_by_id session start_date end_date) o') as [ev|] eqn:Hev';
      [|done].
    rewrite <- Hev'. apply Hothers; [done..|]. intros ->. congruence. }
  assert (RawOrder.order_id o ∉
            (list_to_set (AttributionEvent.order_id
                            <$> click_events session run_id start_date end_date) : gset string))
    as Hatt.
  { rewrite attributed_iff_credited. intros (o' & Ho' & Hid & ev & Hsome).
    by rewrite (Hall o' Ho' Hid) in Hsome. }
  subst res. rewrite run_click_id_attribution_eq. cbn [fst snd]. rewrite written_add.
  split; [done|]. split.
  { unfold events_of_order. apply filter_none.
    intros ev (o' & Ho' & Hsome)%list_elem_of_omap Hid.
    rewrite (Hall o' Ho') in Hsome; [done|].
    by rewrite <- (order_event_order_id _ _ _ _ Hsome). }
  split; [done|]. by apply orders_df_elem_of.
Qed.

(** C1. For every order of the window whose identifier no other order of the
    window carries, the events one call of [run_attribution] writes for it
    all carry the run identifier, their weights sum to 1 and their allocated
    revenues sum to the order's revenue (net when present, else gross),
    exactly and so within 1e-6 and 1e-2; this covers an order credited by
    the click-ID pass and one allocated by the fractional or Markov pass.
    Floats are read as exact rationals, spend is nonnegative and supplied or
    Markov weights do not sum to zero over the channels with spend. *)
Theorem attribution_events_sum_per_order session run_id start_date end_date channel_weights
    session_sequences min_sequences o :
  orders_with_id session start_date end_date (RawOrder.order_id o) = [o]%list →
  spend_nonnegative session start_date end_date →
  weights_usable (_daily_spend_by_channel session start_date end_date)
    (allocator_weights removal_effect_credits channel_weights session_sequences
       (channels_of (_daily_spend_by_channel session start_date end_date)) min_sequences) →
  ∃ n session',
    run_attribution removal_effect_credits session run_id start_date end_date
      channel_weights session_sequences min_sequences = Some (n, session')
    ∧ let evs := events_of_order (RawOrder.order_id o) (written session session') in
      Forall (λ ev, AttributionEvent.run_id ev = run_id) evs
      ∧ Py.sum (AttributionEvent.weight <$> evs) = 1
      ∧ Py.sum (AttributionEvent.allocated_revenue <$> evs) = order_revenue o
      ∧ Qcabs (Py.sum (AttributionEvent.weight <$> evs) - 1) ≤ Q2Qc (1 # 1000000)
      ∧ Qcabs (Py.sum (AttributionEvent.allocated_revenue <$> evs) - order_revenue o)
        ≤ Q2Qc (1 # 100).
Proof.
  intros Hone Hspend Husable.
  destruct (run_attribution_defined removal_effect_credits session run_id start_date end_date
              channel_weights session_sequences min_sequences Hspend Husable)
    as [[n session'] Hrun].
  exists n, session'. split; [done|].
  apply run_attribution_inv in Hrun as (w & Hw & Hsum).
  assert (∀ evs : list AttributionEvent.t,
            Forall (λ ev, AttributionEvent.run_id ev = run_id) evs →
            Py.sum (AttributionEvent.weight <$> evs) = 1 →
            Py.sum (AttributionEvent.allocated_revenue <$> evs) = order_revenue o →
            Forall (λ ev, AttributionEvent.run_id ev = run_id) evs
            ∧ Py.sum (AttributionEvent.weight <$> evs) = 1
            ∧ Py.sum (AttributionEvent.allocated_revenue <$> evs) = order_revenue o
            ∧ Qcabs (Py.sum (AttributionEvent.weight <$> evs) - 1) ≤ Q2Qc (1 # 1000000)
            ∧ Qcabs (Py.sum (AttributionEvent.allocated_revenue <$> evs) - order_revenue o)
              ≤ Q2Qc (1 # 100)) as Hexact.
  { intros evs Hrun Hws Hrs. rewrite Hws, Hrs.
    replace (1 - 1) with (0 : Qc) by ring.
    replace (order_revenue o - order_revenue o) with (0 : Qc) by ring.
    repeat split; done. }
  cbn zeta.
  rewrite Hw, events_of_order_app, click_events_with_id, Hone.
  rewrite events_of_order_allocated_filter, orders_df_with_id, Hone.
  cbn [omap list_omap].
  destruct (order_event run_id (clicks_by_id session start_date end_date) o) as [ev|] eqn:Hev.
  - (* credited by the click-ID pass *)
    rewrite (filter_none _ [o]%list).
    2:{ intros o' Ho'%list_elem_of_singleton Hnot. subst o'. apply Hnot.
        apply attributed_iff_credited. exists o. split; [|by eauto].
        assert (o ∈ orders_with_id session start_date end_date (RawOrder.order_id o)) as Hin
          by (rewrite Hone; by left).
        by apply list_elem_of_filter in Hin as []. }
    cbn. apply Hexact.
    + apply Forall_singleton. revert Hev. unfold order_event.
      repeat (case_match; try done); by intros [= <-].
    + revert Hev. unfold order_event.
      repeat (case_match; try done); intros [= <-]; cbn; ring.
    + revert Hev. unfold order_event.
      repeat (case_match; try done); intros [= <-]; cbn; ring.
  - (* allocated by the fractional pass *)
    assert (RawOrder.order_id o ∉
              (list_to_set (AttributionEvent.order_id
                              <$> click_events session run_id start_date end_date) : gset string))
      as Hatt.
    { rewrite attributed_iff_credited. intros (o' & Ho' & Hid & ev & Hsome).
      rewrite (orders_with_id_elem_of _ _ _ o o' Hone Ho' Hid) in Hsome. congruence. }
    rewrite (filter_all _ [o]%list) by (intros o' Ho'%list_elem_of_singleton; by subst o').
    cbn [fmap list_fmap mbind list_bind app]. rewrite app_nil_r.
    assert (Py.sum_values w = 1) as Hone'.
    { apply Hsum. intros Hnil.
      assert (order_row o ∈ _orders_df session start_date end_date
                (Some (list_to_set (AttributionEvent.order_id
                                      <$> click_events session run_id start_date end_date))))
        as Hrow.
      { apply orders_df_elem_of; [|done].
        assert (o ∈ orders_with_id session start_date end_date (RawOrder.order_id o)) as Hin
          by (rewrite Hone; by left).
        by apply list_elem_of_filter in Hin as []. }
      rewrite Hnil in Hrow. by apply elem_of_nil in Hrow. }
    apply Hexact.
    + apply Forall_forall. intros ev' Hev'. by apply allocate_order_id in Hev' as [].
    + by rewrite allocate_order_weights.
    + rewrite allocate_order_revenue, Hone'. cbn. ring.
Qed.


End attribution_claims.

(** C7, as stated, fails where two orders share an identifier.  At
    [colliding_session] the WooCommerce order 1001 names a click that does
    not exist and the loop body adds nothing for it, yet the pass writes a
    row that carries its identifier, for the Shopify order 1001; the
    identifier is in the returned set and the frame handed to the fractional
    pass is empty, so the order does not fall through. *)
Lemma shared_order_id_blocks_fall_through :
  let res := click_id_attribution.run_click_id_attribution colliding_session "run" 0 10 in
  colliding_unmatched_order ∈ window_orders colliding_session 0 10
  ∧ no_matching_click colliding_session 0 10 colliding_unmatched_order
  ∧ click_id_attribution.order_event "run"
      (click_id_attribution.clicks_by_id colliding_session 0 10) colliding_unmatched_order = None
  ∧ events_of_order (RawOrder.order_id colliding_unmatched_order)
      (written colliding_session res.2)
    = [colliding_click_event]%list
  ∧ RawOrder.order_id colliding_unmatched_order ∈ res.1.2
  ∧ attribution_runner._orders_df res.2 0 10 (Some res.1.2) = []%list
  ∧ attribution_runner.order_row colliding_unmatched_order
      ∉ attribution_runner._orders_df res.2 0 10 (Some res.1.2).
Proof.
  cbn zeta. rewrite run_click_id_attribution_eq. cbn [fst snd]. rewrite written_add.
  assert (click_events colliding_session "run" 0 10
          = [colliding_click_event]%list)
    as Hclicks by by vm_compute.
  rewrite Hclicks.
  assert (attribution_runner._orders_df
            (add_attribution_events colliding_session
               [colliding_click_event]%list)
            0 10 (Some (list_to_set (AttributionEvent.order_id <$> [colliding_click_event]%list)))
          = []%list) as Hframe by by vm_compute.
  split; [right; by left|]. split.
  { exists "unknown". split; [done|].
    intros r [->|[]%elem_of_nil]%elem_of_cons. by vm_compute. }
  split; [by vm_compute|]. split; [by vm_compute|].
  split; [by apply (bool_decide_unpack _)|].
  split; [done|]. rewrite Hframe. apply not_elem_of_nil.
Qed.

(** C1, as stated, fails where two orders share an identifier.  At
    [colliding_session] the Shopify order 1001 (revenue 10) carries the
    identifier of a click and the WooCommerce order 1001 (revenue 20) one that
    matches no click; spend is nonnegative and no weights are supplied.  The
    run writes one row for the identifier, of revenue 10, and the fractional
    pass, which excludes by identifier, writes none: the rows of the
    WooCommerce order do not sum to its revenue within 1e-2. *)
Lemma shared_order_id_revenue_mismatch :
  colliding_unmatched_order ∈ window_orders colliding_session 0 10
  ∧ spend_nonnegative colliding_session 0 10
  ∧ weights_usable (attribution_runner._daily_spend_by_channel colliding_session 0 10) None
  ∧ ∃ n session',
      attribution_runner.run_attribution (λ _ _, ∅) colliding_session "run" 0 10 None None 10
      = Some (n, session')
      ∧ let evs := events_of_order (RawOrder.order_id colliding_unmatched_order)
                     (written colliding_session session') in
        evs = [colliding_click_event]%list
        ∧ order_revenue colliding_unmatched_order = Q2Qc 20
        ∧ Py.sum (AttributionEvent.allocated_revenue <$> evs) = Q2Qc 10
        ∧ ¬ Qcabs (Py.sum (AttributionEvent.allocated_revenue <$> evs)
                   - order_revenue colliding_unmatched_order) ≤ Q2Qc (1 # 100).
Proof.
  split; [right; by left|]. split.
  { intros r [->|[->|[]%elem_of_nil]%elem_of_cons]%elem_of_cons; by vm_compute. }
  split; [by intros w|].
  destruct (attribution_runner.run_attribution (λ _ _, ∅) colliding_session "run" 0 10 None None 10)
    as [[n session']|] eqn:Hrun; [|by vm_compute in Hrun].
  exists n, session'. split; [done|].
  apply run_attribution_inv in Hrun as (w & Hw & _).
  cbn zeta. rewrite Hw.
  assert (click_events colliding_session "run" 0 10
          = [colliding_click_event]%list)
    as Hclicks by by vm_compute.
  rewrite Hclicks.
  assert (attribution_runner._orders_df colliding_session
            0 10 (Some (list_to_set (AttributionEvent.order_id <$> [colliding_click_event]%list)))
          = []%list) as Hframe by by vm_compute.
  rewrite Hframe. cbn [mbind list_bind fmap list_fmap app].
  split; [by vm_compute|]. split; [done|]. split; [by vm_compute|].
  by vm_compute.
Qed.

(** ** Claims on the reconciliation report *)

Section report_claims.
Import attribution_mmm_report.

Lemma foldl_add_sum {A} (f : A → Qc) (l : list A) (acc : Qc) :
  foldl (λ acc x, acc + f x) acc l = acc + Py.sum (f <$> l).
Proof.
  revert acc. induction l as [|x l IH]; intros acc.
  - rewrite fmap_nil, sum_nil. cbn. ring.
  - rewrite fmap_cons, sum_cons. cbn [foldl]. rewrite IH. ring.
Qed.

Lemma disagreement_l1 (a m : gmap string Qc) : disagreement a m = l1_distance a m.
Proof.
  unfold disagreement, l1_distance, channel_union.
  rewrite foldl_add_sum, Qcplus_0_l.
  apply sum_Permutation, fmap_Permutation, merge_sort_Permutation.
Qed.

Lemma shares_returns (d : gmap string Qc) : Py.returns (shares d).
Proof.
  unfold shares, Py.div_values, Py.or_default, Py.returns.
  repeat case_decide; eauto; done.
Qed.

Lemma div_one_id (d : gmap string Qc) : (λ v, v / 1) <$> d = d.
Proof.
  apply map_eq. intros k. rewrite lookup_fmap.
  destruct (d !! k) as [v|]; [|done]. cbn. f_equal. by field.
Qed.

Lemma shares_zero_total (d : gmap string Qc) :
  Py.sum_values d = 0 → shares d = Py.Ok d.
Proof.
  intros Hzero. unfold shares, Py.or_default. rewrite Hzero, decide_True by done.
  unfold Py.div_values. case_decide as He; [by rewrite He|].
  rewrite decide_False by done. by rewrite div_one_id.
Qed.

Lemma sum_values_nonneg (d : gmap string Qc) :
  map_Forall (λ _ v, 0 ≤ v) d → 0 ≤ Py.sum_values d.
Proof.
  induction d as [|k x d Hk IH] using map_ind; intros Hall.
  - rewrite sum_values_empty. apply Qcle_refl.
  - rewrite sum_values_insert by done.
    apply map_Forall_insert in Hall as [Hx Hall]; [|done].
    replace (0 : Qc) with (0 + 0) by ring. apply Qcplus_le_compat; auto.
Qed.

Lemma nonneg_zero_total (d : gmap string Qc) :
  map_Forall (λ _ v, 0 ≤ v) d → Py.sum_values d = 0 → map_Forall (λ _ v, v = 0) d.
Proof.
  induction d as [|k x d Hk IH] using map_ind; intros Hall Hzero; [apply map_Forall_empty|].
  rewrite sum_values_insert in Hzero by done.
  apply map_Forall_insert in Hall as [Hx Hall]; [|done].
  pose proof (sum_values_nonneg d Hall) as Hrest.
  assert (x = 0 ∧ Py.sum_values d = 0) as [-> Hd].
  { destruct (Qcle_lt_or_eq _ _ Hx) as [Hpos|<-].
    - exfalso. pose proof (Qcplus_pos_nonneg _ _ Hpos Hrest) as Hlt.
      rewrite Hzero in Hlt. by apply Qclt_not_eq in Hlt.
    - split; [done|]. by rewrite Qcplus_0_l in Hzero. }
  apply map_Forall_insert_2; [done|]. by apply IH.
Qed.

End report_claims.

Section report_theorems.
Import attribution_mmm_report.

Context (_response_single_channel : Qc → Qc → Qc).

Lemma bind_Ok_inv {A B} (r : Py.result A) (k : A → Py.result B) (b : B) :
  (r ≫= k) = Py.Ok b → ∃ a, r = Py.Ok a ∧ k a = Py.Ok b.
Proof. destruct r as [a|e]; [|done]. intros Hk. by exists a. Qed.

Lemma mmm_contribution_share_returns session spend_by_channel mmm_run_id half_life :
  Py.returns (_mmm_contribution_share _response_single_channel session spend_by_channel
                mmm_run_id half_life).
Proof.
  unfold _mmm_contribution_share.
  destruct (select_mmm_results session mmm_run_id); [by eexists|].
  match goal with |- Py.returns (shares ?c ≫= _) => destruct (shares_returns c) as [s ->] end.
  by eexists.
Qed.

Lemma build_report_inv session start_date end_date attribution_run_id mmm_run_id threshold rep :
  build_attribution_mmm_report _response_single_channel session start_date end_date
    attribution_run_id mmm_run_id threshold = Py.Ok rep →
  shares (_attribution_revenue_by_channel session start_date end_date attribution_run_id)
  = Py.Ok (attribution_share rep)
  ∧ rep = report_of_shares (attribution_share rep) (mmm_share rep) threshold.
Proof.
  unfold build_attribution_mmm_report.
  intros (a & Ha & (ms & Hms & [= <-])%bind_Ok_inv)%bind_Ok_inv. done.
Qed.

(** C3. The local [disagreement_score] of [build_attribution_mmm_report] is
    the L1 sum of |attribution share − MMM share| over the union of the
    channels of both share maps, an absent channel counting as 0; the flag
    is true exactly when that sum exceeds the threshold (0.25 by default),
    and the reported score is the sum rounded to four places.  For shares
    {meta: 0.6, google: 0.4} against {meta: 0.3, google: 0.7} the score is
    0.6 and the flag is true. *)
Theorem report_disagreement_is_l1 :
  INSTABILITY_THRESHOLD = Q2Qc (25 # 100)
  ∧ (∀ a m, disagreement a m = l1_distance a m)
  ∧ (∀ session start_date end_date attribution_run_id mmm_run_id threshold rep,
       build_attribution_mmm_report _response_single_channel session start_date end_date
         attribution_run_id mmm_run_id threshold = Py.Ok rep →
       let score := l1_distance (attribution_share rep) (mmm_share rep) in
       channels rep = channel_union (attribution_share rep) (mmm_share rep)
       ∧ disagreement_score rep = Py.round score 4
       ∧ (instability_flagged rep = true ↔ threshold < score))
  ∧ (let rep := report_of_shares scenario_attribution_share scenario_mmm_share
                  INSTABILITY_THRESHOLD in
     l1_distance scenario_attribution_share scenario_mmm_share = Q2Qc (6 # 10)
     ∧ disagreement_score rep = Q2Qc (6 # 10)
     ∧ instability_flagged rep = true).
Proof.
  split; [done|]. split; [apply disagreement_l1|]. split.
  - intros session sd ed arid mrid t rep [_ Hrep]%build_report_inv score. subst score.
    rewrite <- disagreement_l1.
    split; [by rewrite Hrep at 1|]. split; [by rewrite Hrep at 1|].
    rewrite Hrep at 1. apply bool_decide_eq_true.
  - cbn zeta. split; [|split].
    + apply Qc_is_canon. by vm_compute.
    + apply Qc_is_canon. by vm_compute.
    + by vm_compute.
Qed.

(** C4, as the code has it.  Both share computations always return: the
    denominator is the total, or 1 when the total is zero.  With a zero total
    each share is therefore the channel's own value (attribution revenue, or
    coefficient × response), so every share is 0 when no value is negative;
    values that cancel are passed through unchanged. *)
Theorem zero_total_defaults_denominator :
  (∀ d, Py.returns (shares d))
  ∧ (∀ d, Py.sum_values d = 0 → shares d = Py.Ok d)
  ∧ (∀ d s, Py.sum_values d = 0 → map_Forall (λ _ v, 0 ≤ v) d → shares d = Py.Ok s →
            map_Forall (λ _ v, v = 0) s)
  ∧ (∀ session spend_by_channel mmm_run_id half_life,
       Py.returns (_mmm_contribution_share _response_single_channel session spend_by_channel
                     mmm_run_id half_life))
  ∧ (∀ session start_date end_date attribution_run_id mmm_run_id threshold,
       Py.returns (build_attribution_mmm_report _response_single_channel session start_date
                     end_date attribution_run_id mmm_run_id threshold))
  ∧ (∀ session spend_by_channel mmm_run_id half_life contribution share,
       _mmm_contribution_share _response_single_channel session spend_by_channel
         mmm_run_id half_life = Py.Ok (contribution, share) →
       Py.sum_values contribution = 0 → share = contribution)
  ∧ (∀ session start_date end_date attribution_run_id mmm_run_id threshold rep,
       build_attribution_mmm_report _response_single_channel session start_date end_date
         attribution_run_id mmm_run_id threshold = Py.Ok rep →
       Py.sum_values (_attribution_revenue_by_channel session start_date end_date
                        attribution_run_id) = 0 →
       attribution_share rep
       = _attribution_revenue_by_channel session start_date end_date attribution_run_id).
Proof.
  split; [apply shares_returns|]. split; [apply shares_zero_total|].
  split; [|split; [|split; [|split]]].
  - intros d s Hzero Hnonneg. rewrite shares_zero_total by done. intros [= <-].
    by apply nonneg_zero_total.
  - apply mmm_contribution_share_returns.
  - intros session sd ed arid mrid t. unfold build_attribution_mmm_report.
    destruct (shares_returns (_attribution_revenue_by_channel session sd ed arid)) as [a ->].
    cbn.
    destruct (mmm_contribution_share_returns session (_spend_by_channel session sd ed) mrid
                DEFAULT_ADSTOCK_HALF_LIFE) as [ms ->].
    by eexists.
  - intros session spend mrid hl c s. unfold _mmm_contribution_share.
    destruct (select_mmm_results session mrid); [by intros [= <- <-]|].
    intros (s' & Hs & [= <- <-])%bind_Ok_inv Hzero.
    rewrite shares_zero_total in Hs by done. congruence.
  - intros session sd ed arid mrid t rep [Ha _]%build_report_inv Hzero.
    rewrite shares_zero_total in Ha by done. congruence.
Qed.

End report_theorems.

(** C4, as stated, fails: two attribution rows of revenue 5 and −5 have a
    zero total, and the shares reported are 5 and −5, not 0. *)
Lemma cancelling_total_shares_not_zero :
  let attr_rev :=
    attribution_mmm_report._attribution_revenue_by_channel cancelling_session 0 0 None in
  Py.sum_values attr_rev = 0
  ∧ ∃ rep,
      attribution_mmm_report.build_attribution_mmm_report (λ spend _, spend)
        cancelling_session 0 0 None None attribution_mmm_report.INSTABILITY_THRESHOLD
      = Py.Ok rep
      ∧ Py.get0 (attribution_mmm_report.attribution_share rep) "meta" = Q2Qc 5
      ∧ Py.get0 (attribution_mmm_report.attribution_share rep) "google" = Q2Qc (-5)
      ∧ Q2Qc 5 ≠ 0.
Proof.
  cbn zeta. split; [apply Qc_is_canon; by vm_compute|].
  eexists. split; [vm_compute; reflexivity|].
  split; [apply Qc_is_canon; by vm_compute|].
  split; [apply Qc_is_canon; by vm_compute|]. done.
Qed.

(** ** The latest coefficient per channel *)

Section latest_coefficient.
Import attribution_mmm_report.

Context (_response_single_channel : Qc → Qc → Qc).


#[local] Instance newer_first_trans : Transitive newer_first.
Proof. unfold newer_first. intros r1 r2 r3 ??. lia. Qed.

#[local] Instance newer_first_total : Total newer_first.
Proof. unfold newer_first. intros r1 r2. lia. Qed.

Lemma select_mmm_results_all session mmm_run_id :
  truthy mmm_run_id = None →
  select_mmm_results session mmm_run_id = merge_sort newer_first (mmm_results session).
Proof.
  intros Hnone. unfold select_mmm_results. apply filter_all.
  intros r _. unfold run_matches. by rewrite Hnone.
Qed.

(** The loop keeps, for each channel, the coefficient of the first row of
    that channel. *)
Lemma first_coefficient_foldl (rows : list MMMResults.t) (m : gmap string Qc) ch :
  foldl (λ by_channel r,
           match by_channel !! MMMResults.channel r with
           | None => <[MMMResults.channel r := MMMResults.coefficient r]> by_channel
           | Some _ => by_channel
           end) m rows !! ch
  = match m !! ch with
    | Some c => Some c
    | None => MMMResults.coefficient <$> head (filter (λ r, MMMResults.channel r = ch) rows)
    end.
Proof.
  revert m. induction rows as [|r rows IH]; intros m; [cbn; by destruct (m !! ch)|].
  cbn [foldl]. rewrite IH. destruct (decide (MMMResults.channel r = ch)) as [<-|Hne].
  - rewrite filter_cons_True by done.
    destruct (m !! MMMResults.channel r) as [c|] eqn:Hm; [by rewrite Hm|].
    by rewrite lookup_insert_eq.
  - rewrite filter_cons_False by done.
    destruct (m !! MMMResults.channel r) as [c|] eqn:Hm; [done|].
    by rewrite lookup_insert_ne.
Qed.

Lemma first_coefficient_lookup (rows : list MMMResults.t) ch :
  first_coefficient_by_channel rows !! ch
  = MMMResults.coefficient <$> head (filter (λ r, MMMResults.channel r = ch) rows).
Proof. unfold first_coefficient_by_channel. by rewrite first_coefficient_foldl, lookup_empty. Qed.

(** In a list sorted newest first, the first row of a channel is a most
    recently created row of that channel. *)
Lemma head_filter_newest (rows : list MMMResults.t) ch r :
  StronglySorted newer_first rows →
  head (filter (λ r, MMMResults.channel r = ch) rows) = Some r →
  r ∈ rows ∧ MMMResults.channel r = ch
  ∧ ∀ r', r' ∈ rows → MMMResults.channel r' = ch →
          (MMMResults.created_at r' ≤ MMMResults.created_at r)%Z.
Proof.
  intros Hsorted Hhead.
  assert (r ∈ filter (λ r, MMMResults.channel r = ch) rows) as [Hch Hin]%list_elem_of_filter.
  { destruct (filter _ rows); [done|]. injection Hhead as ->. left. }
  apply head_filter_Some in Hhead as (l1 & l2 & -> & Hbefore).
  split; [done|]. split; [done|].
  intros r' [Hr'|[->|Hr']%elem_of_cons]%elem_of_app Hch'.
  - rewrite Forall_forall in Hbefore. by destruct (Hbefore r' Hr').
  - lia.
  - apply StronglySorted_app_1_r, StronglySorted_cons in Hsorted as [Hall _].
    rewrite Forall_forall in Hall. by apply Hall.
Qed.

(** C10. Without an [mmm_run_id], every row of [mmm_results] is read, newest
    first, and the coefficient kept for a channel is that of a most recently
    created row of that channel, whatever its run; a channel with no row has
    no entry.  The contribution is that coefficient times the response at the
    channel's spend, and the share is the contribution over the total (or
    over 1 when the total is zero).  With an older run covering meta and
    google and a newer run covering meta only, the report mixes the newer
    meta coefficient with the older google one. *)
Theorem latest_coefficient_per_channel :
  (∀ session mmm_run_id ch,
     truthy mmm_run_id = None →
     let by_channel := first_coefficient_by_channel (select_mmm_results session mmm_run_id) in
     ((∀ r, r ∈ mmm_results session → MMMResults.channel r ≠ ch) ∧ by_channel !! ch = None)
     ∨ ∃ r, r ∈ mmm_results session ∧ MMMResults.channel r = ch
          ∧ (∀ r', r' ∈ mmm_results session → MMMResults.channel r' = ch →
                   (MMMResults.created_at r' ≤ MMMResults.created_at r)%Z)
          ∧ by_channel !! ch = Some (MMMResults.coefficient r))
  ∧ (∀ session spend_by_channel mmm_run_id half_life contribution share ch,
       _mmm_contribution_share _response_single_channel session spend_by_channel
         mmm_run_id half_life = Py.Ok (contribution, share) →
       let by_channel := first_coefficient_by_channel (select_mmm_results session mmm_run_id) in
       contribution !! ch
       = (λ coef, coef * _response_single_channel (Py.get0 spend_by_channel ch) half_life)
           <$> by_channel !! ch
       ∧ share !! ch
         = (λ v, v / Py.or_default (Py.sum_values contribution) 1) <$> contribution !! ch)
  ∧ (let by_channel := first_coefficient_by_channel (select_mmm_results two_runs_session None) in
     by_channel !! "meta" = Some (Q2Qc 5) ∧ by_channel !! "google" = Some (Q2Qc 3)).
Proof.
  split; [|split].
  - intros session mrid ch Hnone by_channel. subst by_channel.
    rewrite select_mmm_results_all by done. rewrite first_coefficient_lookup.
    destruct (head (filter (λ r, MMMResults.channel r = ch)
                      (merge_sort newer_first (mmm_results session)))) as [r|] eqn:Hhead.
    + right. exists r.
      apply head_filter_newest in Hhead as (Hin & Hch & Hmax);
        [|apply StronglySorted_merge_sort; apply _].
      rewrite merge_sort_Permutation in Hin.
      split; [done|]. split; [done|]. split; [|done].
      intros r' Hr' Hch'. apply Hmax; [|done]. by rewrite merge_sort_Permutation.
    + left. split; [|done]. intros r Hr Hch.
      assert (r ∈ filter (λ r, MMMResults.channel r = ch)
                    (merge_sort newer_first (mmm_results session))) as Hin.
      { apply list_elem_of_filter. split; [done|]. by rewrite merge_sort_Permutation. }
      destruct (filter _ _); [by apply elem_of_nil in Hin|done].
  - intros session spend mrid hl c s ch. unfold _mmm_contribution_share.
    destruct (select_mmm_results session mrid) as [|r0 rows] eqn:Hrows.
    + intros [= <- <-]. cbn. by rewrite !lookup_empty.
    + intros (s' & Hs & [= <- <-])%bind_Ok_inv. cbn zeta.
      split.
      * rewrite map_lookup_imap. by destruct (_ !! ch).
      * revert Hs. unfold shares, Py.div_values. case_decide as He.
        { intros [= <-]. rewrite He. by rewrite !lookup_empty. }
        case_decide as Hz; [done|]. intros [= <-]. by rewrite lookup_fmap.
  - cbn zeta. split; by vm_compute.
Qed.

End latest_coefficient.

(** ** Claims on the MMM runner *)

Section mmm_claims.
Import mmm_runner.

Context (MMM_VERSION : string) (half_pow log1p : Qc → Qc).
Context (fit_pipeline :
  list (list Qc) → list Qc → list string → Z → string → string
  → Py.result (gmap string value)).

Lemma length_date_range start_date end_date :
  length (date_range start_date end_date) = Z.to_nat (end_date - start_date + 1).
Proof. apply length_seqZ. Qed.

Lemma length_adstock_from {T} (add mul : T → T → T) (decay prev : T) (spend : list T) :
  length (transforms.adstock_from add mul decay prev spend) = length spend.
Proof.
  revert prev. induction spend as [|x spend IH]; intros prev; [done|].
  cbn. by rewrite IH.
Qed.

Lemma length_spend_column session start_date end_date n date_to_idx ch :
  length (spend_column session start_date end_date n date_to_idx ch) = n.
Proof.
  unfold spend_column. destruct (ch_to_model session ch) as [tbl|]; [|apply length_replicate].
  generalize (ads_in_window start_date end_date tbl). intros recs.
  assert (length (replicate n (0 : Qc)) = n) as Hlen by apply length_replicate.
  revert Hlen. generalize (replicate n (0 : Qc)).
  induction recs as [|r recs IH]; intros col Hcol; [done|].
  cbn [foldl]. apply IH. destruct (date_to_idx !! RawAds.date r); [|done].
  by rewrite length_alter.
Qed.

Lemma length_feature_column col half_life :
  length (saturation_log log1p (adstock_transform half_pow col half_life)) = length col.
Proof.
  unfold saturation_log, adstock_transform, transforms.adstock_filter.
  by rewrite length_fmap, length_adstock_from.
Qed.

(** The three ways a call can go. *)
Lemma run_mmm_cases session run_id start_date end_date channels adstock_half_life n_boot
    mmm_version now :
  let chs := default _DEFAULT_CHANNELS channels in
  let call := run_mmm MMM_VERSION half_pow log1p fit_pipeline session run_id start_date
                end_date channels adstock_half_life n_boot mmm_version now in
  (chs = [] ∧ call = Py.Raise Py.ValueError)
  ∨ (chs ≠ [] ∧ (end_date < start_date)%Z
     ∧ call = Py.Ok (degenerate_result run_id chs,
                     add_mmm_results session
                       (degenerate_rows MMM_VERSION run_id now chs mmm_version)))
  ∨ (chs ≠ [] ∧ (start_date ≤ end_date)%Z
     ∧ ∀ d session', call = Py.Ok (d, session') →
         ∃ r2 coefs model_version adj_r2 mape vif elasticities bootstrap_ci stability_index
           confidence_score,
           d = list_to_map [
                 ("run_id", VStr run_id); ("r2", r2); ("coefficients", coefs);
                 ("model_version", model_version); ("adj_r2", adj_r2); ("mape", mape);
                 ("vif", vif); ("elasticities", elasticities);
                 ("bootstrap_ci", bootstrap_ci); ("stability_index", stability_index);
                 ("confidence_score", confidence_score) ]).
Proof.
  intros chs call. subst call. unfold run_mmm. fold chs.
  unfold _daily_spend_matrix. cbn zeta beta iota.
  destruct chs as [|ch chs'] eqn:Hchs; [left; by split|]. right.
  destruct (decide (end_date < start_date)%Z) as [Hempty|Hnonempty].
  - left. split; [done|]. split; [done|].
    unfold date_range. rewrite seqZ_nil by lia. cbn.
    by rewrite decide_True by by right.
  - right. split; [done|]. split; [lia|].
    intros d session'. rewrite !fmap_cons. cbn [hstack].
    change (Py.Ok ?x ≫= ?k) with (k x). cbn beta.
    rewrite decide_False.
    2:{ intros [Hsize|Hrev].
        - unfold size in Hsize. rewrite fmap_cons in Hsize. cbn [sum_list sum_list_with] in Hsize.
          rewrite length_feature_column, length_spend_column, length_date_range in Hsize.
          unfold Datatypes.id in Hsize. lia.
        - rewrite length_fmap, length_date_range in Hrev. lia. }
    intros H.
    repeat (apply bind_Ok_inv in H as (? & _ & H)).
    injection H as <- _. by do 10 eexists.
Qed.

(** C5, at the input where it fails: with an empty channel list the call
    raises [ValueError] from [np.hstack] before the degenerate branch is
    reached, whatever the window. *)
Theorem run_mmm_empty_channels_raises session run_id start_date end_date adstock_half_life
    n_boot mmm_version now :
  run_mmm MMM_VERSION half_pow log1p fit_pipeline session run_id start_date end_date
    (Some []) adstock_half_life n_boot mmm_version now
  = Py.Raise Py.ValueError.
Proof. done. Qed.

(** The part of C5 that holds: over an empty window and with at least one
    channel the call returns, writing one row of coefficient 0 and null R²
    per channel and returning a zero coefficient for each with a null
    [r2]. *)
Lemma run_mmm_empty_window session run_id start_date end_date channels adstock_half_life
    n_boot mmm_version now :
  (end_date < start_date)%Z →
  default _DEFAULT_CHANNELS channels ≠ [] →
  ∃ d session',
    run_mmm MMM_VERSION half_pow log1p fit_pipeline session run_id start_date end_date
      channels adstock_half_life n_boot mmm_version now = Py.Ok (d, session')
    ∧ d !! "r2" = Some VNone
    ∧ d !! "coefficients"
      = Some (VDict (list_to_map ((λ ch, (ch, VFloat 0))
                                    <$> default _DEFAULT_CHANNELS channels)))
    ∧ mmm_results session'
      = mmm_results session
        ++ ((λ ch, MMMResults.mk run_id now ch 0 None
                     (Some (version_or_default MMM_VERSION mmm_version)))
              <$> default _DEFAULT_CHANNELS channels).
Proof.
  intros Hempty Hchs.
  destruct (run_mmm_cases session run_id start_date end_date channels adstock_half_life
              n_boot mmm_version now) as [[? _]|[(_ & _ & ->)|(_ & ? & _)]]; [done| |lia].
  do 2 eexists. split; [done|]. by vm_compute.
Qed.

(** The keys of the result on each path.  Whenever [run_mmm] returns, the
    dictionary has the keys of its docstring: run_id, r2, coefficients, vif,
    elasticities, bootstrap_ci, stability_index and confidence_score.  Over
    a window with at least one day, the fitted path, it also has adj_r2,
    mape and model_version, so all nine keys of the spec; over an empty
    window, the degenerate path, it has none of the three. *)
Theorem run_mmm_result_keys session run_id start_date end_date channels adstock_half_life
    n_boot mmm_version now d session' :
  run_mmm MMM_VERSION half_pow log1p fit_pipeline session run_id start_date end_date
    channels adstock_half_life n_boot mmm_version now = Py.Ok (d, session') →
  has_keys docstring_result_keys d
  ∧ ((start_date ≤ end_date)%Z →
     has_keys spec_result_keys d ∧ is_Some (d !! "model_version"))
  ∧ ((end_date < start_date)%Z →
     d !! "adj_r2" = None ∧ d !! "mape" = None ∧ d !! "model_version" = None).
Proof.
  intros Hcall.
  destruct (run_mmm_cases session run_id start_date end_date channels adstock_half_life
              n_boot mmm_version now) as [[_ Hraise]|[(_ & Hempty & Hdeg)|(_ & Hdays & Hfit)]].
  - congruence.
  - rewrite Hdeg in Hcall. injection Hcall as <- <-.
    split; [|split; [lia|done]].
    unfold has_keys, docstring_result_keys. repeat constructor; vm_compute; eauto.
  - destruct (Hfit d session' Hcall)
      as (r2 & coefs & mv & adj & mape & vif & el & ci & si & cs & ->).
    split; [|split; [intros _; split|lia]].
    + unfold has_keys, docstring_result_keys. repeat constructor; vm_compute; eauto.
    + unfold has_keys, spec_result_keys. repeat constructor; vm_compute; eauto.
    + vm_compute; eauto.
Qed.

End mmm_claims.

(** C6, at an input where it fails: over the empty window from day 1 to day
    0 the call returns the degenerate dictionary, which has the keys of the
    docstring but no [adj_r2], no [mape] and no [model_version], keys that
    the return of the fitted path carries.  The stand-ins for the missing
    kernels are never applied to a number here. *)
Theorem run_mmm_degenerate_lacks_keys :
  let d := mmm_runner.degenerate_result "run" mmm_runner._DEFAULT_CHANNELS in
  mmm_runner.run_mmm "v1" (λ x, x) (λ x, x) (λ _ _ _ _ _ _, Py.Raise Py.ValueError)
    empty_session "run" 1 0 None (Q2Qc 7) 500 None 0
  = Py.Ok (d, add_mmm_results empty_session
                (mmm_runner.degenerate_rows "v1" "run" 0 mmm_runner._DEFAULT_CHANNELS None))
  ∧ has_keys docstring_result_keys d
  ∧ d !! "adj_r2" = None ∧ d !! "mape" = None ∧ d !! "model_version" = None
  ∧ ¬ has_keys spec_result_keys d.
Proof.
  cbn zeta.
  assert (mmm_runner.degenerate_result "run" mmm_runner._DEFAULT_CHANNELS !! "adj_r2" = None)
    as Hadj by (by vm_compute).
  split; [|split; [|split; [done|split; [by vm_compute|split; [by vm_compute|]]]]].
  - destruct (run_mmm_cases "v1" (λ x, x) (λ x, x) (λ _ _ _ _ _ _, Py.Raise Py.ValueError)
                empty_session "run" 1 0 None (Q2Qc 7) 500 None 0)
      as [[Hnil _]|[(_ & _ & Hcall)|(_ & Hdays & _)]]; [done|exact Hcall|lia].
  - unfold has_keys, docstring_result_keys. repeat constructor; vm_compute; eauto.
  - unfold has_keys, spec_result_keys. intros Hall.
    apply Forall_cons in Hall as [_ Hall]. apply Forall_cons in Hall as [_ Hall].
    apply Forall_cons in Hall as [[v Hv] _]. congruence.
Qed.

(** ** The adstock filter over the reals *)

Section adstock_claims.
Import transforms.
#[local] Open Scope R_scope.

Lemma decay_bounds (half_life : R) : 0 < half_life → 0 < decay half_life < 1.
Proof.
  intros Hh. unfold decay, Rpower. split; [apply exp_pos|].
  assert (ln (1 / 2) < 0) as Hln.
  { rewrite <- ln_1. apply ln_increasing; lra. }
  assert (0 < 1 / half_life) as Hinv by (apply Rdiv_lt_0_compat; lra).
  assert (0 < 1 / half_life * - ln (1 / 2)) as Hprod by (apply Rmult_lt_0_compat; lra).
  rewrite Ropp_mult_distr_r_reverse in Hprod.
  assert (exp (1 / half_life * ln (1 / 2)) < exp 0) as Hexp by (apply exp_increasing; lra).
  by rewrite exp_0 in Hexp.
Qed.

Lemma last_cons_eq {A} (x : A) (l : list A) (d : A) : List.last (x :: l) d = List.last l x.
Proof.
  revert x d. induction l as [|y l IH]; intros x d; [done|].
  change (List.last (x :: y :: l) d) with (List.last (y :: l) d).
  by rewrite (IH y d), (IH y x).
Qed.

Lemma last_adstock_constant (d s prev : R) (n : nat) :
  d ≠ 1 →
  List.last (adstock_from Rplus Rmult d prev (replicate n s)) prev
  = d ^ n * prev + s * (1 - d ^ n) / (1 - d).
Proof.
  intros Hd. revert prev. induction n as [|n IH]; intros prev.
  - cbn. field. lra.
  - cbn [replicate adstock_from]. rewrite last_cons_eq, IH. cbn [pow]. field. lra.
Qed.

Lemma adstock_from_lookup (d prev : R) (spend : list R) (t : nat) :
  (t < length spend)%nat →
  nth t (adstock_from Rplus Rmult d prev spend) 0
  = nth t spend 0
    + d * match t with
          | O => prev
          | S t' => nth t' (adstock_from Rplus Rmult d prev spend) 0
          end.
Proof.
  revert prev t. induction spend as [|x spend IH]; intros prev t Ht; [cbn in Ht; lia|].
  destruct t as [|t]; [done|].
  cbn [adstock_from nth]. rewrite IH by (cbn in Ht; lia).
  by destruct t.
Qed.

(** C9. The adstocked series satisfies
    [adstocked[t] = spend[t] + decay × adstocked[t-1]] (nothing carried into
    the first day) with [decay = 0.5^(1/half_life)].  For a constant spend
    [s] and a positive half-life the value on day [n] is
    [s·(1 − decay^n)/(1 − decay)], which converges to
    [s / (1 − 0.5^(1/half_life))] as [n] grows. *)
Theorem adstock_recurrence_and_limit :
  (∀ half_life, decay half_life = Rpower (1 / 2) (1 / half_life))
  ∧ (∀ spend half_life t,
       (t < length spend)%nat →
       let adstocked := adstock_transform spend half_life in
       length adstocked = length spend
       ∧ nth t adstocked 0
         = nth t spend 0
           + decay half_life * match t with
                               | O => 0
                               | S t' => nth t' adstocked 0
                               end)
  ∧ (∀ s half_life n,
       0 < half_life →
       constant_spend_adstock s half_life n
       = s * (1 - decay half_life ^ n) / (1 - decay half_life))
  ∧ (∀ s half_life,
       0 < half_life →
       Un_cv (constant_spend_adstock s half_life) (s / (1 - Rpower (1 / 2) (1 / half_life)))).
Proof.
  assert (∀ s half_life n, 0 < half_life →
            constant_spend_adstock s half_life n
            = s * (1 - decay half_life ^ n) / (1 - decay half_life)) as Hclosed.
  { intros s h n Hh. pose proof (decay_bounds h Hh) as [Hpos Hlt].
    unfold constant_spend_adstock, adstock_transform, adstock_filter.
    rewrite last_adstock_constant by lra. field. lra. }
  split; [done|]. split; [|split; [done|]].
  - intros spend h t Ht adstocked. subst adstocked.
    unfold adstock_transform, adstock_filter.
    split; [apply length_adstock_from|by apply adstock_from_lookup].
  - intros s h Hh. fold (decay h).
    pose proof (decay_bounds h Hh) as [Hpos Hlt].
    intros eps Heps.
    assert (0 < eps * (1 - decay h) / (Rabs s + 1)) as Hy.
    { apply Rdiv_lt_0_compat; [nra|]. pose proof (Rabs_pos s). lra. }
    destruct (pow_lt_1_zero (decay h)
                ltac:(rewrite Rabs_pos_eq; lra) _ Hy) as [N HN].
    exists N. intros n Hn. unfold Rdist. rewrite Hclosed by done.
    replace (s * (1 - decay h ^ n) / (1 - decay h) - s / (1 - decay h))
      with (- s * (decay h ^ n / (1 - decay h))) by (field; lra).
    rewrite Rabs_mult, Rabs_Ropp.
    specialize (HN n Hn).
    assert (0 < decay h ^ n) as Hpow by (apply pow_lt; lra).
    rewrite (Rabs_pos_eq (decay h ^ n)) in HN by lra.
    assert (0 < decay h ^ n / (1 - decay h)) as Hq by (apply Rdiv_lt_0_compat; lra).
    rewrite (Rabs_pos_eq (_ / _)) by lra.
    pose proof (Rabs_pos s) as Hs.
    assert (decay h ^ n / (1 - decay h) < eps / (Rabs s + 1)) as Hbound.
    { apply (Rmult_lt_reg_r (1 - decay h)); [lra|].
      replace (decay h ^ n / (1 - decay h) * (1 - decay h)) with (decay h ^ n)
        by (field; lra).
      replace (eps / (Rabs s + 1) * (1 - decay h))
        with (eps * (1 - decay h) / (Rabs s + 1)) by (field; lra).
      done. }
    assert (Rabs s * (eps / (Rabs s + 1)) < eps) as Hs'.
    { apply (Rmult_lt_reg_r (Rabs s + 1)); [lra|].
      replace (Rabs s * (eps / (Rabs s + 1)) * (Rabs s + 1)) with (Rabs s * eps)
        by (field; lra).
      nra. }
    assert (0 < eps / (Rabs s + 1)) by (apply Rdiv_lt_0_compat; lra).
    nra.
Qed.

End adstock_claims.

(** ** Instances of the theorems at the sample inputs *)

(** C2 at the sample shop: order ord_1 carries the padded identifier of the
    sample click. *)
Lemma click_id_order_attributed_once_witness :
  events_of_order "ord_1"
    (written sample_session
       (click_id_attribution.run_click_id_attribution sample_session "run" 0 10).2)
  = [AttributionEvent.mk "ord_1" "google" (Some "g1") (Some "Brand") 1 (Q2Qc 100) 1 "run"]%list.
Proof.
  destruct (click_id_order_attributed_once (λ _ _, ∅) sample_session "run" 0 10 None None
              10 sample_clicked_order " gclid_1 " sample_click)
    as (click & _ & Hclick & _ & _ & Hone & _).
  - by left.
  - done.
  - by vm_compute.
  - by left.
  - by vm_compute.
  - by vm_compute.
  - rewrite (Hclick eq_refl) in Hone. exact (Hone eq_refl).
Defined.

(** C7 at the sample shop: order wc_1 names a click that does not exist. *)
Lemma unresolved_order_falls_through_witness :
  attribution_runner.order_row sample_unmatched_order
  ∈ attribution_runner._orders_df sample_session 0 10
      (Some (click_id_attribution.run_click_id_attribution sample_session "run" 0 10).1.2).
Proof.
  refine (proj2 (proj2 (proj2 (unresolved_order_falls_through sample_session "run" 0 10
                                 sample_unmatched_order _ _ _)))).
  - right. right. by left.
  - left. exists "unknown". split; [done|].
    intros r [->|[]%elem_of_nil]%elem_of_cons. by vm_compute.
  - intros o' [->|[->|[->|[]%elem_of_nil]%elem_of_cons]%elem_of_cons]%elem_of_cons Hid Hne;
      [by vm_compute in Hid..|done].
Defined.

(** C1 at the sample shop: order ord_2 has no click identifier and is
    allocated by spend share. *)
Lemma attribution_events_sum_per_order_witness :
  ∃ n session',
    attribution_runner.run_attribution (λ _ _, ∅) sample_session "run" 0 10 None None 10
    = Some (n, session')
    ∧ let evs := events_of_order "ord_2" (written sample_session session') in
      Forall (λ ev, AttributionEvent.run_id ev = "run") evs
      ∧ Py.sum (AttributionEvent.weight <$> evs) = 1
      ∧ Py.sum (AttributionEvent.allocated_revenue <$> evs) = Q2Qc 100
      ∧ Qcabs (Py.sum (AttributionEvent.weight <$> evs) - 1) ≤ Q2Qc (1 # 1000000)
      ∧ Qcabs (Py.sum (AttributionEvent.allocated_revenue <$> evs) - Q2Qc 100)
        ≤ Q2Qc (1 # 100).
Proof.
  refine (attribution_events_sum_per_order (λ _ _, ∅) sample_session "run" 0 10 None None 10
            sample_plain_order _ _ _).
  - reflexivity.
  - intros r [->|[->|[]%elem_of_nil]%elem_of_cons]%elem_of_cons; by vm_compute.
  - by intros w.
Defined.

(** The fitted path at a one-day window with a fit that returns every key. *)
Lemma run_mmm_result_keys_witness :
  has_keys spec_result_keys
    (list_to_map [
       ("run_id", mmm_runner.VStr "run"); ("r2", mmm_runner.VFloat (Q2Qc (9 # 10)));
       ("coefficients", mmm_runner.VDict {[ "meta" := mmm_runner.VFloat (Q2Qc 2) ]});
       ("model_version", mmm_runner.VStr "v1");
       ("adj_r2", mmm_runner.VFloat (Q2Qc (8 # 10)));
       ("mape", mmm_runner.VFloat (Q2Qc (1 # 10)));
       ("vif", mmm_runner.VDict ∅); ("elasticities", mmm_runner.VDict ∅);
       ("bootstrap_ci", mmm_runner.VDict ∅);
       ("stability_index", mmm_runner.VFloat 1);
       ("confidence_score", mmm_runner.VFloat 1) ]).
Proof.
  refine (proj1 (proj1 (proj2 (run_mmm_result_keys "v1" (λ x, x) (λ x, x)
                          (λ _ _ _ _ _ _, Py.Ok sample_pipeline_out)
                          sample_session "run" 1 1 (Some ["meta"]%list) (Q2Qc 7) 500 None 0
                          _ (add_mmm_results sample_session
                               [MMMResults.mk "run" 0 "meta" (Q2Qc 2) (Some (Q2Qc (9 # 10)))
                                  (Some "v1")]) _)) _)).
  - reflexivity.
  - done.
Defined.

(** * Further properties of the embedded code *)

(** ** The click-ID pass and the runner *)

Section runner_extras.
Import click_id_attribution attribution_runner.

Context (removal_effect_credits : list (list string) → list string → gmap string Qc).

Lemma order_event_fields run_id clicks o ev :
  order_event run_id clicks o = Some ev →
  AttributionEvent.order_id ev = RawOrder.order_id o
  ∧ AttributionEvent.weight ev = 1
  ∧ AttributionEvent.run_id ev = run_id
  ∧ AttributionEvent.allocated_revenue ev = order_revenue o
  ∧ 0 < order_revenue o
  ∧ AttributionEvent.event_date ev = RawOrder.order_date o
  ∧ ∃ cid info, RawOrder.click_id o = Some cid ∧ clicks !! Py.strip cid = Some info
      ∧ AttributionEvent.channel ev = info.1.1
      ∧ AttributionEvent.campaign_id ev = Some info.1.2
      ∧ AttributionEvent.cost_center ev = info.2.
Proof.
  unfold order_event. destruct (RawOrder.click_id o) as [cid|]; [|done].
  case_decide; [done|].
  destruct (clicks !! Py.strip cid) as [[[ch camp] name]|] eqn:Hlook; [|done].
  case_decide as Hrev; [done|]. intros [= <-]. cbn.
  repeat split; try done; [by apply Qcnot_le_lt|].
  exists cid, (ch, camp, name). by rewrite Hlook.
Qed.

Lemma orders_in_window_date start_date end_date tbl o :
  o ∈ orders_in_window start_date end_date tbl →
  in_window start_date end_date (RawOrder.order_date o).
Proof. unfold orders_in_window. by intros [? _]%list_elem_of_filter. Qed.

(** X1. What the click-ID pass returns describes what it wrote: the count
    is the number of rows added, the set holds exactly their order
    identifiers, and every row added has weight 1, the run identifier of
    the call, a strictly positive revenue, a campaign identifier and an
    event date inside the window. *)
Theorem click_pass_rows session run_id start_date end_date :
  let r := run_click_id_attribution session run_id start_date end_date in
  let rows := written session r.2 in
  r.1.1 = length rows
  ∧ r.1.2 = list_to_set (AttributionEvent.order_id <$> rows)
  ∧ Forall (λ ev, AttributionEvent.weight ev = 1
                  ∧ AttributionEvent.run_id ev = run_id
                  ∧ 0 < AttributionEvent.allocated_revenue ev
                  ∧ is_Some (AttributionEvent.campaign_id ev)
                  ∧ in_window start_date end_date (AttributionEvent.event_date ev)) rows.
Proof.
  cbn zeta. rewrite run_click_id_attribution_eq. cbn [fst snd]. rewrite written_add.
  split; [done|]. split; [done|].
  apply Forall_forall. intros ev (o & Ho & Hev)%list_elem_of_omap.
  apply order_event_fields in Hev
    as (_ & Hw & Hrun & Hrev & Hpos & Hdate & cid & info & _ & _ & _ & Hcamp & _).
  rewrite Hw, Hrun, Hrev, Hcamp, Hdate. repeat split; [done|by eexists|..].
  all: apply elem_of_app in Ho as [Ho|Ho]; by apply orders_in_window_date in Ho as [].
Qed.

(** X2. A run only appends to [attribution_events]: the session after a
    successful [run_attribution] is the session before with some rows added
    at the end of that table, every other table and every earlier row being
    untouched, and the number returned is the number of rows added. *)
Theorem run_attribution_appends session run_id start_date end_date channel_weights
    session_sequences min_sequences n session' :
  run_attribution removal_effect_credits session run_id start_date end_date
    channel_weights session_sequences min_sequences = Some (n, session') →
  ∃ rows, session' = add_attribution_events session rows
        ∧ n = length rows
        ∧ Forall (λ ev, AttributionEvent.run_id ev = run_id) rows.
Proof.
  unfold run_attribution. rewrite run_click_id_attribution_eq.
  destruct (_core_attribution_logic _ _ _ _ _ _ _ _ _) as [[[[n' d] allocated] s2]|] eqn:Hcore;
    [|done].
  cbn. intros [= <- <-].
  apply core_attribution_logic_inv in Hcore as (-> & -> & w & -> & _).
  eexists. split; [apply add_attribution_events_app|].
  split; [by rewrite length_app, length_fmap|].
  apply Forall_app. split.
  - apply Forall_forall. intros ev (o & _ & Hev)%list_elem_of_omap.
    by apply order_event_fields in Hev as (_ & _ & ? & _).
  - apply Forall_forall.
    intros ev (a & -> & (o & Ha & _)%list_elem_of_bind)%list_elem_of_fmap.
    assert (event_of_allocated run_id a ∈ event_of_allocated run_id <$> allocator.allocate_order w o)
      as Hin by by apply list_elem_of_fmap_2.
    by apply allocate_order_id in Hin as [].
Qed.

(** X3. When every order of the window is credited by the click-ID pass,
    the fractional pass finds no order left and writes nothing, whatever
    the spend and the weights: the run returns the number of orders and
    adds exactly the click events. *)
Theorem fully_clicked_run session run_id start_date end_date channel_weights
    session_sequences min_sequences :
  (∀ o, o ∈ window_orders session start_date end_date →
        is_Some (order_event run_id (clicks_by_id session start_date end_date) o)) →
  run_attribution removal_effect_credits session run_id start_date end_date
    channel_weights session_sequences min_sequences
  = Some (length (window_orders session start_date end_date),
          add_attribution_events session (click_events session run_id start_date end_date))
  ∧ AttributionEvent.order_id <$> click_events session run_id start_date end_date
    = RawOrder.order_id <$> window_orders session start_date end_date.
Proof.
  intros Hall.
  assert (AttributionEvent.order_id <$> click_events session run_id start_date end_date
          = RawOrder.order_id <$> window_orders session start_date end_date) as Hids.
  { unfold click_events. induction (window_orders session start_date end_date) as [|o l IH];
      [done|].
    rewrite omap_cons_eq. destruct (Hall o ltac:(left)) as [ev Hev]. rewrite Hev.
    rewrite !fmap_cons, (order_event_order_id _ _ _ _ Hev). f_equal.
    apply IH. intros o' Ho'. apply Hall. by right. }
  split; [|done].
  unfold run_attribution. rewrite run_click_id_attribution_eq.
  unfold _core_attribution_logic.
  assert (_orders_df (add_attribution_events session
                        (click_events session run_id start_date end_date))
            start_date end_date
            (Some (list_to_set (AttributionEvent.order_id
                                  <$> click_events session run_id start_date end_date)))
          = []) as ->.
  { change (_orders_df (add_attribution_events session ?evs)) with (_orders_df session).
    rewrite orders_df_eq, Hids.
    rewrite filter_none; [done|]. intros o Ho Hnot. apply Hnot.
    apply elem_of_list_to_set. by apply list_elem_of_fmap_2. }
  cbn. f_equal. f_equal.
  rewrite Nat.add_0_r. by rewrite <- (length_fmap AttributionEvent.order_id), Hids, length_fmap.
Qed.

Lemma unique_NoDup (l : list string) : NoDup (unique l).
Proof.
  induction l as [|x l IH]; [constructor|].
  cbn. apply NoDup_cons. split.
  - by intros [? _]%list_elem_of_filter.
  - by apply NoDup_filter.
Qed.

Lemma unique_elem_of (l : list string) x : x ∈ unique l ↔ x ∈ l.
Proof.
  induction l as [|y l IH]; [done|]. cbn.
  rewrite !elem_of_cons, list_elem_of_filter, IH.
  destruct (decide (x = y)) as [->|Hne]; [by split; left|].
  split; [intros [?|[_ ?]]; [done|by right]|intros [?|?]; [done|by right]].
Qed.

(** X4. The channel list of the fractional pass has no duplicate and is never
    empty, and it only holds meta, google, bing or pinterest: with spend rows
    in the window it holds exactly the channels that have one, and without
    any it is the four default channels. *)
Theorem channels_of_window_spend session start_date end_date :
  let daily_spend := _daily_spend_by_channel session start_date end_date in
  let channels := channels_of daily_spend in
  NoDup channels
  ∧ channels ≠ []
  ∧ (∀ ch, ch ∈ channels → ch ∈ ["meta"; "google"; "bing"; "pinterest"])
  ∧ (daily_spend ≠ [] → ∀ ch, ch ∈ channels ↔ ∃ r, r ∈ daily_spend ∧ SpendRow.channel r = ch)
  ∧ (daily_spend = [] → channels = ["meta"; "google"; "bing"; "pinterest"]%list).
Proof.
  cbn zeta.
  assert (∀ r, r ∈ _daily_spend_by_channel session start_date end_date →
               SpendRow.channel r ∈ ["meta"; "google"; "bing"; "pinterest"]) as Hfour.
  { unfold _daily_spend_by_channel. intros r.
    rewrite !elem_of_app, !list_elem_of_fmap.
    intros [(rec & -> & _)|[(rec & -> & _)|[(rec & -> & _)|(rec & -> & _)]]]; cbn;
      repeat constructor. }
  destruct (_daily_spend_by_channel session start_date end_date) as [|r0 rows] eqn:Hrows.
  - cbn. split; [by apply (bool_decide_unpack _)|]. split; [done|]. split; [done|]. done.
  - unfold channels_of.
    split; [apply unique_NoDup|]. split; [done|]. split; [|split; [|done]].
    + intros ch (r & -> & Hr)%unique_elem_of%list_elem_of_fmap. by apply Hfour.
    + intros _ ch. rewrite unique_elem_of, list_elem_of_fmap.
      split; intros (r & Hr1 & Hr2); by exists r.
Qed.

End runner_extras.

(** ** The comparison report *)

Lemma get0_insert_eq (m : gmap string Qc) k x : Py.get0 (<[k := x]> m) k = x.
Proof. unfold Py.get0. by rewrite lookup_insert_eq. Qed.

Lemma get0_insert_ne (m : gmap string Qc) k k' x :
  k ≠ k' → Py.get0 (<[k := x]> m) k' = Py.get0 m k'.
Proof. intros. unfold Py.get0. by rewrite lookup_insert_ne. Qed.

Lemma get0_not_dom (m : gmap string Qc) k : k ∉ dom m → Py.get0 m k = 0.
Proof. intros Hk%not_elem_of_dom. unfold Py.get0. by rewrite Hk. Qed.

Lemma sum_values_delete (m : gmap string Qc) k y :
  m !! k = Some y → Py.sum_values m = y + Py.sum_values (delete k m).
Proof.
  intros Hk. rewrite <- (sum_values_insert (delete k m) k y) by apply lookup_delete_eq.
  by rewrite insert_delete_id.
Qed.

Lemma sum_values_insert_get0 (m : gmap string Qc) k x :
  Py.sum_values (<[k := Py.get0 m k + x]> m) = Py.sum_values m + x.
Proof.
  unfold Py.get0. destruct (m !! k) as [y|] eqn:Hk; cbn.
  - rewrite <- insert_delete_eq, sum_values_insert by apply lookup_delete_eq.
    rewrite (sum_values_delete m k y Hk). ring.
  - rewrite sum_values_insert by done. ring.
Qed.

Section accumulate.

Context {A : Type} (k : A → string) (v : A → Qc).

(** The loop [for r in rows: d[k(r)] = d.get(k(r), 0.0) + v(r)]. *)
Lemma accumulate_get0 (l : list A) (m : gmap string Qc) key :
  Py.get0 (foldl (λ m r, <[k r := Py.get0 m (k r) + v r]> m) m l) key
  = Py.get0 m key + Py.sum (v <$> filter (λ r, k r = key) l).
Proof.
  revert m. induction l as [|r l IH]; intros m.
  - cbn. ring.
  - cbn [foldl]. rewrite IH. destruct (decide (k r = key)) as [<-|Hne].
    + rewrite filter_cons_True by done. rewrite get0_insert_eq, fmap_cons, sum_cons. ring.
    + rewrite filter_cons_False by done. by rewrite get0_insert_ne.
Qed.

Lemma accumulate_sum_values (l : list A) (m : gmap string Qc) :
  Py.sum_values (foldl (λ m r, <[k r := Py.get0 m (k r) + v r]> m) m l)
  = Py.sum_values m + Py.sum (v <$> l).
Proof.
  revert m. induction l as [|r l IH]; intros m.
  - cbn. ring.
  - cbn [foldl]. rewrite IH, sum_values_insert_get0, fmap_cons, sum_cons. ring.
Qed.

Lemma accumulate_dom (l : list A) (m : gmap string Qc) :
  dom (foldl (λ m r, <[k r := Py.get0 m (k r) + v r]> m) m l)
  = dom m ∪ list_to_set (k <$> l).
Proof.
  revert m. induction l as [|r l IH]; intros m.
  - cbn. by rewrite (right_id_L ∅ (∪)).
  - cbn [foldl]. rewrite IH, dom_insert_L, fmap_cons. cbn [list_to_set].
    rewrite (assoc_L (∪)). f_equal. apply (comm_L (∪)).
Qed.

End accumulate.

Section report_extras.
Import attribution_mmm_report.

Context (_response_single_channel : Qc → Qc → Qc).

Lemma attribution_revenue_is_Some session start_date end_date run_id ch :
  is_Some (_attribution_revenue_by_channel session start_date end_date run_id !! ch)
  ↔ ∃ r, r ∈ selected_events session start_date end_date run_id
         ∧ AttributionEvent.channel r = ch.
Proof.
  unfold _attribution_revenue_by_channel.
  fold (selected_events session start_date end_date run_id).
  rewrite <- elem_of_dom, accumulate_dom, dom_empty_L, (left_id_L ∅ (∪)).
  rewrite elem_of_list_to_set, list_elem_of_fmap. split.
  - intros (r & -> & Hr). by exists r.
  - intros (r & Hr & <-). by exists r.
Qed.

Lemma attribution_revenue_get0 session start_date end_date run_id ch :
  Py.get0 (_attribution_revenue_by_channel session start_date end_date run_id) ch
  = Py.sum (AttributionEvent.allocated_revenue
              <$> filter (λ r, AttributionEvent.channel r = ch)
                    (selected_events session start_date end_date run_id)).
Proof.
  unfold _attribution_revenue_by_channel.
  fold (selected_events session start_date end_date run_id).
  rewrite accumulate_get0. unfold Py.get0. rewrite lookup_empty. cbn. ring.
Qed.

Lemma attribution_revenue_sum_values session start_date end_date run_id :
  Py.sum_values (_attribution_revenue_by_channel session start_date end_date run_id)
  = Py.sum (AttributionEvent.allocated_revenue
              <$> selected_events session start_date end_date run_id).
Proof.
  unfold _attribution_revenue_by_channel.
  fold (selected_events session start_date end_date run_id).
  rewrite accumulate_sum_values, sum_values_empty. ring.
Qed.

(** X5. The per-channel totals of attributed revenue: a channel is a key
    exactly when a selected row names it, its value is the sum of the
    allocated revenue of its rows, and the values sum to the allocated
    revenue of all selected rows. *)
Theorem attribution_revenue_by_channel_totals session start_date end_date run_id :
  let rows := selected_events session start_date end_date run_id in
  let by_ch := _attribution_revenue_by_channel session start_date end_date run_id in
  (∀ ch, is_Some (by_ch !! ch) ↔ ∃ r, r ∈ rows ∧ AttributionEvent.channel r = ch)
  ∧ (∀ ch, Py.get0 by_ch ch
           = Py.sum (AttributionEvent.allocated_revenue
                       <$> filter (λ r, AttributionEvent.channel r = ch) rows))
  ∧ Py.sum_values by_ch = Py.sum (AttributionEvent.allocated_revenue <$> rows).
Proof.
  cbn zeta. split; [|split].
  - intros ch. apply attribution_revenue_is_Some.
  - intros ch. apply attribution_revenue_get0.
  - apply attribution_revenue_sum_values.
Qed.

Lemma add_spend_lookup ch (m : gmap string Qc) (rows : list RawAds.t) ch' :
  add_spend ch m rows !! ch'
  = if decide (ch' = ch)
    then match rows with
         | [] => m !! ch
         | _ => Some (Py.get0 m ch + Py.sum (RawAds.spend <$> rows))
         end
    else m !! ch'.
Proof.
  unfold add_spend. revert m. induction rows as [|r rows IH]; intros m.
  - cbn. by case_decide; subst.
  - cbn [foldl]. rewrite IH. case_decide as Hch.
    + subst ch'. rewrite fmap_cons, sum_cons. destruct rows as [|r' rows].
      * rewrite lookup_insert_eq. cbn. f_equal. ring.
      * rewrite get0_insert_eq. f_equal. ring.
    + by rewrite lookup_insert_ne.
Qed.

(** X6. The per-channel totals of spend: only the four ad tables
    contribute, a channel is a key exactly when its table has a row in the
    window, and its value is then the sum of the spend of those rows. *)
Theorem spend_by_channel_totals session start_date end_date ch :
  _spend_by_channel session start_date end_date !! ch
  = match mmm_runner.ch_to_model session ch with
    | None => None
    | Some tbl =>
      match ads_in_window start_date end_date tbl with
      | [] => None
      | rows => Some (Py.sum (RawAds.spend <$> rows))
      end
    end.
Proof.
  unfold _spend_by_channel, mmm_runner.ch_to_model.
  rewrite !add_spend_lookup.
  repeat (case_decide; [subst ch|]);
    repeat (case_decide; [done|]); rewrite ?lookup_empty; try done.
  all: unfold Py.get0; rewrite ?add_spend_lookup;
    repeat (case_decide; [done|]); rewrite ?lookup_empty; cbn [default];
    match goal with |- context [ads_in_window ?a ?b ?t] =>
      destruct (ads_in_window a b t) as [|r rows]; [done|] end;
    f_equal; ring.
Qed.

(** X7. When the values of a dictionary do not sum to zero, the shares are
    defined, keep the keys, are each value divided by the total, and sum
    to one. *)
Theorem shares_sum_to_one (d : gmap string Qc) :
  Py.sum_values d ≠ 0 →
  ∃ s, shares d = Py.Ok s
       ∧ dom s = dom d
       ∧ (∀ ch, Py.get0 s ch = Py.get0 d ch / Py.sum_values d)
       ∧ Py.sum_values s = 1.
Proof.
  intros Htotal. unfold shares, Py.or_default, Py.div_values. cbn zeta.
  rewrite (decide_False (P := Py.sum_values d = 0)) by done.
  destruct (decide (d = ∅)) as [->|Hne]; [by rewrite sum_values_empty in Htotal|].
  rewrite decide_False by done.
  eexists; split; [done|]. split; [by rewrite dom_fmap_L|]. split.
  - intros ch. unfold Py.get0. rewrite lookup_fmap.
    destruct (d !! ch); cbn [fmap option_fmap option_map default]; [done|].
    unfold Qcdiv. ring.
  - rewrite sum_values_fmap_div. by field.
Qed.

Lemma sum_nonneg (l : list Qc) : Forall (λ x, 0 ≤ x) l → 0 ≤ Py.sum l.
Proof.
  induction 1 as [|x l Hx _ IH]; [done|].
  rewrite sum_cons. by apply Qcplus_nonneg_nonneg.
Qed.

Lemma sum_nonneg_zero (l : list Qc) :
  Forall (λ x, 0 ≤ x) l → Py.sum l = 0 → Forall (λ x, x = 0) l.
Proof.
  induction 1 as [|x l Hx Hl IH]; [done|].
  rewrite sum_cons. intros Hsum.
  pose proof (sum_nonneg l Hl) as Hs.
  assert (x = 0) as ->.
  { apply Qcle_antisym; [|done].
    apply (Qcplus_le_mono_r _ _ (Py.sum l)). rewrite Hsum.
    rewrite <- (Qcplus_0_l 0) at 1. by apply Qcplus_le_compat. }
  constructor; [done|]. apply IH. by rewrite Qcplus_0_l in Hsum.
Qed.

Lemma sum_le (f g : string → Qc) (l : list string) :
  (∀ x, f x ≤ g x) → Py.sum (f <$> l) ≤ Py.sum (g <$> l).
Proof.
  intros Hfg. induction l as [|x l IH]; [done|].
  rewrite !fmap_cons, !sum_cons. by apply Qcplus_le_compat.
Qed.

Lemma sum_fmap_add (f g : string → Qc) (l : list string) :
  Py.sum ((λ x, f x + g x) <$> l) = Py.sum (f <$> l) + Py.sum (g <$> l).
Proof.
  induction l as [|x l IH]; [cbn; ring|].
  rewrite !fmap_cons, !sum_cons, IH. ring.
Qed.

Lemma sum_fmap_sub (f g : string → Qc) (l : list string) :
  Py.sum ((λ x, f x - g x) <$> l) = Py.sum (f <$> l) - Py.sum (g <$> l).
Proof.
  induction l as [|x l IH]; [cbn; ring|].
  rewrite !fmap_cons, !sum_cons, IH. ring.
Qed.

Lemma abs_sum_le (f : string → Qc) (l : list string) :
  Qcabs (Py.sum (f <$> l)) ≤ Py.sum ((λ x, Qcabs (f x)) <$> l).
Proof.
  induction l as [|x l IH]; [done|].
  rewrite !fmap_cons, !sum_cons.
  eapply Qcle_trans; [apply Qcabs_triangle|]. by apply Qcplus_le_compat.
Qed.

(** Summing [d.get(ch, 0.0)] over a set of keys that holds every key of
    [d] is summing the values of [d]. *)
Lemma sum_get0_superset (d : gmap string Qc) (X : gset string) :
  dom d ⊆ X → Py.sum (Py.get0 d <$> elements X) = Py.sum_values d.
Proof.
  clear _response_single_channel.
  revert X. induction d as [|k x d Hk IH] using map_ind; intros X HX.
  - rewrite sum_values_empty.
    induction (elements X) as [|y l IHl]; [done|].
    rewrite fmap_cons, sum_cons, IHl. unfold Py.get0. rewrite lookup_empty. cbn. ring.
  - rewrite sum_values_insert by done.
    rewrite dom_insert_L in HX.
    assert (k ∈ X) as HkX by (apply HX, elem_of_union_l; by apply elem_of_singleton).
    assert (X = {[k]} ∪ X ∖ {[k]}) as HXeq.
    { apply set_eq. intros y. rewrite elem_of_union, elem_of_difference, elem_of_singleton.
      destruct (decide (y = k)) as [->|]; tauto. }
    rewrite HXeq at 1.
    rewrite (sum_Permutation _ (Py.get0 (<[k:=x]> d) <$> k :: elements (X ∖ {[k]}))).
    2:{ apply fmap_Permutation, elements_union_singleton.
        rewrite elem_of_difference, elem_of_singleton. tauto. }
    rewrite fmap_cons, sum_cons, get0_insert_eq. f_equal.
    rewrite <- (IH (X ∖ {[k]})).
    2:{ intros y Hy. apply elem_of_difference. split; [by apply HX, elem_of_union_r|].
        rewrite elem_of_singleton. intros ->. by apply not_elem_of_dom in Hk. }
    f_equal. apply Forall_fmap_ext_1, Forall_forall. intros y Hy.
    apply get0_insert_ne. intros ->. apply elem_of_elements in Hy.
    rewrite elem_of_difference, elem_of_singleton in Hy. tauto.
Qed.

(** X8. The disagreement score is a distance between share dictionaries
    read with [get(ch, 0.0)]: it is never negative, does not depend on
    the order of its arguments, and is zero exactly when the two
    dictionaries give every channel the same share. *)
Theorem disagreement_is_a_distance (a m : gmap string Qc) :
  0 ≤ disagreement a m
  ∧ disagreement a m = disagreement m a
  ∧ (disagreement a m = 0 ↔ ∀ ch, Py.get0 a ch = Py.get0 m ch).
Proof.
  rewrite !disagreement_l1. unfold l1_distance.
  assert (Forall (λ x, 0 ≤ x)
            ((λ ch, Qcabs (Py.get0 a ch - Py.get0 m ch)) <$> elements (dom a ∪ dom m)))
    as Hnonneg.
  { apply Forall_fmap, Forall_forall. intros ch _. apply Qcabs_nonneg. }
  split; [by apply sum_nonneg|]. split.
  - rewrite (comm_L (∪) (dom m)). f_equal.
    apply Forall_fmap_ext_1, Forall_forall. intros ch _. apply Qcabs_Qcminus.
  - split.
    + intros Hzero ch.
      pose proof (sum_nonneg_zero _ Hnonneg Hzero) as Hall.
      destruct (decide (ch ∈ dom a ∪ dom m)) as [Hin|Hout].
      * rewrite Forall_fmap, Forall_forall in Hall.
        specialize (Hall ch). cbn in Hall.
        assert (Py.get0 a ch - Py.get0 m ch = 0) as Hdiff.
        { apply Qcabs_null, Hall. by apply elem_of_elements. }
        replace (Py.get0 a ch) with (Py.get0 a ch - Py.get0 m ch + Py.get0 m ch) by ring.
        rewrite Hdiff. ring.
      * rewrite not_elem_of_union in Hout. destruct Hout.
        by rewrite !get0_not_dom.
    + intros Heq. clear Hnonneg.
      rewrite (Forall_fmap_ext_1 _ (λ _, 0)).
      * induction (elements (dom a ∪ dom m)) as [|y l IHl]; [done|].
        rewrite fmap_cons, sum_cons, IHl. ring.
      * apply Forall_forall. intros ch _. rewrite Heq.
        replace (Py.get0 m ch - Py.get0 m ch) with 0 by ring.
        apply Qcabs_pos, Qcle_refl.
Qed.

Lemma get0_nonneg (d : gmap string Qc) ch :
  map_Forall (λ _ v, 0 ≤ v) d → 0 ≤ Py.get0 d ch.
Proof.
  intros Hd. unfold Py.get0. destruct (d !! ch) as [v|] eqn:Hv; cbn; [|done].
  by apply (Hd ch).
Qed.

Lemma disagreement_bounds (a m : gmap string Qc) :
  Qcabs (Py.sum_values a - Py.sum_values m) ≤ disagreement a m
  ∧ (map_Forall (λ _ v, 0 ≤ v) a → map_Forall (λ _ v, 0 ≤ v) m →
     disagreement a m ≤ Py.sum_values a + Py.sum_values m).
Proof.
  clear _response_single_channel.
  rewrite disagreement_l1. unfold l1_distance.
  rewrite <- (sum_get0_superset a (dom a ∪ dom m)) by apply union_subseteq_l.
  rewrite <- (sum_get0_superset m (dom a ∪ dom m)) by apply union_subseteq_r.
  split.
  - rewrite <- sum_fmap_sub. apply abs_sum_le.
  - intros Ha Hm. rewrite <- sum_fmap_add. apply sum_le. intros ch.
    pose proof (get0_nonneg a ch Ha). pose proof (get0_nonneg m ch Hm).
    apply Qcabs_Qcle_condition. split.
    + apply Qcle_minus_iff.
      replace (Py.get0 a ch - Py.get0 m ch + - - (Py.get0 a ch + Py.get0 m ch))
        with (Py.get0 a ch + Py.get0 a ch) by ring.
      by apply Qcplus_nonneg_nonneg.
    + apply Qcle_minus_iff.
      replace (Py.get0 a ch + Py.get0 m ch + - (Py.get0 a ch - Py.get0 m ch))
        with (Py.get0 m ch + Py.get0 m ch) by ring.
      by apply Qcplus_nonneg_nonneg.
Qed.

(** X9. Whatever two dictionaries hold, their disagreement score is at
    least the absolute difference of their totals; and two dictionaries of
    shares that are not negative and sum to one each disagree by at most
    2. *)
Theorem disagreement_at_most_two (a m : gmap string Qc) :
  Qcabs (Py.sum_values a - Py.sum_values m) ≤ disagreement a m
  ∧ (map_Forall (λ _ v, 0 ≤ v) a → map_Forall (λ _ v, 0 ≤ v) m →
     Py.sum_values a = 1 → Py.sum_values m = 1 →
     disagreement a m ≤ Q2Qc 2).
Proof.
  clear _response_single_channel.
  destruct (disagreement_bounds a m) as [Hlow Hup].
  split; [done|]. intros Ha Hm Hsa Hsm.
  specialize (Hup Ha Hm). by rewrite Hsa, Hsm in Hup.
Qed.

Lemma shares_eq (d : gmap string Qc) :
  shares d = Py.Ok ((λ v, v / Py.or_default (Py.sum_values d) 1) <$> d).
Proof.
  unfold shares, Py.div_values. cbn zeta.
  destruct (decide (d = ∅)) as [->|Hne]; [by rewrite fmap_empty|].
  rewrite decide_False; [done|].
  unfold Py.or_default. by case_decide.
Qed.

Lemma mmm_contribution_share_eq session spend_by_channel mmm_run_id half_life :
  let contribution : gmap string Qc :=
    map_imap (λ ch coef,
                Some (coef * _response_single_channel (Py.get0 spend_by_channel ch) half_life))
             (first_coefficient_by_channel (select_mmm_results session mmm_run_id)) in
  _mmm_contribution_share _response_single_channel session spend_by_channel mmm_run_id
    half_life
  = Py.Ok (contribution,
           (λ v, v / Py.or_default (Py.sum_values contribution) 1) <$> contribution).
Proof.
  intros contribution. subst contribution. unfold _mmm_contribution_share. cbn zeta.
  destruct (select_mmm_results session mmm_run_id) as [|r rows] eqn:Hrows.
  - unfold first_coefficient_by_channel. cbn [foldl].
    by rewrite map_imap_empty, fmap_empty.
  - rewrite shares_eq. reflexivity.
Qed.

Lemma build_report_eq session start_date end_date attribution_run_id mmm_run_id threshold :
  ∃ contribution,
    _mmm_contribution_share _response_single_channel session
      (_spend_by_channel session start_date end_date) mmm_run_id DEFAULT_ADSTOCK_HALF_LIFE
    = Py.Ok (contribution,
             (λ v, v / Py.or_default (Py.sum_values contribution) 1) <$> contribution)
    ∧ dom contribution
      = dom (first_coefficient_by_channel (select_mmm_results session mmm_run_id))
    ∧ build_attribution_mmm_report _response_single_channel session start_date end_date
        attribution_run_id mmm_run_id threshold
      = let attr_rev :=
          _attribution_revenue_by_channel session start_date end_date attribution_run_id in
        Py.Ok (report_of_shares
                 ((λ v, v / Py.or_default (Py.sum_values attr_rev) 1) <$> attr_rev)
                 ((λ v, v / Py.or_default (Py.sum_values contribution) 1) <$> contribution)
                 threshold).
Proof.
  eexists. split; [apply mmm_contribution_share_eq|]. split.
  - apply set_eq. intros ch. rewrite !elem_of_dom, map_lookup_imap.
    by destruct (_ !! ch).
  - unfold build_attribution_mmm_report. cbn zeta.
    rewrite shares_eq, mmm_contribution_share_eq. reflexivity.
Qed.

Lemma elem_of_select_mmm_results session mmm_run_id r :
  r ∈ select_mmm_results session mmm_run_id
  ↔ r ∈ mmm_results session ∧ run_matches mmm_run_id (MMMResults.run_id r).
Proof.
  unfold select_mmm_results. rewrite list_elem_of_filter, merge_sort_Permutation. tauto.
Qed.

Lemma first_coefficient_is_Some (rows : list MMMResults.t) ch :
  is_Some (first_coefficient_by_channel rows !! ch)
  ↔ ∃ r, r ∈ rows ∧ MMMResults.channel r = ch.
Proof.
  rewrite first_coefficient_lookup, fmap_is_Some. split.
  - intros [r Hr]. apply head_Some_elem_of, list_elem_of_filter in Hr. exists r. tauto.
  - intros (r & Hr & Hch).
    destruct (filter (λ r, MMMResults.channel r = ch) rows) as [|r' l] eqn:Hf; [|by eexists].
    assert (r ∈ filter (λ r, MMMResults.channel r = ch) rows) as Hin
      by by apply list_elem_of_filter.
    rewrite Hf in Hin. by apply elem_of_nil in Hin.
Qed.

(** X10. The channels of the report are in ascending order without
    duplicates, and a channel is listed exactly when an attribution row
    selected by the window and the run names it, or a row of
    [mmm_results] selected by the run does. *)
Theorem report_channels session start_date end_date attribution_run_id mmm_run_id threshold :
  ∃ rep,
    build_attribution_mmm_report _response_single_channel session start_date end_date
      attribution_run_id mmm_run_id threshold = Py.Ok rep
    ∧ Sorted String.le (channels rep)
    ∧ NoDup (channels rep)
    ∧ (∀ ch, ch ∈ channels rep ↔ is_Some (attribution_share rep !! ch)
                                  ∨ is_Some (mmm_share rep !! ch))
    ∧ (∀ ch, ch ∈ channels rep
             ↔ (∃ r, r ∈ selected_events session start_date end_date attribution_run_id
                     ∧ AttributionEvent.channel r = ch)
               ∨ ∃ r, candidate_row session mmm_run_id ch r).
Proof.
  destruct (build_report_eq session start_date end_date attribution_run_id mmm_run_id
              threshold) as (contribution & _ & Hdom & ->).
  eexists. split; [done|]. cbn [channels attribution_share mmm_share report_of_shares].
  unfold channel_union.
  split; [apply Sorted_merge_sort, _|].
  split; [rewrite merge_sort_Permutation; apply NoDup_elements|].
  split.
  - intros ch. by rewrite merge_sort_Permutation, elem_of_elements, elem_of_union, !elem_of_dom.
  - intros ch. rewrite merge_sort_Permutation, elem_of_elements, elem_of_union.
    rewrite !dom_fmap_L, Hdom, !elem_of_dom.
    rewrite attribution_revenue_is_Some.
    rewrite first_coefficient_is_Some. unfold candidate_row.
    setoid_rewrite elem_of_select_mmm_results.
    split; (intros [H|(r & H1 & H2)]; [by left|right; exists r; tauto]).
Qed.

Lemma StronglySorted_filter {A} (R : relation A) (P : A → Prop) `{∀ x, Decision (P x)}
    (l : list A) :
  StronglySorted R l → StronglySorted R (filter P l).
Proof.
  induction 1 as [|x l Hl IH Hx]; [constructor|].
  destruct (decide (P x)).
  - rewrite filter_cons_True by done. constructor; [done|].
    apply Forall_forall. intros y [_ Hy]%list_elem_of_filter.
    by apply (proj1 (Forall_forall _ _) Hx).
  - by rewrite filter_cons_False.
Qed.

Lemma first_coefficient_from_row (rows : list MMMResults.t) ch c :
  first_coefficient_by_channel rows !! ch = Some c →
  ∃ r, r ∈ rows ∧ MMMResults.channel r = ch ∧ MMMResults.coefficient r = c.
Proof.
  rewrite first_coefficient_lookup, fmap_Some. intros (r & Hr & ->).
  apply head_Some_elem_of, list_elem_of_filter in Hr as [? ?]. by exists r.
Qed.

(** X11. Whatever run is asked for, the coefficient used for a channel is
    that of a newest row among the rows of [mmm_results] the call looks
    at for this channel (all rows when no run is given, the rows of the
    run otherwise); a channel without such a row gets no coefficient. *)
Theorem coefficient_of_selected_rows session mmm_run_id ch :
  let by_channel := first_coefficient_by_channel (select_mmm_results session mmm_run_id) in
  ((∀ r, ¬ candidate_row session mmm_run_id ch r) ∧ by_channel !! ch = None)
  ∨ ∃ r, candidate_row session mmm_run_id ch r
       ∧ (∀ r', candidate_row session mmm_run_id ch r' →
                (MMMResults.created_at r' ≤ MMMResults.created_at r)%Z)
       ∧ by_channel !! ch = Some (MMMResults.coefficient r).
Proof.
  intros by_channel. subst by_channel. rewrite first_coefficient_lookup.
  destruct (head (filter (λ r, MMMResults.channel r = ch)
                    (select_mmm_results session mmm_run_id))) as [r|] eqn:Hhead.
  - right. exists r.
    apply head_filter_newest in Hhead as (Hin & Hch & Hnewest).
    2:{ unfold select_mmm_results. apply StronglySorted_filter.
        apply StronglySorted_merge_sort; [apply newer_first_trans|apply newer_first_total]. }
    apply elem_of_select_mmm_results in Hin as [Hin Hrun].
    split; [done|]. split; [|done].
    intros r' (Hin' & Hrun' & Hch'). apply Hnewest; [|done].
    by apply elem_of_select_mmm_results.
  - left. split; [|done].
    intros r (Hin & Hrun & Hch).
    apply head_None in Hhead.
    assert (r ∈ filter (λ r, MMMResults.channel r = ch)
                  (select_mmm_results session mmm_run_id)) as Hr.
    { apply list_elem_of_filter. split; [done|]. by apply elem_of_select_mmm_results. }
    rewrite Hhead in Hr. by apply elem_of_nil in Hr.
Qed.

Lemma round_one : Py.round 1 4 = 1.
Proof. by apply Qc_is_canon. Qed.

(** X12. With no row of [mmm_results] for the call to look at, and
    attributed revenue that is never negative and not zero in total, the
    report has no MMM share at all, attribution shares that sum to one, a
    disagreement score of exactly 1, and is flagged exactly when the
    threshold is below 1. *)
Theorem report_without_mmm_rows session start_date end_date attribution_run_id mmm_run_id
    threshold :
  (∀ r, r ∈ mmm_results session → ¬ run_matches mmm_run_id (MMMResults.run_id r)) →
  Forall (λ r, 0 ≤ AttributionEvent.allocated_revenue r)
         (selected_events session start_date end_date attribution_run_id) →
  Py.sum (AttributionEvent.allocated_revenue
            <$> selected_events session start_date end_date attribution_run_id) ≠ 0 →
  ∃ rep,
    build_attribution_mmm_report _response_single_channel session start_date end_date
      attribution_run_id mmm_run_id threshold = Py.Ok rep
    ∧ mmm_share rep = ∅
    ∧ Py.sum_values (attribution_share rep) = 1
    ∧ disagreement_score rep = 1
    ∧ (instability_flagged rep = true ↔ threshold < 1).
Proof.
  intros Hnone Hnonneg Htotal.
  destruct (build_report_eq session start_date end_date attribution_run_id mmm_run_id
              threshold) as (contribution & _ & Hdom & ->).
  pose proof (attribution_revenue_get0 session start_date end_date attribution_run_id)
    as Hget.
  rewrite <- attribution_revenue_sum_values in Htotal.
  set (attr_rev := _attribution_revenue_by_channel session start_date end_date
                     attribution_run_id) in *.
  assert (contribution = ∅) as ->.
  { apply dom_empty_iff_L. rewrite Hdom. apply dom_empty_iff_L.
    replace (select_mmm_results session mmm_run_id) with (@nil MMMResults.t); [done|].
    symmetry. unfold select_mmm_results. apply filter_none.
    intros r Hr. apply Hnone. by rewrite merge_sort_Permutation in Hr. }
  rewrite fmap_empty.
  assert (map_Forall (λ _ v, 0 ≤ v) attr_rev) as Hpos.
  { intros ch v Hv. assert (v = Py.get0 attr_rev ch) as -> by (unfold Py.get0; by rewrite Hv).
    rewrite Hget. apply sum_nonneg, Forall_fmap.
    apply Forall_forall. intros r [_ Hr]%list_elem_of_filter.
    by apply (proj1 (Forall_forall _ _) Hnonneg). }
  assert (0 < Py.sum_values attr_rev) as Hlt.
  { pose proof (sum_values_nonneg _ Hpos) as Hge.
    apply Qcle_lt_or_eq in Hge as [?|Heq]; [done|].
    by rewrite <- Heq in Htotal. }
  unfold Py.or_default. rewrite (decide_False (P := Py.sum_values attr_rev = 0)) by done.
  set (share := (λ v, v / Py.sum_values attr_rev) <$> attr_rev).
  assert (Py.sum_values share = 1) as Hone.
  { unfold share. rewrite sum_values_fmap_div. by field. }
  assert (map_Forall (λ _ v, 0 ≤ v) share) as Hshare.
  { intros ch v. unfold share. rewrite lookup_fmap, fmap_Some.
    intros (x & Hx & ->).
    apply (Qcmult_lt_0_le_reg_r _ _ (Py.sum_values attr_rev) Hlt).
    replace (0 * Py.sum_values attr_rev) with 0 by ring.
    replace (x / Py.sum_values attr_rev * Py.sum_values attr_rev) with x by by field.
    by apply (Hpos ch). }
  assert (disagreement share ∅ = 1) as Hdis.
  { destruct (disagreement_bounds share ∅) as [Hlow Hup].
    rewrite Hone, sum_values_empty in Hlow, Hup.
    apply Qcle_antisym.
    - replace (Q2Qc 1) with (1 + 0) by ring. apply Hup; [done|]. apply map_Forall_empty.
    - by replace (1 - 0) with (Q2Qc 1) in Hlow by ring. }
  eexists. split; [done|].
  cbn [mmm_share attribution_share disagreement_score instability_flagged report_of_shares].
  split; [done|]. split; [done|]. rewrite Hdis. split; [apply round_one|].
  apply bool_decide_eq_true.
Qed.

End report_extras.

(** ** The MMM runner *)

Section mmm_extras.
Import mmm_runner.

Context (MMM_VERSION : string) (half_pow log1p : Qc → Qc).
Context (fit_pipeline :
  list (list Qc) → list Qc → list string → Z → string → string
  → Py.result (gmap string value)).

Lemma date_to_idx_lookup (dates : list Z) (d : Z) (i : nat) :
  NoDup dates →
  (list_to_map (zip dates (seq 0 (length dates))) : gmap Z nat) !! d = Some i
  ↔ dates !! i = Some d.
Proof.
  intros Hnodup. rewrite <- elem_of_list_to_map.
  2:{ rewrite fst_zip; [done|]. by rewrite length_seq. }
  rewrite list_elem_of_lookup. split.
  - intros (j & Hj). apply lookup_zip_with_Some in Hj as (x & y & [= <- <-] & Hx & Hy).
    apply lookup_seq in Hy as [-> _]. done.
  - intros Hi. exists i. apply lookup_zip_with_Some. exists d, i.
    split; [done|]. split; [done|]. apply lookup_seq. split; [done|].
    by apply lookup_lt_Some in Hi.
Qed.

Lemma add_revenue_lookup (m : gmap Z Qc) (orders : list RawOrder.t) (d : Z) :
  default 0 (add_revenue m orders !! d)
  = default 0 (m !! d)
    + Py.sum (order_revenue <$> filter (λ o, RawOrder.order_date o = d) orders).
Proof.
  unfold add_revenue. revert m. induction orders as [|o orders IH]; intros m.
  - cbn. ring.
  - cbn [foldl]. rewrite IH. destruct (decide (RawOrder.order_date o = d)) as [<-|Hne].
    + rewrite filter_cons_True by done.
      rewrite lookup_insert_eq, fmap_cons, sum_cons. cbn [from_option]; unfold Datatypes.id. ring.
    + rewrite filter_cons_False by done. by rewrite lookup_insert_ne.
Qed.

Lemma sum_by_key {A K} `{EqDecision K} (date : A → K) (v : A → Qc) (dates : list K)
    (l : list A) :
  NoDup dates → (∀ x, x ∈ l → date x ∈ dates) →
  Py.sum ((λ d, Py.sum (v <$> filter (λ x, date x = d) l)) <$> dates) = Py.sum (v <$> l).
Proof.
  intros Hnodup. induction l as [|x l IH]; intros Hin.
  - clear Hnodup Hin. induction dates as [|d dates IHd]; [done|].
    rewrite fmap_cons, sum_cons, IHd. cbn. ring.
  - rewrite fmap_cons, sum_cons, <- IH.
    2:{ intros y Hy. apply Hin. by right. }
    assert (date x ∈ dates) as Hx by (apply Hin; by left).
    clear IH Hin. induction dates as [|d dates IHd]; [by apply elem_of_nil in Hx|].
    apply NoDup_cons in Hnodup as [Hd Hnodup].
    rewrite !fmap_cons, !sum_cons.
    destruct (decide (date x = d)) as [Heq|Hne].
    + rewrite filter_cons_True by done. rewrite fmap_cons, sum_cons.
      rewrite <- !Qcplus_assoc. f_equal. f_equal.
      f_equal. apply Forall_fmap_ext_1, Forall_forall. intros d' Hd'.
      rewrite filter_cons_False; [done|]. intros Heq'. congruence.
    + rewrite filter_cons_False by done.
      apply elem_of_cons in Hx as [?|Hx]; [done|].
      rewrite (IHd Hnodup Hx). ring.
Qed.

Lemma spend_loop_lookup (dates : list Z) (date_to_idx : gmap Z nat) (rows : list RawAds.t)
    (col : list Qc) (i : nat) (d : Z) :
  (∀ d i, date_to_idx !! d = Some i ↔ dates !! i = Some d) →
  dates !! i = Some d →
  foldl (λ col r,
           match date_to_idx !! RawAds.date r with
           | Some i => alter (λ x, x + RawAds.spend r) i col
           | None => col
           end) col rows !! i
  = (λ x, x + Py.sum (RawAds.spend <$> filter (λ r, RawAds.date r = d) rows)) <$> col !! i.
Proof.
  intros Hidx Hi. revert col. induction rows as [|r rows IH]; intros col.
  - cbn. destruct (col !! i); cbn; [f_equal; ring|done].
  - cbn [foldl]. rewrite IH. destruct (decide (RawAds.date r = d)) as [Heq|Hne].
    + rewrite filter_cons_True by done.
      rewrite Heq, (proj2 (Hidx d i) Hi), list_lookup_alter_eq, fmap_cons, sum_cons.
      destruct (col !! i); cbn; [f_equal; ring|done].
    + rewrite filter_cons_False by done.
      destruct (date_to_idx !! RawAds.date r) as [i'|] eqn:Hi'; [|done].
      rewrite list_lookup_alter_ne; [done|].
      intros ->. apply Hidx in Hi'. congruence.
Qed.

Lemma filter_date_in_window start_date end_date (tbl : list RawAds.t) (d : Z) :
  in_window start_date end_date d →
  filter (λ r, RawAds.date r = d) (ads_in_window start_date end_date tbl)
  = filter (λ r, RawAds.date r = d) tbl.
Proof.
  intros Hd. unfold ads_in_window. rewrite list_filter_filter.
  apply list_filter_iff. intros r. split; [tauto|]. intros Hr. by rewrite Hr.
Qed.

Lemma filter_order_date_in_window start_date end_date (tbl : list RawOrder.t) (d : Z) :
  in_window start_date end_date d →
  filter (λ o, RawOrder.order_date o = d) (orders_in_window start_date end_date tbl)
  = filter (λ o, RawOrder.order_date o = d) tbl.
Proof.
  intros Hd. unfold orders_in_window. rewrite list_filter_filter.
  apply list_filter_iff. intros r. split; [tauto|]. intros Hr. by rewrite Hr.
Qed.

Lemma elem_of_date_range start_date end_date d :
  d ∈ date_range start_date end_date ↔ in_window start_date end_date d.
Proof. unfold date_range, in_window. rewrite elem_of_seqZ. lia. Qed.

Lemma daily_revenue_entry session start_date end_date channels i d :
  (_daily_spend_matrix session start_date end_date channels).1.1 !! i = Some d →
  (_daily_spend_matrix session start_date end_date channels).2 !! i
  = Some (Py.sum (order_revenue
                    <$> filter (λ o, RawOrder.order_date o = d)
                          (raw_shopify_orders session ++ raw_woocommerce_orders session))).
Proof.
  unfold _daily_spend_matrix. cbn zeta. cbn [fst snd].
  intros Hi. rewrite list_lookup_fmap, Hi. cbn [fmap option_fmap option_map]. f_equal.
  assert (in_window start_date end_date d) as Hd
    by (apply elem_of_date_range; by eapply list_elem_of_lookup_2).
  rewrite !add_revenue_lookup, lookup_empty. cbn [from_option]; unfold Datatypes.id.
  rewrite !filter_order_date_in_window by done.
  rewrite filter_app, fmap_app, sum_app. ring.
Qed.

Lemma daily_spend_entry session start_date end_date channels j ch :
  channels !! j = Some ch →
  ∃ col, (_daily_spend_matrix session start_date end_date channels).1.2 !! j = Some col
    ∧ length col = length (_daily_spend_matrix session start_date end_date channels).1.1
    ∧ ∀ i d, (_daily_spend_matrix session start_date end_date channels).1.1 !! i = Some d →
        col !! i
        = Some (match ch_to_model session ch with
                | Some tbl =>
                  Py.sum (RawAds.spend <$> filter (λ r, RawAds.date r = d) tbl)
                | None => 0
                end).
Proof.
  unfold _daily_spend_matrix. cbn zeta. cbn [fst snd].
  intros Hj. eexists. split; [by rewrite list_lookup_fmap, Hj|].
  split; [apply length_spend_column|].
  intros i d Hi.
  assert (in_window start_date end_date d) as Hd
    by (apply elem_of_date_range; by eapply list_elem_of_lookup_2).
  unfold spend_column. destruct (ch_to_model session ch) as [tbl|].
  - rewrite (spend_loop_lookup (date_range start_date end_date) _ _ _ i d).
    + rewrite lookup_replicate_2 by by apply lookup_lt_Some in Hi.
      cbn [fmap option_fmap option_map]. rewrite filter_date_in_window by done.
      f_equal. ring.
    + intros d' i'. apply date_to_idx_lookup, NoDup_seqZ.
    + done.
  - apply lookup_replicate_2. by apply lookup_lt_Some in Hi.
Qed.

(** X13. The daily matrix: one date per day of the window, one column
    per channel and one entry per date in every column and in the revenue
    vector.  The revenue of a day is the revenue of the orders of both
    shops dated that day ([net_revenue] when present); the entry of a
    known channel is the spend of the rows of its table dated that day,
    and a channel without a table has a column of zeros. *)
Theorem daily_spend_matrix_entries session start_date end_date channels :
  let m := _daily_spend_matrix session start_date end_date channels in
  let dates := m.1.1 in
  let spend_matrix := m.1.2 in
  let rev := m.2 in
  dates = seqZ start_date (end_date - start_date + 1)
  ∧ length rev = length dates
  ∧ length spend_matrix = length channels
  ∧ (∀ i d, dates !! i = Some d →
       rev !! i
       = Some (Py.sum (order_revenue
                         <$> filter (λ o, RawOrder.order_date o = d)
                               (raw_shopify_orders session ++ raw_woocommerce_orders session))))
  ∧ (∀ j ch, channels !! j = Some ch →
       ∃ col, spend_matrix !! j = Some col
         ∧ length col = length dates
         ∧ ∀ i d, dates !! i = Some d →
             col !! i
             = Some (match ch_to_model session ch with
                     | Some tbl =>
                       Py.sum (RawAds.spend <$> filter (λ r, RawAds.date r = d) tbl)
                     | None => 0
                     end)).
Proof.
  cbn zeta. split; [done|].
  split; [unfold _daily_spend_matrix; cbn; by rewrite length_fmap|].
  split; [unfold _daily_spend_matrix; cbn; by rewrite length_fmap|].
  split.
  - intros i d. apply daily_revenue_entry.
  - intros j ch. apply daily_spend_entry.
Qed.

(** X14. Nothing is lost between the tables and the matrix: the revenue
    vector sums to the revenue of the orders inside the window, and the
    column of a known channel sums to the spend of the rows of its table
    inside the window. *)
Theorem daily_spend_matrix_totals session start_date end_date channels :
  let m := _daily_spend_matrix session start_date end_date channels in
  Py.sum m.2 = Py.sum (order_revenue <$> window_orders session start_date end_date)
  ∧ ∀ j ch tbl, channels !! j = Some ch → ch_to_model session ch = Some tbl →
      ∃ col, m.1.2 !! j = Some col
        ∧ Py.sum col = Py.sum (RawAds.spend <$> ads_in_window start_date end_date tbl).
Proof.
  cbn zeta.
  assert ((_daily_spend_matrix session start_date end_date channels).1.1
          = seqZ start_date (end_date - start_date + 1)) as Hdates by done.
  assert (length (_daily_spend_matrix session start_date end_date channels).2
          = length (_daily_spend_matrix session start_date end_date channels).1.1) as Hlen
    by (unfold _daily_spend_matrix; cbn; by rewrite length_fmap).
  pose proof (daily_revenue_entry session start_date end_date channels) as Hrev.
  pose proof (daily_spend_entry session start_date end_date channels) as Hcols.
  set (m := _daily_spend_matrix session start_date end_date channels) in *.
  split.
  - rewrite <- (sum_by_key RawOrder.order_date order_revenue m.1.1).
    + f_equal. apply list_eq. intros i. rewrite list_lookup_fmap.
      destruct (m.1.1 !! i) as [d|] eqn:Hi.
      * rewrite (Hrev i d Hi). cbn [fmap option_fmap option_map]. f_equal. f_equal.
        assert (in_window start_date end_date d) as Hd.
        { apply elem_of_date_range. fold (date_range start_date end_date) in Hdates.
          rewrite <- Hdates. by eapply list_elem_of_lookup_2. }
        unfold window_orders. rewrite !filter_app.
        by rewrite !filter_order_date_in_window.
      * apply lookup_ge_None. rewrite Hlen. by apply lookup_ge_None.
    + rewrite Hdates. apply NoDup_seqZ.
    + intros o Ho. rewrite Hdates. apply elem_of_date_range.
      unfold window_orders in Ho. apply elem_of_app in Ho as [Ho|Ho];
        by apply list_elem_of_filter in Ho as [? _].
  - intros j ch tbl Hj Htbl. destruct (Hcols j ch Hj) as (col & Hcol & Hlencol & Hentries).
    exists col. split; [done|]. rewrite Htbl in Hentries.
    rewrite <- (sum_by_key RawAds.date RawAds.spend m.1.1).
    + f_equal. apply list_eq. intros i. rewrite list_lookup_fmap.
      destruct (m.1.1 !! i) as [d|] eqn:Hi.
      * rewrite (Hentries i d Hi). cbn [fmap option_fmap option_map]. f_equal. f_equal.
        assert (in_window start_date end_date d) as Hd.
        { apply elem_of_date_range. fold (date_range start_date end_date) in Hdates.
          rewrite <- Hdates. by eapply list_elem_of_lookup_2. }
        by rewrite filter_date_in_window.
      * apply lookup_ge_None. rewrite Hlencol. by apply lookup_ge_None.
    + rewrite Hdates. apply NoDup_seqZ.
    + intros r Hr. rewrite Hdates. apply elem_of_date_range.
      by apply list_elem_of_filter in Hr as [? _].
Qed.

Lemma getitem_Ok (d : gmap string value) key v :
  getitem d key = Py.Ok v → d !! key = Some v.
Proof. unfold getitem. destruct (d !! key); [by intros [= ->]|done]. Qed.

Lemma fitted_rows_inv run_id now pipeline_out coefs r2 channels rows :
  fitted_rows run_id now pipeline_out coefs r2 channels = Py.Ok rows →
  MMMResults.channel <$> rows = channels
  ∧ Forall (λ r, MMMResults.run_id r = run_id
                 ∧ MMMResults.created_at r = now
                 ∧ (∃ c, get_coef coefs (MMMResults.channel r) = Py.Ok c
                         ∧ as_float c = Py.Ok (MMMResults.coefficient r))
                 ∧ as_optional_float r2 = Py.Ok (MMMResults.goodness_of_fit_r2 r)) rows.
Proof.
  revert rows. induction channels as [|ch channels IH]; intros rows.
  - intros [= <-]. by split.
  - cbn [fitted_rows]. intros H.
    apply bind_Ok_inv in H as (c & Hc & H).
    apply bind_Ok_inv in H as (version & _ & H).
    apply bind_Ok_inv in H as (coefficient & Hcoef & H).
    apply bind_Ok_inv in H as (gof & Hgof & H).
    apply bind_Ok_inv in H as (mv & _ & H).
    apply bind_Ok_inv in H as (rest & Hrest & H).
    injection H as <-. destruct (IH rest Hrest) as [Hchs Hall].
    split; [by rewrite fmap_cons, Hchs|].
    constructor; [|done]. cbn. repeat split; try done. by exists c.
Qed.

Lemma zero_coefficients_lookup (channels : list string) ch :
  ch ∈ channels →
  (list_to_map ((λ ch, (ch, VFloat 0)) <$> channels) : gmap string value) !! ch
  = Some (VFloat 0).
Proof.
  induction channels as [|ch' channels IH]; [by intros ?%elem_of_nil|].
  intros Hin. rewrite fmap_cons. cbn [list_to_map foldr fst snd].
  destruct (decide (ch' = ch)) as [->|Hne]; [by rewrite lookup_insert_eq|].
  rewrite lookup_insert_ne by done. apply IH.
  apply elem_of_cons in Hin as [?|?]; [congruence|done].
Qed.

Lemma run_mmm_Ok_inv session run_id start_date end_date channels adstock_half_life
    n_boot mmm_version now d session' :
  run_mmm MMM_VERSION half_pow log1p fit_pipeline session run_id start_date end_date
    channels adstock_half_life n_boot mmm_version now = Py.Ok (d, session') →
  ∃ rows coefs r2,
    session' = add_mmm_results session rows
    ∧ MMMResults.channel <$> rows = default _DEFAULT_CHANNELS channels
    ∧ d !! "run_id" = Some (VStr run_id)
    ∧ d !! "coefficients" = Some (VDict coefs)
    ∧ d !! "r2" = Some r2
    ∧ ∀ r, r ∈ rows →
        MMMResults.run_id r = run_id
        ∧ MMMResults.created_at r = now
        ∧ default (VFloat 0) (coefs !! MMMResults.channel r)
          = VFloat (MMMResults.coefficient r)
        ∧ as_optional_float r2 = Py.Ok (MMMResults.goodness_of_fit_r2 r).
Proof.
  intros Hcall.
  destruct (run_mmm_cases MMM_VERSION half_pow log1p fit_pipeline session run_id start_date
              end_date channels adstock_half_life n_boot mmm_version now)
    as [[_ Hraise]|[(_ & Hempty & Hdeg)|(Hne & Hdays & _)]].
  - cbn zeta in Hraise. congruence.
  - cbn zeta in Hdeg. rewrite Hdeg in Hcall. injection Hcall as <- <-.
    eexists _, _, VNone. split; [done|].
    split; [unfold degenerate_rows; by rewrite <- list_fmap_compose, list_fmap_id|].
    split; [done|]. split; [done|]. split; [done|].
    unfold degenerate_rows. intros r (ch & -> & Hch)%list_elem_of_fmap. cbn.
    by rewrite zero_coefficients_lookup.
  - revert Hcall. unfold run_mmm.
    set (chs := default _DEFAULT_CHANNELS channels) in *.
    unfold _daily_spend_matrix. cbn zeta beta iota.
    destruct chs as [|ch chs'] eqn:Hchs; [done|].
    rewrite !fmap_cons. cbn [hstack].
    change (Py.Ok ?x ≫= ?k) with (k x). cbn beta.
    rewrite decide_False.
    2:{ intros [Hsize|Hrev].
        - unfold size in Hsize. rewrite fmap_cons in Hsize.
          cbn [sum_list sum_list_with] in Hsize.
          rewrite length_feature_column, length_spend_column, length_date_range in Hsize.
          unfold Datatypes.id in Hsize. lia.
        - rewrite length_fmap, length_date_range in Hrev. lia. }
    intros H.
    apply bind_Ok_inv in H as (pipeline_out & _ & H).
    apply bind_Ok_inv in H as (coefs & Hcoefs & H).
    apply bind_Ok_inv in H as (r2 & Hr2 & H).
    apply bind_Ok_inv in H as (rows & Hrows & H).
    repeat (apply bind_Ok_inv in H as (? & _ & H)).
    injection H as <- <-.
    apply fitted_rows_inv in Hrows as [Hchannels Hall].
    assert (∃ cd, coefs = VDict cd) as [cd ->].
    { apply Forall_forall with (x := default (MMMResults.mk EmptyString 0 EmptyString 0 None None) (head rows))
        in Hall as (_ & _ & (c & Hc & _) & _).
      - destruct coefs; try done. by eexists.
      - destruct rows as [|r rows]; [done|]. by left. }
    exists rows, cd, r2. split; [done|]. split; [done|].
    split; [done|]. split; [done|]. split; [done|].
    intros r Hr. apply (proj1 (Forall_forall _ _) Hall) in Hr.
    destruct Hr as (Hrun & Hnow & (c & Hc & Hfloat) & Hgof).
    repeat split; try done. injection Hc as <-.
    destruct (default (VFloat 0) (cd !! MMMResults.channel r)); try done.
    by injection Hfloat as ->.
Qed.

(** X15. A call of [run_mmm] that returns has added to [mmm_results]
    exactly one row per requested channel, in the order of the channels,
    each with the run identifier of the call and the time of the call;
    the coefficient of each row is the one the returned [coefficients]
    give its channel (zero when they have none), and its goodness of fit
    is the returned [r2]. *)
Theorem run_mmm_rows session run_id start_date end_date channels adstock_half_life
    n_boot mmm_version now d session' :
  run_mmm MMM_VERSION half_pow log1p fit_pipeline session run_id start_date end_date
    channels adstock_half_life n_boot mmm_version now = Py.Ok (d, session') →
  ∃ rows coefs r2,
    session' = add_mmm_results session rows
    ∧ MMMResults.channel <$> rows = default _DEFAULT_CHANNELS channels
    ∧ d !! "run_id" = Some (VStr run_id)
    ∧ d !! "coefficients" = Some (VDict coefs)
    ∧ d !! "r2" = Some r2
    ∧ Forall (λ r, MMMResults.run_id r = run_id
                   ∧ MMMResults.created_at r = now
                   ∧ default (VFloat 0) (coefs !! MMMResults.channel r)
                     = VFloat (MMMResults.coefficient r)
                   ∧ as_optional_float r2 = Py.Ok (MMMResults.goodness_of_fit_r2 r)) rows.
Proof.
  intros Hcall.
  apply run_mmm_Ok_inv in Hcall
    as (rows & coefs & r2 & Hsession & Hchannels & Hid & Hcoefs & Hr2 & Hrows).
  exists rows, coefs, r2. repeat (split; [done|]).
  by apply Forall_forall.
Qed.

End mmm_extras.

(** ** The allocation summary and the synthetic sequences *)

Lemma foldl_insert_lookup {A V} (k : A → string) (v : A → V) (l : list A)
    (m : gmap string V) (key : string) (x : V) :
  foldl (λ m r, <[k r := v r]> m) m l !! key = Some x →
  (∃ r, r ∈ l ∧ k r = key ∧ v r = x) ∨ m !! key = Some x.
Proof.
  revert m. induction l as [|r l IH]; intros m; [by right|].
  cbn [foldl]. intros [(r' & Hr' & Hk & Hv)|Hm]%IH.
  - left. exists r'. split; [by right|done].
  - destruct (decide (k r = key)) as [Heq|Hne].
    + rewrite Heq, lookup_insert_eq in Hm. injection Hm as <-.
      left. exists r. split; [by left|done].
    + rewrite lookup_insert_ne in Hm by done. by right.
Qed.


Section allocation_summary.
Import click_id_attribution attribution_runner.

Context (removal_effect_credits : list (list string) → list string → gmap string Qc).


End allocation_summary.

Section sequences.
Import runner_sequences.

Lemma insert_by_weight_Permutation p l : insert_by_weight p l ≡ₚ p :: l.
Proof.
  induction l as [|q l IH]; [done|]. cbn. case_decide; [done|].
  rewrite IH. apply Permutation_swap.
Qed.

Lemma sort_by_weight_desc_Permutation l : sort_by_weight_desc l ≡ₚ l.
Proof.
  induction l as [|p l IH]; [done|].
  cbn. by rewrite insert_by_weight_Permutation, IH.
Qed.

Lemma insert_by_weight_sorted p l :
  StronglySorted (λ p q : string * Qc, q.2 ≤ p.2) l →
  StronglySorted (λ p q : string * Qc, q.2 ≤ p.2) (insert_by_weight p l).
Proof.
  induction 1 as [|q l Hl IH Hq]; [repeat constructor|].
  cbn. case_decide as Hle.
  - constructor; [by constructor|]. constructor; [done|].
    eapply Forall_impl; [exact Hq|]. cbn. intros r Hr. by eapply Qcle_trans.
  - constructor; [done|]. rewrite insert_by_weight_Permutation.
    constructor; [|done]. cbn. apply Qcnot_le_lt in Hle. by apply Qclt_le_weak.
Qed.

Lemma sort_by_weight_desc_sorted l :
  StronglySorted (λ p q : string * Qc, q.2 ≤ p.2) (sort_by_weight_desc l).
Proof.
  induction l as [|p l IH]; [constructor|]. cbn. by apply insert_by_weight_sorted.
Qed.

Lemma unique_snoc (l : list string) x :
  attribution_runner.unique (l ++ [x]%list)
  = attribution_runner.unique l ++ (if decide (x ∈ l) then [] else [x]%list).
Proof.
  induction l as [|y l IH].
  - cbn. rewrite decide_False by apply not_elem_of_nil. done.
  - cbn [app attribution_runner.unique]. rewrite IH, filter_app. f_equal. f_equal.
    destruct (decide (x ∈ l)) as [Hin|Hnin].
    + by rewrite decide_True by by right.
    + destruct (decide (x = y)) as [->|Hne].
      * rewrite decide_True by by left. by rewrite filter_cons_False by (intros ?; done).
      * rewrite decide_False by (intros [?|?]%elem_of_cons; done).
        by rewrite filter_cons_True.
Qed.

Lemma append_pair_fmap (f : string → list (string * Qc)) (ks : list string) id p :
  NoDup ks →
  append_pair ((λ k, (k, f k)) <$> ks) id p
  = ((λ k, (k, if decide (k = id) then f k ++ [p]%list else f k)) <$> ks)
    ++ (if decide (id ∈ ks) then [] else [(id, [p]%list)]%list).
Proof.
  induction ks as [|k ks IH]; intros Hnodup.
  - cbn. rewrite decide_False by apply not_elem_of_nil. done.
  - apply NoDup_cons in Hnodup as [Hk Hnodup].
    rewrite !fmap_cons. cbn [append_pair]. destruct (decide (k = id)) as [->|Hne].
    + rewrite (decide_True (P := id ∈ id :: ks)) by by left.
      rewrite (right_id_L [] (++)). f_equal.
      apply Forall_fmap_ext_1, Forall_forall. intros k' Hk'.
      rewrite decide_False; [done|]. by intros ->.
    + rewrite IH by done. cbn [app]. f_equal. f_equal.
      destruct (decide (id ∈ ks)) as [Hin|Hnin].
      * by rewrite decide_True by by right.
      * by rewrite decide_False by (intros [?|?]%elem_of_cons; done).
Qed.

Lemma pairs_of_order_snoc id (l : list Allocated) (a : Allocated) :
  pairs_of_order id (l ++ [a]%list)
  = pairs_of_order id l
    ++ (if decide (a.1.1.1.1 = id) then [(a.1.1.2, a.1.2)]%list else []).
Proof.
  unfold pairs_of_order. rewrite filter_app, fmap_app. f_equal.
  case_decide.
  - by rewrite filter_cons_True.
  - by rewrite filter_cons_False.
Qed.

Lemma by_order_eq (allocated : list Allocated) :
  foldl (λ by_order (a : Allocated), append_pair by_order a.1.1.1.1 (a.1.1.2, a.1.2))
        [] allocated
  = (λ id, (id, pairs_of_order id allocated))
      <$> attribution_runner.unique ((λ a : Allocated, a.1.1.1.1) <$> allocated).
Proof.
  induction allocated as [|a l IH] using rev_ind; [done|].
  rewrite foldl_app. cbn [foldl]. rewrite IH.
  rewrite append_pair_fmap by apply unique_NoDup.
  rewrite (fmap_app (λ a : Allocated, a.1.1.1.1)).
  change ((λ a : Allocated, a.1.1.1.1) <$> [a]%list) with [a.1.1.1.1]%list.
  rewrite unique_snoc, fmap_app.
  f_equal.
  - apply Forall_fmap_ext_1, Forall_forall. intros id _.
    rewrite pairs_of_order_snoc. f_equal.
    destruct (decide (id = a.1.1.1.1)) as [->|Hne].
    + by rewrite decide_True.
    + rewrite decide_False by done. by rewrite (right_id_L [] (++)).
  - rewrite (decide_ext _ (a.1.1.1.1 ∈ (λ a : Allocated, a.1.1.1.1) <$> l))
      by apply unique_elem_of.
    case_decide as Hin; [done|]. cbn. f_equal. f_equal.
    rewrite pairs_of_order_snoc, decide_True by done.
    unfold pairs_of_order. rewrite filter_none; [done|].
    intros a' Ha' Heq. apply Hin. apply list_elem_of_fmap. by exists a'.
Qed.

(** X17. The synthetic sequences: one sequence per distinct order
    identifier of the tuples, in the order in which the identifiers first
    appear; the sequence of an order lists the channels of its tuples,
    each tuple once, from the largest weight to the smallest. *)
Theorem synthetic_sequences_per_order (allocated : list Allocated) (channels : list string) :
  let sequences := _synthetic_sequences_from_allocated allocated channels in
  let order_ids := attribution_runner.unique ((λ a : Allocated, a.1.1.1.1) <$> allocated) in
  length sequences = length order_ids
  ∧ ∀ i id, order_ids !! i = Some id →
      ∃ pairs, sequences !! i = Some pairs.*1
        ∧ pairs ≡ₚ pairs_of_order id allocated
        ∧ StronglySorted (λ p q : string * Qc, q.2 ≤ p.2) pairs.
Proof.
  cbn zeta. unfold _synthetic_sequences_from_allocated. rewrite by_order_eq.
  split; [by rewrite !length_fmap|].
  intros i id Hi. exists (sort_by_weight_desc (pairs_of_order id allocated)).
  split; [by rewrite !list_lookup_fmap, Hi|].
  split; [apply sort_by_weight_desc_Permutation|apply sort_by_weight_desc_sorted].
Qed.

End sequences.

(** ** Unified daily metrics and what the API reads back *)

Lemma accumulate_default {K A} `{Countable K} (key : A → K) (v : A → Qc) (l : list A)
    (m : gmap K Qc) (k : K) :
  default 0 (foldl (λ m r, <[key r := default 0 (m !! key r) + v r]> m) m l !! k)
  = default 0 (m !! k) + Py.sum (v <$> filter (λ r, key r = k) l).
Proof.
  revert m. induction l as [|r l IH]; intros m.
  - cbn. ring.
  - cbn [foldl]. rewrite IH. destruct (decide (key r = k)) as [<-|Hne].
    + rewrite filter_cons_True by done.
      rewrite lookup_insert_eq, fmap_cons, sum_cons. cbn [from_option]; unfold Datatypes.id.
      ring.
    + rewrite filter_cons_False by done. by rewrite lookup_insert_ne.
Qed.

Lemma accumulate_is_Some {K A} `{Countable K} (key : A → K) (v : A → Qc) (l : list A)
    (m : gmap K Qc) (k : K) :
  is_Some (foldl (λ m r, <[key r := default 0 (m !! key r) + v r]> m) m l !! k)
  ↔ is_Some (m !! k) ∨ ∃ r, r ∈ l ∧ key r = k.
Proof.
  revert m. induction l as [|r l IH]; intros m.
  - cbn. split; [by left|]. intros [?|(r & []%elem_of_nil & _)]. done.
  - cbn [foldl]. rewrite IH, lookup_insert_is_Some. split.
    + intros [[Heq|[_ Hm]]|(r' & Hr' & Hk)].
      * right. exists r. split; [by left|done].
      * by left.
      * right. exists r'. split; [by right|done].
    + intros [Hm|(r' & [->|Hr']%elem_of_cons & Hk)].
      * left. destruct (decide (key r = k)); [by left|by right].
      * left. by left.
      * right. by exists r'.
Qed.

Section metrics_extras.
Import aggregator.

Lemma group_sum_lookup {A} (key : A → Z * string) (column : A → Qc) (rows : list A) k :
  default 0 (group_sum key column rows !! k)
  = Py.sum (column <$> filter (λ r, key r = k) rows).
Proof.
  unfold group_sum. rewrite accumulate_default, lookup_empty. cbn. ring.
Qed.

Lemma group_sum_elem_of {A} (key : A → Z * string) (column : A → Qc) (rows : list A) k :
  k ∈ dom (group_sum key column rows) ↔ ∃ r, r ∈ rows ∧ key r = k.
Proof.
  rewrite elem_of_dom. unfold group_sum. rewrite accumulate_is_Some, lookup_empty.
  split; [intros [[]%is_Some_None|?]; done|by right].
Qed.

#[local] Instance key_le_trans : Transitive key_le.
Proof.
  intros [d1 c1] [d2 c2] [d3 c3]. unfold key_le. cbn.
  intros [?|[-> H12]] [?|[-> H23]]; [left; lia|by left|by left|].
  right. split; [done|]. by etrans.
Qed.

#[local] Instance key_le_total : Total key_le.
Proof.
  intros [d1 c1] [d2 c2]. unfold key_le. cbn.
  destruct (Z.lt_trichotomy d1 d2) as [?|[->|?]]; [by left; left| |by right; left].
  destruct (total String.le c1 c2); [left|right]; by right.
Qed.

Lemma compute_unified_metrics_eq session start_date end_date attribution_run_id :
  compute_unified_metrics session start_date end_date attribution_run_id
  = metrics_row (_spend_by_date_channel session start_date end_date)
      (_attributed_revenue_by_date_channel session start_date end_date attribution_run_id)
    <$> merge_sort key_le
          (elements (dom (_spend_by_date_channel session start_date end_date)
                     ∪ dom (_attributed_revenue_by_date_channel session start_date end_date
                              attribution_run_id))).
Proof.
  unfold compute_unified_metrics. cbn zeta. case_decide as Hempty; [|done].
  destruct Hempty as [-> ->]. by rewrite dom_empty_L, (left_id_L ∅ (∪)), elements_empty.
Qed.

Lemma metrics_keys session start_date end_date attribution_run_id :
  (λ r, (UnifiedDailyMetrics.date r, UnifiedDailyMetrics.channel r))
    <$> compute_unified_metrics session start_date end_date attribution_run_id
  = merge_sort key_le
      (elements (dom (_spend_by_date_channel session start_date end_date)
                 ∪ dom (_attributed_revenue_by_date_channel session start_date end_date
                          attribution_run_id))).
Proof.
  rewrite compute_unified_metrics_eq, <- list_fmap_compose.
  rewrite <- (list_fmap_id (merge_sort _ _)) at 2.
  apply Forall_fmap_ext_1, Forall_forall. by intros [d ch] _.
Qed.

Lemma spend_row_in_window session start_date end_date r :
  r ∈ attribution_runner._daily_spend_by_channel session start_date end_date →
  in_window start_date end_date (SpendRow.date r).
Proof.
  unfold attribution_runner._daily_spend_by_channel, ads_in_window.
  rewrite !elem_of_app, !list_elem_of_fmap.
  intros [(rec & -> & Hrec)|[(rec & -> & Hrec)|[(rec & -> & Hrec)|(rec & -> & Hrec)]]];
    by apply list_elem_of_filter in Hrec as [? _].
Qed.

Lemma metrics_key_elem_of session start_date end_date attribution_run_id k :
  k ∈ (λ r, (UnifiedDailyMetrics.date r, UnifiedDailyMetrics.channel r))
        <$> compute_unified_metrics session start_date end_date attribution_run_id
  ↔ (∃ r, r ∈ attribution_runner._daily_spend_by_channel session start_date end_date
          ∧ (SpendRow.date r, SpendRow.channel r) = k)
    ∨ (∃ ev, ev ∈ selected_events session start_date end_date attribution_run_id
             ∧ (AttributionEvent.event_date ev, AttributionEvent.channel ev) = k).
Proof.
  rewrite metrics_keys, merge_sort_Permutation, elem_of_elements, elem_of_union.
  unfold _spend_by_date_channel, _attributed_revenue_by_date_channel. cbn zeta.
  by rewrite !group_sum_elem_of.
Qed.

Lemma metrics_row_in_window session start_date end_date attribution_run_id r :
  r ∈ compute_unified_metrics session start_date end_date attribution_run_id →
  in_window start_date end_date (UnifiedDailyMetrics.date r).
Proof.
  intros Hr.
  assert ((UnifiedDailyMetrics.date r, UnifiedDailyMetrics.channel r)
          ∈ (λ r, (UnifiedDailyMetrics.date r, UnifiedDailyMetrics.channel r))
              <$> compute_unified_metrics session start_date end_date attribution_run_id)
    as Hk
    by by apply (list_elem_of_fmap_2
                   (λ r, (UnifiedDailyMetrics.date r, UnifiedDailyMetrics.channel r))).
  apply metrics_key_elem_of in Hk as [(s & Hs & [= <- _])|(ev & Hev & [= <- _])].
  - by eapply spend_row_in_window.
  - unfold selected_events in Hev. by apply list_elem_of_filter in Hev as [[? _] _].
Qed.

(** X18. The rows of [compute_unified_metrics]: one row per pair of a
    date and a channel that has a spend row or a selected attribution
    row in the window, ordered by date and then channel.  Each row
    carries the summed spend and the summed attributed revenue of its
    pair; ROAS and MER are the revenue divided by the spend exactly
    when the spend is positive, and absent otherwise; CAC is the spend
    exactly when the revenue is positive; no date leaves the window. *)
Theorem unified_metrics_rows session start_date end_date attribution_run_id :
  let out := compute_unified_metrics session start_date end_date attribution_run_id in
  let spend_rows := attribution_runner._daily_spend_by_channel session start_date end_date in
  let events := selected_events session start_date end_date attribution_run_id in
  let key := λ r, (UnifiedDailyMetrics.date r, UnifiedDailyMetrics.channel r) in
  NoDup (key <$> out)
  ∧ Sorted key_le (key <$> out)
  ∧ (∀ k, k ∈ key <$> out
          ↔ (∃ r, r ∈ spend_rows ∧ (SpendRow.date r, SpendRow.channel r) = k)
            ∨ (∃ ev, ev ∈ events
                     ∧ (AttributionEvent.event_date ev, AttributionEvent.channel ev) = k))
  ∧ Forall (λ r,
       UnifiedDailyMetrics.spend r
       = Py.sum (SpendRow.spend
                   <$> filter (λ s, (SpendRow.date s, SpendRow.channel s) = key r) spend_rows)
       ∧ UnifiedDailyMetrics.attributed_revenue r
         = Py.sum (AttributionEvent.allocated_revenue
                     <$> filter (λ ev, (AttributionEvent.event_date ev,
                                        AttributionEvent.channel ev) = key r) events)
       ∧ UnifiedDailyMetrics.roas r
         = (if decide (0 < UnifiedDailyMetrics.spend r)
            then Some (UnifiedDailyMetrics.attributed_revenue r / UnifiedDailyMetrics.spend r)
            else None)
       ∧ UnifiedDailyMetrics.mer r = UnifiedDailyMetrics.roas r
       ∧ UnifiedDailyMetrics.cac r
         = (if decide (0 < UnifiedDailyMetrics.attributed_revenue r)
            then Some (UnifiedDailyMetrics.spend r)
            else None)
       ∧ in_window start_date end_date (UnifiedDailyMetrics.date r)) out.
Proof.
  cbn zeta. split; [|split; [|split]].
  - rewrite metrics_keys, merge_sort_Permutation. apply NoDup_elements.
  - rewrite metrics_keys. apply Sorted_merge_sort, _.
  - apply metrics_key_elem_of.
  - apply Forall_forall. intros r Hr.
    pose proof (metrics_row_in_window _ _ _ _ _ Hr) as Hwin.
    rewrite compute_unified_metrics_eq in Hr.
    apply list_elem_of_fmap in Hr as (k & -> & _).
    destruct k as [d ch]. unfold metrics_row in *. cbn zeta in *.
    cbn [UnifiedDailyMetrics.spend UnifiedDailyMetrics.attributed_revenue
         UnifiedDailyMetrics.roas UnifiedDailyMetrics.mer UnifiedDailyMetrics.cac
         UnifiedDailyMetrics.date UnifiedDailyMetrics.channel fst snd] in *.
    unfold _spend_by_date_channel, _attributed_revenue_by_date_channel. cbn zeta.
    rewrite !group_sum_lookup. fold (selected_events session start_date end_date
                                       attribution_run_id).
    repeat split; try done; try (by destruct Hwin).
    case_decide; [|done]. f_equal. by field.
Qed.

Lemma run_metrics_window_rows session table start_date end_date attribution_run_id :
  filter (λ x, in_window start_date end_date (UnifiedDailyMetrics.date x))
    (run_metrics session table start_date end_date attribution_run_id).2
  = compute_unified_metrics session start_date end_date attribution_run_id.
Proof.
  unfold run_metrics. cbn [snd]. rewrite filter_app.
  rewrite (filter_none _ (filter _ table)).
  2:{ intros x [Hx _]%list_elem_of_filter. tauto. }
  apply filter_all. intros x Hx. by eapply metrics_row_in_window.
Qed.

(** X19. [run_metrics] replaces the window: it returns the number of
    computed rows, leaves every row dated outside the window as it was,
    leaves inside the window exactly the computed rows, and running it
    again on its own result changes nothing. *)
Theorem run_metrics_replaces_window session table start_date end_date attribution_run_id :
  let r := run_metrics session table start_date end_date attribution_run_id in
  let records := compute_unified_metrics session start_date end_date attribution_run_id in
  r.1 = length records
  ∧ filter (λ x, ¬ in_window start_date end_date (UnifiedDailyMetrics.date x)) r.2
    = filter (λ x, ¬ in_window start_date end_date (UnifiedDailyMetrics.date x)) table
  ∧ filter (λ x, in_window start_date end_date (UnifiedDailyMetrics.date x)) r.2 = records
  ∧ run_metrics session r.2 start_date end_date attribution_run_id = r.
Proof.
  cbn zeta. unfold run_metrics. cbn [fst snd].
  set (records := compute_unified_metrics session start_date end_date attribution_run_id).
  set (kept := filter (λ x, ¬ in_window start_date end_date (UnifiedDailyMetrics.date x))
                 table).
  assert (filter (λ x, ¬ in_window start_date end_date (UnifiedDailyMetrics.date x)) records
          = []) as Hout.
  { apply filter_none. intros x Hx Hnot. apply Hnot. by eapply metrics_row_in_window. }
  assert (filter (λ x, in_window start_date end_date (UnifiedDailyMetrics.date x)) records
          = records) as Hin.
  { apply filter_all. intros x Hx. by eapply metrics_row_in_window. }
  assert (filter (λ x, ¬ in_window start_date end_date (UnifiedDailyMetrics.date x)) kept
          = kept) as Hkept.
  { apply filter_all. intros x Hx. unfold kept in Hx.
    by apply list_elem_of_filter in Hx as [? _]. }
  assert (filter (λ x, in_window start_date end_date (UnifiedDailyMetrics.date x)) kept
          = []) as Hkept'.
  { apply filter_none. intros x Hx. unfold kept in Hx.
    apply list_elem_of_filter in Hx as [? _]. tauto. }
  split; [done|].
  rewrite !filter_app, Hout, Hin, Hkept, Hkept', (right_id_L [] (++)).
  done.
Qed.

Lemma add_spend_get0 ch (m : gmap string Qc) (rows : list RawAds.t) ch' :
  Py.get0 (attribution_mmm_report.add_spend ch m rows) ch'
  = Py.get0 m ch' + (if decide (ch' = ch) then Py.sum (RawAds.spend <$> rows) else 0).
Proof.
  unfold attribution_mmm_report.add_spend.
  rewrite (accumulate_get0 (λ _, ch) RawAds.spend). f_equal. case_decide as Hch.
  - rewrite filter_all; [done|]. by intros.
  - rewrite filter_none; [done|]. intros r _ Heq. by apply Hch.
Qed.

Lemma filter_spend_rows_channel session start_date end_date ch :
  Py.sum (SpendRow.spend
            <$> filter (λ r, SpendRow.channel r = ch)
                  (attribution_runner._daily_spend_by_channel session start_date end_date))
  = Py.get0 (attribution_mmm_report._spend_by_channel session start_date end_date) ch.
Proof.
  assert (∀ c tbl,
            Py.sum (SpendRow.spend
                      <$> filter (λ r, SpendRow.channel r = ch)
                            ((λ rec, SpendRow.mk (RawAds.date rec) c (RawAds.spend rec))
                               <$> ads_in_window start_date end_date tbl))
            = if decide (ch = c)
              then Py.sum (RawAds.spend <$> ads_in_window start_date end_date tbl)
              else 0) as Hone.
  { intros c tbl. case_decide as Hc.
    - rewrite filter_all, <- list_fmap_compose; [done|].
      by intros r (rec & -> & _)%list_elem_of_fmap.
    - rewrite filter_none; [done|].
      intros r (rec & -> & _)%list_elem_of_fmap. cbn. congruence. }
  unfold attribution_runner._daily_spend_by_channel. cbn zeta.
  rewrite !filter_app, !fmap_app, !sum_app, !Hone.
  unfold attribution_mmm_report._spend_by_channel. cbn zeta.
  rewrite !add_spend_get0. unfold Py.get0 at 1. rewrite lookup_empty.
  cbn [from_option]. unfold Datatypes.id. ring.
Qed.

(** X20. What the API reads back after [run_metrics]: over the window
    that was just recomputed, the current spend of every channel is the
    spend of the rows of its ad table inside the window, the same total
    the comparison report uses. *)
Theorem current_spend_after_run_metrics session table today lookback_days attribution_run_id
    ch :
  let table' :=
    (run_metrics session table (today - lookback_days) today attribution_run_id).2 in
  Py.get0 (app._current_spend_by_channel table' today lookback_days) ch
  = Py.get0 (attribution_mmm_report._spend_by_channel session (today - lookback_days) today)
      ch.
Proof.
  cbn zeta. unfold app._current_spend_by_channel. cbn zeta.
  rewrite run_metrics_window_rows.
  set (records := compute_unified_metrics session (today - lookback_days) today
                    attribution_run_id).
  assert (∀ by_ch : gmap string Qc,
            Py.get0 (if decide (by_ch = ∅) then {[ "meta" := 0; "google" := 0 ]} else by_ch) ch
            = Py.get0 by_ch ch) as ->.
  { intros by_ch. case_decide as Hempty; [|done]. subst by_ch.
    unfold Py.get0. rewrite lookup_empty.
    destruct (decide (ch = "meta")) as [->|]; [done|].
    rewrite lookup_insert_ne by done.
    destruct (decide (ch = "google")) as [->|]; [done|].
    by rewrite lookup_singleton_ne. }
  rewrite (accumulate_get0 UnifiedDailyMetrics.channel UnifiedDailyMetrics.spend).
  unfold Py.get0 at 1. rewrite lookup_empty. cbn [from_option]. unfold Datatypes.id.
  rewrite Qcplus_0_l, <- filter_spend_rows_channel.
  set (spend_rows := attribution_runner._daily_spend_by_channel session
                       (today - lookback_days) today).
  set (keys := merge_sort key_le
                 (elements (dom (_spend_by_date_channel session (today - lookback_days) today)
                            ∪ dom (_attributed_revenue_by_date_channel session
                                     (today - lookback_days) today attribution_run_id)))).
  assert (UnifiedDailyMetrics.spend
            <$> filter (λ r, UnifiedDailyMetrics.channel r = ch) records
          = (λ k, Py.sum (SpendRow.spend
                            <$> filter (λ s, (SpendRow.date s, SpendRow.channel s) = k)
                                  (filter (λ r, SpendRow.channel r = ch) spend_rows)))
              <$> filter (λ k, k.2 = ch) keys) as ->.
  { unfold records. rewrite compute_unified_metrics_eq. fold keys.
    induction keys as [|k keys IH]; [done|].
    rewrite fmap_cons. destruct (decide (k.2 = ch)) as [Hk|Hk].
    - rewrite (filter_cons_True (λ k, k.2 = ch)) by done.
      rewrite filter_cons_True by done. rewrite !fmap_cons, IH. f_equal.
      unfold metrics_row. cbn zeta. cbn [UnifiedDailyMetrics.spend].
      unfold _spend_by_date_channel.
      rewrite group_sum_lookup. fold spend_rows. f_equal. f_equal.
      rewrite list_filter_filter. apply list_filter_iff. intros s. split; [|tauto].
      intros Hs. split; [done|]. by rewrite <- Hs in Hk.
    - rewrite (filter_cons_False (λ k, k.2 = ch)) by done.
      by rewrite filter_cons_False. }
  apply (sum_by_key (λ s, (SpendRow.date s, SpendRow.channel s)) SpendRow.spend).
  - apply NoDup_filter. unfold keys. rewrite merge_sort_Permutation. apply NoDup_elements.
  - intros s [Hch Hs]%list_elem_of_filter. apply list_elem_of_filter. split; [done|].
    unfold keys. rewrite merge_sort_Permutation, elem_of_elements, elem_of_union. left.
    unfold _spend_by_date_channel. apply group_sum_elem_of. by exists s.
Qed.

End metrics_extras.

(** ** Reading back the coefficients of a run *)

Lemma foldl_insert_is_Some {A V} (k : A → string) (v : A → V) (l : list A)
    (m : gmap string V) (key : string) :
  is_Some (m !! key) ∨ key ∈ k <$> l →
  is_Some (foldl (λ m r, <[k r := v r]> m) m l !! key).
Proof.
  revert m. induction l as [|r l IH]; intros m.
  - intros [?|[]%elem_of_nil]. done.
  - cbn [foldl]. rewrite fmap_cons, elem_of_cons. intros [Hm|[->|Hin]]; apply IH.
    + left. rewrite lookup_insert_is_Some. destruct (decide (k r = key)); [by left|by right].
    + left. by rewrite lookup_insert_eq.
    + by right.
Qed.

Section readback.
Import mmm_runner attribution_mmm_report.

Context (MMM_VERSION : string) (half_pow log1p : Qc → Qc).
Context (fit_pipeline :
  list (list Qc) → list Qc → list string → Z → string → string
  → Py.result (gmap string value)).

(** X21. Reading back a run: when [run_mmm] returns and every earlier
    row of [mmm_results] is strictly older than the call and belongs to
    another run, the latest coefficients served by the API are those of
    this run, one per requested channel, equal to the returned
    [coefficients] (zero for a channel they lack); and the comparison
    report, asked for this run, uses the same coefficients. *)
Theorem latest_coefficients_after_run_mmm session run_id start_date end_date channels
    adstock_half_life n_boot mmm_version now d session' :
  run_mmm MMM_VERSION half_pow log1p fit_pipeline session run_id start_date end_date
    channels adstock_half_life n_boot mmm_version now = Py.Ok (d, session') →
  (∀ r, r ∈ mmm_results session →
        (MMMResults.created_at r < now)%Z ∧ MMMResults.run_id r ≠ run_id) →
  ∃ coefs,
    d !! "coefficients" = Some (VDict coefs)
    ∧ ∀ ch,
        (ch ∈ default _DEFAULT_CHANNELS channels →
         ∃ c, default (VFloat 0) (coefs !! ch) = VFloat c
              ∧ app._latest_mmm_coefficients session' !! ch = Some c
              ∧ (run_id ≠ EmptyString →
                 first_coefficient_by_channel (select_mmm_results session' (Some run_id)) !! ch
                 = Some c))
        ∧ (ch ∉ default _DEFAULT_CHANNELS channels →
           app._latest_mmm_coefficients session' !! ch = None).
Proof.
  intros Hcall Hold.
  assert (default _DEFAULT_CHANNELS channels ≠ []) as Hchs.
  { destruct (run_mmm_cases MMM_VERSION half_pow log1p fit_pipeline session run_id start_date
                end_date channels adstock_half_life n_boot mmm_version now)
      as [[_ Hraise]|[(? & _)|(? & _)]]; [|done|done].
    cbn zeta in Hraise. congruence. }
  apply run_mmm_Ok_inv in Hcall
    as (rows & coefs & r2 & -> & Hchannels & _ & Hcoefs & _ & Hall).
  exists coefs. split; [done|].
  assert (∀ r, r ∈ rows → MMMResults.run_id r = run_id ∧ MMMResults.created_at r = now
                          ∧ default (VFloat 0) (coefs !! MMMResults.channel r)
                            = VFloat (MMMResults.coefficient r)) as Hrows.
  { intros r Hr. apply Hall in Hr. tauto. }
  assert (∀ ch, ch ∈ default _DEFAULT_CHANNELS channels
                ↔ ∃ r, r ∈ rows ∧ MMMResults.channel r = ch) as Hch_rows.
  { intros ch. rewrite <- Hchannels, list_elem_of_fmap. split; intros (r & ? & ?); by exists r. }
  cbn [add_mmm_results mmm_results] in *.
  set (sorted := merge_sort newer_first (mmm_results session ++ rows)).
  assert (∀ r, r ∈ sorted ↔ r ∈ mmm_results session ∨ r ∈ rows) as Hsorted.
  { intros r. unfold sorted. by rewrite merge_sort_Permutation, elem_of_app. }
  assert (∀ r, r ∈ filter (λ r, MMMResults.run_id r = run_id) sorted ↔ r ∈ rows) as Hfiltered.
  { intros r. rewrite list_elem_of_filter, Hsorted. split.
    - intros [Hid [Hr|Hr]]; [|done]. by apply Hold in Hr as [_ ?].
    - intros Hr. split; [by apply Hrows|by right]. }
  assert (app._latest_mmm_coefficients (add_mmm_results session rows)
          = foldl (λ m r, <[MMMResults.channel r := MMMResults.coefficient r]> m) ∅
                  (filter (λ r, MMMResults.run_id r = run_id) sorted)) as ->.
  { unfold app._latest_mmm_coefficients. cbn [add_mmm_results mmm_results]. fold sorted.
    assert (StronglySorted newer_first sorted) as Hstrong
      by (apply StronglySorted_merge_sort; [apply newer_first_trans|apply newer_first_total]).
    destruct rows as [|rn rows']; [by destruct (default _DEFAULT_CHANNELS channels)|].
    assert (rn ∈ sorted) as Hrn by (apply Hsorted; right; by left).
    destruct sorted as [|r0 rest]; [by apply elem_of_nil in Hrn|].
    cbn zeta. replace (MMMResults.run_id r0) with run_id; [done|].
    assert (r0 ∈ mmm_results session ∨ r0 ∈ rn :: rows') as [Hr0|Hr0]
      by (apply Hsorted; by left).
    - exfalso. apply Hold in Hr0 as [Hlt _].
      destruct (Hrows rn ltac:(by left)) as (_ & Hnow & _).
      apply elem_of_cons in Hrn as [->|Hrn]; [lia|].
      apply StronglySorted_inv in Hstrong as [_ Hall0].
      apply (proj1 (Forall_forall _ _) Hall0) in Hrn. unfold newer_first in Hrn. lia.
    - symmetry. by apply Hrows. }
  intros ch. split.
  - intros Hch.
    destruct (foldl_insert_is_Some MMMResults.channel MMMResults.coefficient
                (filter (λ r, MMMResults.run_id r = run_id) sorted) ∅ ch) as [c Hc].
    { right. apply Hch_rows in Hch as (r & Hr & <-).
      apply list_elem_of_fmap_2. by apply Hfiltered. }
    exists c.
    apply foldl_insert_lookup in Hc as Hc'.
    destruct Hc' as [(r & Hr & Hrch & Hrc)|Hc']; [|by rewrite lookup_empty in Hc'].
    apply Hfiltered in Hr. destruct (Hrows r Hr) as (_ & _ & Hcoef).
    split; [by rewrite <- Hrch, <- Hrc|]. split; [done|].
    intros Hne.
    destruct (proj2 (first_coefficient_is_Some
                       (select_mmm_results (add_mmm_results session rows) (Some run_id)) ch))
      as [c' Hc'].
    { exists r. split; [|done]. apply elem_of_select_mmm_results.
      cbn [add_mmm_results mmm_results]. split; [apply elem_of_app; by right|].
      unfold run_matches, truthy. rewrite decide_False by done. by apply Hrows. }
    rewrite Hc'. f_equal.
    apply first_coefficient_from_row in Hc' as (r' & Hin' & Hch' & <-).
    apply elem_of_select_mmm_results in Hin' as [Hin' Hrun'].
    cbn [add_mmm_results mmm_results] in Hin'.
    unfold run_matches, truthy in Hrun'. rewrite decide_False in Hrun' by done.
    apply elem_of_app in Hin' as [Hin'|Hin'].
    { apply Hold in Hin' as [_ Hother]. by destruct Hother. }
    destruct (Hrows r' Hin') as (_ & _ & Hcoef').
    rewrite Hch', <- Hrch, Hcoef in Hcoef'. injection Hcoef' as Heq. congruence.
  - intros Hch. rewrite foldl_insert_not_elem_of; [apply lookup_empty|].
    intros (r & -> & Hr)%list_elem_of_fmap. apply Hch, Hch_rows. exists r.
    split; [by apply Hfiltered|done].
Qed.

End readback.

(** ** Order reconciliation *)

Section reconcile.
Import ingest.

Lemma or_float_Some (x : Qc) : or_float (Some x) 0 = x.
Proof. unfold or_float. by case_decide. Qed.

Lemma or_chain_idem (net total_price : option Qc) (revenue : Qc) :
  let n := or_float (or_optional net total_price) revenue in
  or_float (or_optional (Some n) total_price) revenue = n.
Proof.
  cbn zeta. unfold or_float, or_optional.
  destruct net as [x|], total_price as [y|];
    repeat (case_decide; subst; try done; try congruence).
Qed.

Lemma reconcile_foldl transactions orders n done_orders audit :
  foldl (reconcile_step transactions) (n, done_orders, audit) orders
  = ((n + length (omap (audit_row transactions) orders))%nat,
     done_orders ++ (reconciled_order transactions <$> orders),
     audit ++ omap (audit_row transactions) orders).
Proof.
  revert n done_orders audit. induction orders as [|o orders IH]; intros n done_orders audit.
  - cbn. by rewrite Nat.add_0_r, !(right_id_L [] (++)).
  - cbn [foldl]. rewrite omap_cons_eq, fmap_cons. unfold reconcile_step at 2.
    destruct (ShopifyOrder.id o) as [id|] eqn:Hid.
    + assert (audit_row transactions o = Some (reconcile_order transactions id o).2) as ->
        by (unfold audit_row; by rewrite Hid).
      assert (reconciled_order transactions o = (reconcile_order transactions id o).1) as ->
        by (unfold reconciled_order; by rewrite Hid).
      destruct (reconcile_order transactions id o) as [o' row].
      rewrite IH. cbn [fst snd length]. rewrite <- !(assoc_L (++)). cbn [app].
      by rewrite Nat.add_succ_r.
    + assert (audit_row transactions o = None) as ->
        by (unfold audit_row; by rewrite Hid).
      assert (reconciled_order transactions o = o) as ->
        by (unfold reconciled_order; by rewrite Hid).
      rewrite IH. by rewrite <- !(assoc_L (++)).
Qed.

Lemma reconcile_orders_eq orders transactions audit :
  reconcile_orders orders transactions audit
  = (length (omap (audit_row transactions) orders),
     reconciled_order transactions <$> orders,
     audit ++ omap (audit_row transactions) orders).
Proof. unfold reconcile_orders. by rewrite reconcile_foldl. Qed.

Lemma reconcile_order_idem transactions id o :
  (reconcile_order transactions id (reconcile_order transactions id o).1).1
  = (reconcile_order transactions id o).1.
Proof.
  unfold reconcile_order. cbn zeta. cbn [fst].
  cbn [ShopifyOrder.id ShopifyOrder.order_id ShopifyOrder.revenue ShopifyOrder.total_price
       ShopifyOrder.net_revenue ShopifyOrder.financial_status ShopifyOrder.cancelled_at].
  f_equal. f_equal.
  destruct (decide (filter (λ t, RawShopifyTransactions.order_id t = id) transactions ≠ []));
    [done|].
  apply or_chain_idem.
Qed.

Lemma reconciled_order_idem transactions o :
  reconciled_order transactions (reconciled_order transactions o)
  = reconciled_order transactions o.
Proof.
  unfold reconciled_order. destruct (ShopifyOrder.id o) as [id|] eqn:Hid; [|by rewrite Hid].
  change (ShopifyOrder.id (reconcile_order transactions id o).1) with (ShopifyOrder.id o).
  rewrite Hid. apply reconcile_order_idem.
Qed.

(** X22. What [reconcile_orders] writes: one audit row per order that
    has a primary key, in the order of the orders, and their number as
    the result; an order without a key is left as it is; of the others
    only [net_revenue] changes.  With transactions the new value is the
    successful sales and captures minus the absolute successful refunds,
    or zero for a cancelled order; without transactions it is the first
    of [net_revenue] and [total_price] that is neither missing nor zero,
    else [revenue], whatever the financial status and the cancellation. *)
Theorem reconcile_orders_net_revenue orders transactions audit :
  let r := reconcile_orders orders transactions audit in
  let keyed := filter (λ o, is_Some (ShopifyOrder.id o)) orders in
  (∃ rows, r.2 = audit ++ rows
           ∧ r.1.1 = length rows
           ∧ IngestAudit.order_id <$> rows = ShopifyOrder.order_id <$> keyed)
  ∧ length r.1.2 = length orders
  ∧ ∀ i o, orders !! i = Some o →
      ∃ o', r.1.2 !! i = Some o'
        ∧ ShopifyOrder.id o' = ShopifyOrder.id o
        ∧ ShopifyOrder.order_id o' = ShopifyOrder.order_id o
        ∧ ShopifyOrder.revenue o' = ShopifyOrder.revenue o
        ∧ ShopifyOrder.total_price o' = ShopifyOrder.total_price o
        ∧ ShopifyOrder.financial_status o' = ShopifyOrder.financial_status o
        ∧ ShopifyOrder.cancelled_at o' = ShopifyOrder.cancelled_at o
        ∧ (ShopifyOrder.id o = None → o' = o)
        ∧ ∀ id, ShopifyOrder.id o = Some id →
            let tx_list :=
              filter (λ t, RawShopifyTransactions.order_id t = id) transactions in
            ShopifyOrder.net_revenue o'
            = Some (match tx_list with
                    | [] => or_float (or_optional (ShopifyOrder.net_revenue o)
                                                  (ShopifyOrder.total_price o))
                                     (ShopifyOrder.revenue o)
                    | _ => match ShopifyOrder.cancelled_at o with
                           | None => sales tx_list - refunds tx_list
                           | Some _ => 0
                           end
                    end).
Proof.
  cbn zeta. rewrite reconcile_orders_eq. cbn [fst snd].
  split; [|split].
  - eexists. split; [done|]. split; [done|].
    induction orders as [|o orders IH]; [done|].
    rewrite omap_cons_eq. unfold audit_row at 1.
    destruct (ShopifyOrder.id o) as [id|] eqn:Hid.
    + rewrite filter_cons_True by by rewrite Hid. rewrite !fmap_cons, IH. done.
    + rewrite filter_cons_False; [done|]. rewrite Hid. by intros [? ?].
  - by rewrite length_fmap.
  - intros i o Hi. exists (reconciled_order transactions o).
    split; [by rewrite list_lookup_fmap, Hi|].
    unfold reconciled_order. destruct (ShopifyOrder.id o) as [id|] eqn:Hid.
    + unfold reconcile_order. cbn zeta. cbn [fst].
      cbn [ShopifyOrder.id ShopifyOrder.order_id ShopifyOrder.revenue ShopifyOrder.total_price
           ShopifyOrder.net_revenue ShopifyOrder.financial_status ShopifyOrder.cancelled_at].
      repeat split; try done.
      intros id' [= <-]. f_equal.
      destruct (filter (λ t, RawShopifyTransactions.order_id t = id) transactions)
        as [|t tx_list] eqn:Htx.
      * by rewrite decide_False by (intros H; by apply H).
      * rewrite decide_True by done.
        rewrite (decide_False (P := _ ∧ _)) by (by intros [? _]).
        destruct (ShopifyOrder.cancelled_at o); [by rewrite decide_True|].
        by rewrite decide_False by (intros H; by apply H).
    + repeat split; try done.
Qed.

(** X23. Reconciling again changes no order: a second call on the
    tables the first one left writes the same orders and returns the
    same count, and every audit row it adds reports a difference of
    zero. *)
Theorem reconcile_orders_idempotent orders transactions audit :
  let r := reconcile_orders orders transactions audit in
  let r' := reconcile_orders r.1.2 transactions r.2 in
  r'.1.2 = r.1.2
  ∧ r'.1.1 = r.1.1
  ∧ ∃ rows, r'.2 = r.2 ++ rows
      ∧ length rows = r.1.1
      ∧ Forall (λ row, IngestAudit.diff row = Some 0) rows.
Proof.
  cbn zeta. rewrite !reconcile_orders_eq. cbn [fst snd].
  assert (∀ o, audit_row transactions (reconciled_order transactions o)
               = (λ row, IngestAudit.mk (IngestAudit.order_id row)
                           (IngestAudit.computed_net_revenue row) (Some 0)
                           (IngestAudit.note row))
                   <$> audit_row transactions o) as Hrow.
  { intros o. unfold audit_row, reconciled_order.
    destruct (ShopifyOrder.id o) as [id|] eqn:Hid; [|by rewrite Hid].
    change (ShopifyOrder.id (reconcile_order transactions id o).1) with (ShopifyOrder.id o).
    rewrite Hid.
    unfold reconcile_order. cbn zeta. cbn [fst snd ShopifyOrder.id].
    cbn [ShopifyOrder.order_id ShopifyOrder.revenue ShopifyOrder.total_price
         ShopifyOrder.net_revenue ShopifyOrder.financial_status ShopifyOrder.cancelled_at
         IngestAudit.order_id IngestAudit.computed_net_revenue IngestAudit.note
         fmap option_fmap option_map].
    f_equal.
    assert (∀ x y : Qc, x = y → or_float (Some x) 0 - or_float (Some y) 0 = 0) as Hdiff.
    { intros x y ->. ring. }
    destruct (decide (filter (λ t, RawShopifyTransactions.order_id t = id) transactions ≠ [])).
    - f_equal. f_equal. by apply Hdiff.
    - f_equal; [f_equal; apply or_chain_idem|f_equal]. apply Hdiff, or_chain_idem. }
  assert (omap (audit_row transactions) (reconciled_order transactions <$> orders)
          = (λ row, IngestAudit.mk (IngestAudit.order_id row)
                      (IngestAudit.computed_net_revenue row) (Some 0)
                      (IngestAudit.note row))
              <$> omap (audit_row transactions) orders) as Hrows.
  { induction orders as [|o orders IH]; [done|].
    rewrite fmap_cons, !omap_cons_eq, Hrow, IH.
    by destruct (audit_row transactions o). }
  split; [|split].
  - rewrite <- list_fmap_compose. apply Forall_fmap_ext_1, Forall_forall.
    intros o _. apply reconciled_order_idem.
  - by rewrite Hrows, length_fmap.
  - eexists. split; [done|]. rewrite Hrows. split; [by rewrite length_fmap|].
    by apply Forall_fmap, Forall_forall.
Qed.

End reconcile.

(** ** Run metadata *)

Section run_metadata.
Import metadata.

#[local] Instance latest_first_trans : Transitive latest_first.
Proof. unfold latest_first. intros ???. lia. Qed.

#[local] Instance latest_first_total : Total latest_first.
Proof. unfold latest_first. intros ??. lia. Qed.

Lemma record_to_meta_id r : _record_to_meta r = r.
Proof.
  destruct r as [run ts mta mmm snap]. unfold _record_to_meta, or_str. cbn.
  f_equal; by case_decide.
Qed.

Lemma get_recent_runs_eq table :
  get_recent_runs table = take _MAX_RECENT_RUNS (merge_sort latest_first table).
Proof.
  unfold get_recent_runs. rewrite <- (list_fmap_id (take _ _)) at 2.
  apply Forall_fmap_ext_1, Forall_forall. intros r _. apply record_to_meta_id.
Qed.

(** X24. The recent runs are the newest rows of the table: at most 100
    of them and all of them when the table has no more, unchanged by
    the conversion, from the newest to the oldest; a row left out is
    no newer than any row listed; and the latest run is a row of the
    table that no row is newer than, absent exactly when the table is
    empty. *)
Theorem recent_runs_are_newest table :
  let recent := get_recent_runs table in
  length recent = min 100 (length table)
  ∧ StronglySorted latest_first recent
  ∧ (∃ older, recent ++ older ≡ₚ table
              ∧ ∀ r r', r ∈ recent → r' ∈ older →
                        (EngineRunMetadata.timestamp r' ≤ EngineRunMetadata.timestamp r)%Z)
  ∧ (∀ r, get_latest_run table = Some r →
          r ∈ table
          ∧ ∀ r', r' ∈ table →
                  (EngineRunMetadata.timestamp r' ≤ EngineRunMetadata.timestamp r)%Z)
  ∧ (get_latest_run table = None ↔ table = []).
Proof.
  cbn zeta. rewrite get_recent_runs_eq.
  assert (StronglySorted latest_first (merge_sort latest_first table)) as Hsorted
    by (apply StronglySorted_merge_sort; apply _).
  assert (get_latest_run table = head (merge_sort latest_first table)) as Hlatest.
  { unfold get_latest_run. destruct (merge_sort latest_first table) as [|r l]; [done|].
    cbn. by rewrite record_to_meta_id. }
  pose proof Hsorted as Hall.
  rewrite <- (take_drop _MAX_RECENT_RUNS (merge_sort latest_first table)) in Hsorted.
  split; [|split; [|split; [|split]]].
  - by rewrite length_take, <- (Permutation_length (merge_sort_Permutation latest_first table)).
  - by eapply StronglySorted_app_1_l.
  - exists (drop _MAX_RECENT_RUNS (merge_sort latest_first table)). split.
    + by rewrite take_drop, merge_sort_Permutation.
    + intros r r' Hr Hr'. by apply (StronglySorted_app_1_elem_of _ _ _ r r' Hsorted).
  - rewrite Hlatest. intros r Hr. clear Hsorted Hlatest.
    pose proof (merge_sort_Permutation latest_first table) as Hperm.
    destruct (merge_sort latest_first table) as [|r0 l]; [done|].
    injection Hr as ->. split; [rewrite <- Hperm; by left|].
    intros r' Hr'. rewrite <- Hperm in Hr'.
    apply elem_of_cons in Hr' as [->|Hr']; [done|].
    apply StronglySorted_inv in Hall as [_ Hall].
    by apply (proj1 (Forall_forall _ _) Hall) in Hr'.
  - rewrite Hlatest. split.
    + intros Hnone. clear Hsorted Hlatest Hall.
      pose proof (merge_sort_Permutation latest_first table) as Hperm.
      destruct (merge_sort latest_first table) as [|r l]; [|done].
      by apply Permutation.Permutation_nil.
    + intros ->. done.
Qed.

Context (MTA_VERSION MMM_VERSION DATA_SNAPSHOT_ID : string).

(** X25. A recorded run is read back: after [record_run] with a time
    stamp (the given one, else the clock) strictly above every time
    stamp already in the table, the latest run is the recorded one,
    with the given versions and snapshot, or the defaults in place of
    those that are missing or empty. *)
Theorem record_run_is_latest table run_id mta_version mmm_version data_snapshot_id timestamp
    now :
  (∀ r, r ∈ table → (EngineRunMetadata.timestamp r < default now timestamp)%Z) →
  get_latest_run (record_run MTA_VERSION MMM_VERSION DATA_SNAPSHOT_ID table run_id
                    mta_version mmm_version data_snapshot_id timestamp now)
  = Some (EngineRunMetadata.mk run_id (default now timestamp)
            (default MTA_VERSION (truthy mta_version))
            (default MMM_VERSION (truthy mmm_version))
            (default DATA_SNAPSHOT_ID (truthy data_snapshot_id))).
Proof.
  intros Hold. unfold get_latest_run, record_run.
  set (new := EngineRunMetadata.mk _ _ _ _ _).
  assert (StronglySorted latest_first (merge_sort latest_first (table ++ [new]%list)))
    as Hsorted by (apply StronglySorted_merge_sort; apply _).
  assert (new ∈ merge_sort latest_first (table ++ [new]%list)) as Hnew.
  { rewrite merge_sort_Permutation, elem_of_app. right. by left. }
  destruct (merge_sort latest_first (table ++ [new]%list)) as [|r0 rest] eqn:Hms;
    [by apply elem_of_nil in Hnew|].
  cbn. rewrite record_to_meta_id. f_equal.
  assert (r0 ∈ table ++ [new]%list) as Hr0.
  { rewrite <- (merge_sort_Permutation latest_first), Hms. by left. }
  apply elem_of_app in Hr0 as [Hr0|Hr0]; [|by apply list_elem_of_singleton in Hr0].
  exfalso. apply Hold in Hr0.
  apply elem_of_cons in Hnew as [Heq|Hnew].
  - rewrite <- Heq in Hr0. cbn in Hr0. lia.
  - apply StronglySorted_inv in Hsorted as [_ Hall].
    apply (proj1 (Forall_forall _ _) Hall) in Hnew. unfold latest_first in Hnew.
    cbn in Hnew. lia.
Qed.

End run_metadata.

(** ** Click identifiers carried by several click rows *)

Section duplicate_clicks.
Import click_id_attribution.

(** X26. When several click rows of the window carry the same click
    identifier, the last of them wins: the click dictionary maps an
    identifier to the channel, campaign and campaign name of the last
    window row that carries it, and an order credited by the click-ID
    pass is credited to that row. *)
Theorem last_click_row_wins session run_id start_date end_date :
  let window_clicks := clicks_in_window start_date end_date (raw_ad_clicks session) in
  let clicks := clicks_by_id session start_date end_date in
  (∀ key,
     clicks !! key
     = (λ r, (RawAdClicks.channel r, RawAdClicks.campaign_id r, RawAdClicks.campaign_name r))
         <$> last (filter (λ r, RawAdClicks.click_id r = key) window_clicks))
  ∧ ∀ o ev,
      order_event run_id clicks o = Some ev →
      ∃ cid r,
        RawOrder.click_id o = Some cid
        ∧ last (filter (λ r, RawAdClicks.click_id r = Py.strip cid) window_clicks) = Some r
        ∧ AttributionEvent.channel ev = RawAdClicks.channel r
        ∧ AttributionEvent.campaign_id ev = Some (RawAdClicks.campaign_id r)
        ∧ AttributionEvent.cost_center ev = RawAdClicks.campaign_name r.
Proof.
  cbn zeta.
  assert (∀ key,
            clicks_by_id session start_date end_date !! key
            = (λ r, (RawAdClicks.channel r, RawAdClicks.campaign_id r,
                     RawAdClicks.campaign_name r))
                <$> last (filter (λ r, RawAdClicks.click_id r = key)
                            (clicks_in_window start_date end_date (raw_ad_clicks session))))
    as Hlookup.
  { intros key. unfold clicks_by_id. rewrite foldl_insert_last, lookup_empty.
    by destruct (last _). }
  split; [done|].
  intros o ev Hev.
  apply order_event_fields in Hev
    as (_ & _ & _ & _ & _ & _ & cid & info & Hcid & Hinfo & Hch & Hcamp & Hname).
  rewrite Hlookup in Hinfo. apply fmap_Some in Hinfo as (r & Hr & ->).
  exists cid, r. by rewrite Hch, Hcamp, Hname.
Qed.

End duplicate_clicks.

(** ** Which row the API serves *)

Section served_row.
Import attribution_mmm_report.

Lemma StronglySorted_last {A} (R : relation A) (l : list A) (r x : A) :
  StronglySorted R l → last l = Some r → x ∈ l → x = r ∨ R x r.
Proof.
  intros Hsorted [l' ->]%last_Some [Hx|Hx]%elem_of_app.
  - right. apply (StronglySorted_app_1_elem_of _ _ _ x r Hsorted Hx). by left.
  - left. by apply list_elem_of_singleton in Hx.
Qed.

(** X27. The coefficient the API serves for a channel belongs to the run
    of a newest row of [mmm_results], and among the rows of that run for
    the channel it is that of an oldest one: where a run wrote a channel
    more than once, the API serves the first value written, while the
    comparison report takes the newest row. *)
Theorem latest_coefficients_serve_oldest_row session ch c :
  app._latest_mmm_coefficients session !! ch = Some c →
  ∃ r0 r,
    r0 ∈ mmm_results session
    ∧ (∀ r', r' ∈ mmm_results session →
             (MMMResults.created_at r' ≤ MMMResults.created_at r0)%Z)
    ∧ r ∈ mmm_results session
    ∧ MMMResults.run_id r = MMMResults.run_id r0
    ∧ MMMResults.channel r = ch
    ∧ MMMResults.coefficient r = c
    ∧ ∀ r', r' ∈ mmm_results session →
            MMMResults.run_id r' = MMMResults.run_id r0 →
            MMMResults.channel r' = ch →
            (MMMResults.created_at r ≤ MMMResults.created_at r')%Z.
Proof.
  unfold app._latest_mmm_coefficients. cbn zeta.
  assert (StronglySorted newer_first (merge_sort newer_first (mmm_results session)))
    as Hsorted
    by (apply StronglySorted_merge_sort; [apply newer_first_trans|apply newer_first_total]).
  assert (∀ r, r ∈ merge_sort newer_first (mmm_results session) ↔ r ∈ mmm_results session)
    as Hperm by (intros r; by rewrite merge_sort_Permutation).
  destruct (merge_sort newer_first (mmm_results session)) as [|r0 rest] eqn:Hms; [done|].
  rewrite foldl_insert_last, lookup_empty.
  destruct (last _) as [r|] eqn:Hlast; [|done]. intros [= <-].
  exists r0, r.
  assert (StronglySorted newer_first
            (filter (λ r, MMMResults.channel r = ch)
               (filter (λ r, MMMResults.run_id r = MMMResults.run_id r0) (r0 :: rest))))
    as Hfiltered by by do 2 apply StronglySorted_filter.
  pose proof (last_Some_elem_of _ _ Hlast) as Hr.
  apply list_elem_of_filter in Hr as [Hch [Hrun Hr]%list_elem_of_filter].
  split; [apply Hperm; by left|]. split.
  { intros r' Hr'%Hperm. apply elem_of_cons in Hr' as [->|Hr']; [done|].
    apply StronglySorted_inv in Hsorted as [_ Hall].
    by apply (proj1 (Forall_forall _ _) Hall) in Hr'. }
  split; [by apply Hperm|]. split; [done|]. split; [done|]. split; [done|].
  intros r' Hr'%Hperm Hrun' Hch'.
  destruct (StronglySorted_last _ _ r r' Hfiltered Hlast) as [->|Hle]; [|done|done].
  apply list_elem_of_filter. split; [done|]. by apply list_elem_of_filter.
Qed.

End served_row.

(** * Instances of the further properties *)

Lemma run_attribution_appends_witness :
  ∃ rows, clicked_run_session = add_attribution_events clicked_session rows
        ∧ 1%nat = length rows
        ∧ Forall (λ ev, AttributionEvent.run_id ev = "run") rows.
Proof.
  refine (run_attribution_appends (λ _ _, ∅) clicked_session "run" 0 10 None None 10
            1%nat clicked_run_session _).
  reflexivity.
Defined.

Lemma fully_clicked_run_witness :
  attribution_runner.run_attribution (λ _ _, ∅) clicked_session "run" 0 10 None None 10
  = Some (length (window_orders clicked_session 0 10),
          add_attribution_events clicked_session (click_events clicked_session "run" 0 10))
  ∧ AttributionEvent.order_id <$> click_events clicked_session "run" 0 10
    = RawOrder.order_id <$> window_orders clicked_session 0 10.
Proof.
  refine (fully_clicked_run (λ _ _, ∅) clicked_session "run" 0 10 None None 10 _).
  intros o Ho.
  change (window_orders clicked_session 0 10) with [sample_clicked_order]%list in Ho.
  apply list_elem_of_singleton in Ho as ->. eexists. reflexivity.
Defined.

Lemma shares_sum_to_one_witness :
  ∃ s, attribution_mmm_report.shares scenario_attribution_share = Py.Ok s
       ∧ dom s = dom scenario_attribution_share
       ∧ (∀ ch, Py.get0 s ch
                = Py.get0 scenario_attribution_share ch
                  / Py.sum_values scenario_attribution_share)
       ∧ Py.sum_values s = 1.
Proof.
  refine (shares_sum_to_one scenario_attribution_share _). by vm_compute.
Defined.

Lemma disagreement_at_most_two_witness :
  Qcabs (Py.sum_values scenario_attribution_share - Py.sum_values scenario_mmm_share)
  ≤ attribution_mmm_report.disagreement scenario_attribution_share scenario_mmm_share
  ∧ attribution_mmm_report.disagreement scenario_attribution_share scenario_mmm_share
    ≤ Q2Qc 2.
Proof.
  refine (conj (proj1 (disagreement_at_most_two scenario_attribution_share scenario_mmm_share))
               (proj2 (disagreement_at_most_two scenario_attribution_share scenario_mmm_share)
                  _ _ _ _)).
  - apply map_Forall_insert_2; [by vm_compute|]. apply map_Forall_singleton. by vm_compute.
  - apply map_Forall_insert_2; [by vm_compute|]. apply map_Forall_singleton. by vm_compute.
  - by apply Qc_is_canon.
  - by apply Qc_is_canon.
Defined.

Lemma report_without_mmm_rows_witness :
  ∃ rep,
    attribution_mmm_report.build_attribution_mmm_report (λ spend _, spend) report_session
      0 10 None (Some "run-z") attribution_mmm_report.INSTABILITY_THRESHOLD = Py.Ok rep
    ∧ attribution_mmm_report.mmm_share rep = ∅
    ∧ Py.sum_values (attribution_mmm_report.attribution_share rep) = 1
    ∧ attribution_mmm_report.disagreement_score rep = 1
    ∧ (attribution_mmm_report.instability_flagged rep = true
       ↔ attribution_mmm_report.INSTABILITY_THRESHOLD < 1).
Proof.
  refine (report_without_mmm_rows (λ spend _, spend) report_session 0 10 None (Some "run-z")
            attribution_mmm_report.INSTABILITY_THRESHOLD _ _ _).
  - intros r ->%list_elem_of_singleton. by vm_compute.
  - change (selected_events report_session 0 10 None)
      with (attribution_events report_session).
    repeat constructor; by vm_compute.
  - by vm_compute.
Defined.

Lemma run_mmm_rows_witness :
  ∃ rows coefs r2,
    add_mmm_results two_runs_session sample_fit_rows = add_mmm_results two_runs_session rows
    ∧ MMMResults.channel <$> rows = ["meta"; "google"]%list
    ∧ sample_fit_result !! "run_id" = Some (mmm_runner.VStr "run-c")
    ∧ sample_fit_result !! "coefficients" = Some (mmm_runner.VDict coefs)
    ∧ sample_fit_result !! "r2" = Some r2
    ∧ Forall (λ r, MMMResults.run_id r = "run-c"
                   ∧ MMMResults.created_at r = 5%Z
                   ∧ default (mmm_runner.VFloat 0) (coefs !! MMMResults.channel r)
                     = mmm_runner.VFloat (MMMResults.coefficient r)
                   ∧ mmm_runner.as_optional_float r2
                     = Py.Ok (MMMResults.goodness_of_fit_r2 r)) rows.
Proof.
  refine (run_mmm_rows "v1" (λ x, x) (λ x, x) (λ _ _ _ _ _ _, Py.Ok sample_pipeline_out)
            two_runs_session "run-c" 1 1 (Some ["meta"; "google"]%list) (Q2Qc 7) 500 None 5
            sample_fit_result (add_mmm_results two_runs_session sample_fit_rows) _).
  reflexivity.
Defined.


Lemma latest_coefficients_after_run_mmm_witness :
  ∃ coefs,
    sample_fit_result !! "coefficients" = Some (mmm_runner.VDict coefs)
    ∧ ∀ ch,
        (ch ∈ ["meta"; "google"] →
         ∃ c, default (mmm_runner.VFloat 0) (coefs !! ch) = mmm_runner.VFloat c
              ∧ app._latest_mmm_coefficients
                  (add_mmm_results two_runs_session sample_fit_rows) !! ch = Some c
              ∧ ("run-c" ≠ EmptyString →
                 attribution_mmm_report.first_coefficient_by_channel
                   (attribution_mmm_report.select_mmm_results
                      (add_mmm_results two_runs_session sample_fit_rows) (Some "run-c")) !! ch
                 = Some c))
        ∧ (ch ∉ ["meta"; "google"] →
           app._latest_mmm_coefficients
             (add_mmm_results two_runs_session sample_fit_rows) !! ch = None).
Proof.
  refine (latest_coefficients_after_run_mmm "v1" (λ x, x) (λ x, x)
            (λ _ _ _ _ _ _, Py.Ok sample_pipeline_out)
            two_runs_session "run-c" 1 1 (Some ["meta"; "google"]%list) (Q2Qc 7) 500 None 5
            sample_fit_result (add_mmm_results two_runs_session sample_fit_rows) _ _).
  - reflexivity.
  - intros r [->|[->|[->|[]%elem_of_nil]%elem_of_cons]%elem_of_cons]%elem_of_cons;
      (split; [by vm_compute|done]).
Defined.

Lemma record_run_is_latest_witness :
  metadata.get_latest_run
    (metadata.record_run "mta-2" "mmm-2" "snap-2" sample_runs "run-c" None (Some "mmm-3")
       (Some EmptyString) (Some 7%Z) 0)
  = Some (EngineRunMetadata.mk "run-c" 7 "mta-2" "mmm-3" "snap-2").
Proof.
  refine (record_run_is_latest "mta-2" "mmm-2" "snap-2" sample_runs "run-c" None
            (Some "mmm-3") (Some EmptyString) (Some 7%Z) 0 _).
  intros r [->|[->|[]%elem_of_nil]%elem_of_cons]%elem_of_cons; by vm_compute.
Defined.

Lemma latest_coefficients_serve_oldest_row_witness :
  ∃ r0 r,
    r0 ∈ mmm_results reused_run_session
    ∧ (∀ r', r' ∈ mmm_results reused_run_session →
             (MMMResults.created_at r' ≤ MMMResults.created_at r0)%Z)
    ∧ r ∈ mmm_results reused_run_session
    ∧ MMMResults.run_id r = MMMResults.run_id r0
    ∧ MMMResults.channel r = "meta"
    ∧ MMMResults.coefficient r = Q2Qc 2
    ∧ ∀ r', r' ∈ mmm_results reused_run_session →
            MMMResults.run_id r' = MMMResults.run_id r0 →
            MMMResults.channel r' = "meta" →
            (MMMResults.created_at r ≤ MMMResults.created_at r')%Z.
Proof.
  refine (latest_coefficients_serve_oldest_row reused_run_session "meta" (Q2Qc 2) _).
  reflexivity.
Defined.
